(** * MGA subsidios: generator and document builder

    A shallow embedding of [generators/mga_subsidios_generator.py] and of
    the parts of [generators/mga_subsidios_builder.py] that decide what goes
    on page 1, on the value-chain page, on the indicator and regionalization
    pages and in the focalization table.

    Python values are the JSON values [json.loads] produces.  Numbers are the
    integers: a JSON number with a fraction or an exponent is outside the
    model.  A Python [str] is a [string]; its characters are the code points
    below 256.  Library calls that are not code of the repository
    ([json.loads], [float], [format], [datetime.now]) are Section variables;
    [json.loads] comes with the exception it raises, which need not be a
    [JSONDecodeError].  Resource exhaustion of the interpreter itself
    (MemoryError, a RecursionError outside [json.loads]) is not modelled. *)

From Stdlib Require Import List String Ascii ZArith Bool Arith Lia Permutation.
From Stdlib Require Import DecimalString.
Import ListNotations.
Open Scope string_scope.
Open Scope list_scope.
Set Warnings "-register-all".
Set Warnings "-abstract-large-number".

(* ================================================================== *)
(** * Python values, exceptions and dictionaries *)

Module Py.

Inductive exn : Type :=
| AttributeError | TypeError | IndexError | KeyError | ValueError
| JSONDecodeError | RecursionError.

Definition exn_eqb (a b : exn) : bool :=
  match a, b with
  | AttributeError, AttributeError | TypeError, TypeError
  | IndexError, IndexError | KeyError, KeyError
  | ValueError, ValueError | JSONDecodeError, JSONDecodeError
  | RecursionError, RecursionError => true
  | _, _ => false
  end.

(** The outcome of a call: a value, or an exception on its way up. *)
Inductive result (A : Type) : Type :=
| Ok (a : A)
| Raise (e : exn).
Arguments Ok {A} a.
Arguments Raise {A} e.

Definition bind {A B : Type} (c : result A) (f : A -> result B) : result B :=
  match c with
  | Ok a => f a
  | Raise e => Raise e
  end.

(** [try: c except <catches>: handler] *)
Definition try_except {A : Type} (c : result A) (catches : exn -> bool)
    (handler : result A) : result A :=
  match c with
  | Ok a => Ok a
  | Raise e => if catches e then handler else Raise e
  end.

Definition is_ok {A : Type} (c : result A) : bool :=
  match c with Ok _ => true | Raise _ => false end.

(** [for x in xs: acc = step acc x], stopping at the first exception. *)
Fixpoint for_each {A S : Type} (step : S -> A -> result S) (xs : list A)
    (acc : S) : result S :=
  match xs with
  | [] => Ok acc
  | x :: xs' => bind (step acc x) (for_each step xs')
  end.

Inductive pyval : Type :=
| PNone
| PBool (b : bool)
| PInt (z : Z)
| PStr (s : string)
| PList (l : list pyval)
| PDict (d : list (string * pyval)).

(** A [dict] with [str] keys, in insertion order. *)
Definition pydict : Type := list (string * pyval).

(** Insertion-ordered dictionaries over any key type with an equality
    test.  A key occurs at most once; assigning to a key that is present
    keeps its position (and the key object already stored). *)
Section OrderedDict.
Context {K V : Type} (eqb : K -> K -> bool).

Fixpoint od_get (d : list (K * V)) (k : K) : option V :=
    match d with
    | [] => None
    | (k', v) :: d' => if eqb k' k then Some v else od_get d' k
    end.

Fixpoint od_set (d : list (K * V)) (k : K) (v : V) : list (K * V) :=
    match d with
    | [] => [(k, v)]
    | (k', v') :: d' =>
        if eqb k' k then (k', v) :: d' else (k', v') :: od_set d' k v
    end.

Definition od_mem (d : list (K * V)) (k : K) : bool :=
    match od_get d k with Some _ => true | None => false end.

  (** [d.update(e)], which is also what [{**d, **e}] builds. *)
Definition od_update (d e : list (K * V)) : list (K * V) :=
    fold_left (fun acc kv => od_set acc (fst kv) (snd kv)) e d.
End OrderedDict.

Definition dict_get (d : pydict) (k : string) : option pyval :=
  od_get String.eqb d k.
Definition dict_set (d : pydict) (k : string) (v : pyval) : pydict :=
  od_set String.eqb d k v.
Definition dict_update (d e : pydict) : pydict := od_update String.eqb d e.

(** [d.get(k, default)] on a value known to be a dict. *)
Definition get (d : pydict) (k : string) (default : pyval) : pyval :=
  match dict_get d k with Some v => v | None => default end.

(** [v.get(k, default)] on any value: only a dict has [get]. *)
Definition py_get (v : pyval) (k : string) (default : pyval) : result pyval :=
  match v with
  | PDict d => Ok (get d k default)
  | _ => Raise AttributeError
  end.

(** Truth value testing ([if v], [not v], [v or w]). *)
Definition truthy (v : pyval) : bool :=
  match v with
  | PNone => false
  | PBool b => b
  | PInt z => negb (z =? 0)%Z
  | PStr s => negb (s =? "")%string
  | PList l => match l with [] => false | _ => true end
  | PDict d => match d with [] => false | _ => true end
  end.

Definition py_or (a b : pyval) : pyval := if truthy a then a else b.

(** [chr(n)] as a one-character string. *)
Definition chr (n : nat) : string := String (ascii_of_nat n) EmptyString.

Fixpoint chars (s : string) : list pyval :=
  match s with
  | EmptyString => []
  | String c s' => PStr (String c EmptyString) :: chars s'
  end.

(** [for x in v]: the elements of a list, the keys of a dict, the
    characters of a str; anything else is not iterable. *)
Definition py_iter (v : pyval) : result (list pyval) :=
  match v with
  | PList l => Ok l
  | PDict d => Ok (map (fun kv => PStr (fst kv)) d)
  | PStr s => Ok (chars s)
  | _ => Raise TypeError
  end.

End Py.
Import Py.

Notation "x <- c ;; k" := (bind c (fun x => k))
  (at level 61, c at next level, right associativity).

(* ================================================================== *)
(** * Strings and the regular expressions of [_extract_json] *)

Module Re.

(** Python's [str.isspace] and the class [\s] of [re] on a [str] pattern,
    for code points below 256. *)
Definition is_space (c : ascii) : bool :=
  let n := nat_of_ascii c in
  (((9 <=? n) && (n <=? 13)) || ((28 <=? n) && (n <=? 32))
   || (n =? 133) || (n =? 160))%nat.

(** The class [[\s\S]]: every character, line ends included. *)
Definition any_char (c : ascii) : bool := is_space c || negb (is_space c).

Fixpoint strip_prefix (t s : string) : option string :=
  match t with
  | EmptyString => Some s
  | String a t' =>
      match s with
      | String b s' => if Ascii.eqb a b then strip_prefix t' s' else None
      | EmptyString => None
      end
  end.

Definition starts_with (t s : string) : bool :=
  match strip_prefix t s with Some _ => true | None => false end.

(** [t in s] *)
Fixpoint contains (t s : string) : bool :=
  starts_with t s
  || match s with
     | String _ s' => contains t s'
     | EmptyString => false
     end.

Fixpoint take (n : nat) (s : string) : string :=
  match n, s with
  | S n', String c s' => String c (take n' s')
  | _, _ => EmptyString
  end.

(** The text between the start of [s] and the start of its suffix [rest]. *)
Definition consumed (s rest : string) : string :=
  take (String.length s - String.length rest) s.

(** The constructs the three patterns use. *)
Inductive regex : Type :=
| Lit (t : string)                (* literal text *)
| StarG (cls : ascii -> bool)     (* [cls*], greedy *)
| StarL (cls : ascii -> bool)     (* [cls*?], lazy *)
| Grp (r : regex)                 (* [( r )], the capturing group 1 *)
| Cat (r1 r2 : regex).

Section Matcher.
Context {R : Type}.

  (** Greedy star: take one more character first, fall back to stopping. *)
Fixpoint star_greedy (cls : ascii -> bool) (s : string)
      (k : string -> option R) : option R :=
    match s with
    | String c s' =>
        if cls c then
          match star_greedy cls s' k with
          | Some r => Some r
          | None => k s
          end
        else k s
    | EmptyString => k s
    end.

  (** Lazy star: stop first, fall back to taking one more character. *)
Fixpoint star_lazy (cls : ascii -> bool) (s : string)
      (k : string -> option R) : option R :=
    match k s with
    | Some r => Some r
    | None =>
        match s with
        | String c s' => if cls c then star_lazy cls s' k else None
        | EmptyString => None
        end
    end.

  (** Backtracking match of [r] at the start of [s]; [g] is what group 1
      holds so far, [k] matches the rest of the pattern. *)
Fixpoint rmatch (r : regex) (s : string) (g : option string)
      (k : string -> option string -> option R) : option R :=
    match r with
    | Lit t =>
        match strip_prefix t s with
        | Some s' => k s' g
        | None => None
        end
    | StarG cls => star_greedy cls s (fun s' => k s' g)
    | StarL cls => star_lazy cls s (fun s' => k s' g)
    | Grp r1 => rmatch r1 s g (fun s' _ => k s' (Some (consumed s s')))
    | Cat r1 r2 => rmatch r1 s g (fun s' g' => rmatch r2 s' g' k)
    end.
End Matcher.

(** A match object: [group(0)] and, when the pattern has a group,
    [group(1)]. *)
Record re_match : Type := { group0 : string; group1 : option string }.

Definition match_here (r : regex) (s : string) : option re_match :=
  rmatch r s None (fun s' g => Some {| group0 := consumed s s'; group1 := g |}).

(** [re.search]: the match at the leftmost position that has one. *)
Fixpoint search (r : regex) (s : string) : option re_match :=
  match match_here r s with
  | Some m => Some m
  | None =>
      match s with
      | String _ s' => search r s'
      | EmptyString => None
      end
  end.

(** [m.group(n)] for n = 0, 1. *)
Definition group (m : re_match) (n : nat) : result string :=
  match n with
  | 0 => Ok (group0 m)
  | 1 => match group1 m with Some t => Ok t | None => Raise IndexError end
  | _ => Raise IndexError
  end.

(** A pattern as the source writes it, with its syntax tree. *)
Record pattern : Type := { src : string; rx : regex }.

End Re.
Import Re.

(* ================================================================== *)
(** * [MGASubsidiosGenerator] *)

Module Generator.

Definition fence : string := "```".

(** [r'```json\s*([\s\S]*?)\s*```'] *)
Definition pat_json_fence : pattern :=
  {| src := "```json\s*([\s\S]*?)\s*```";
     rx := Cat (Lit "```json") (Cat (StarG is_space)
            (Cat (Grp (StarL any_char)) (Cat (StarG is_space) (Lit "```")))) |}.

(** [r'```\s*([\s\S]*?)\s*```'] *)
Definition pat_fence : pattern :=
  {| src := "```\s*([\s\S]*?)\s*```";
     rx := Cat (Lit "```") (Cat (StarG is_space)
            (Cat (Grp (StarL any_char)) (Cat (StarG is_space) (Lit "```")))) |}.

(** [r'\{[\s\S]*\}'] *)
Definition pat_braces : pattern :=
  {| src := "\{[\s\S]*\}";
     rx := Cat (Lit "{") (Cat (StarG any_char) (Lit "}")) |}.

Definition json_patterns : list pattern :=
  [pat_json_fence; pat_fence; pat_braces].

Section ExtractJson.
  (** [json.loads] on a [str]: the value, or the exception it raises.
      That is [json.JSONDecodeError] for a text that is not JSON, but also
      a plain [ValueError] for an integer literal of more than 4300 digits
      and [RecursionError] for a nesting that is too deep. *)
Variable json_loads : string -> result pyval.

Definition catches_decode (e : exn) : bool := exn_eqb e JSONDecodeError.
Definition catches_decode_index (e : exn) : bool :=
    exn_eqb e JSONDecodeError || exn_eqb e IndexError.

  (** The [for pattern in json_patterns] loop and the final [return {}]. *)
Fixpoint try_patterns (ps : list pattern) (response : string)
      : result pyval :=
    match ps with
    | [] => Ok (PDict [])
    | p :: ps' =>
        match search (rx p) response with
        | Some m =>
            try_except
              (json_str <- (if contains fence (src p)
                            then group m 1 else group m 0) ;;
               json_loads json_str)
              catches_decode_index
              (try_patterns ps' response)
        | None => try_patterns ps' response
        end
    end.

Definition _extract_json (response : string) : result pyval :=
    try_except (json_loads response) catches_decode
               (try_patterns json_patterns response).
End ExtractJson.

(** [{**a, **b, ...}]: each operand must be a mapping. *)
Definition unpack_into (acc : pydict) (v : pyval) : result pydict :=
  match v with
  | PDict d => Ok (dict_update acc d)
  | _ => Raise TypeError
  end.

Definition dict_display (operands : list pyval) : result pydict :=
  for_each unpack_into operands [].

(** The merge in [generate_complete]:
    [{**ai_content_1_5, **ai_content_6_11, **ai_content_12_16,
      **ai_content_17_21, **ai_content_22_24}]. *)
Definition merge_content (c_1_5 c_6_11 c_12_16 c_17_21 c_22_24 : pyval)
    : result pydict :=
  dict_display [c_1_5; c_6_11; c_12_16; c_17_21; c_22_24].

End Generator.

(* ================================================================== *)
(** * [MGASubsidiosBuilder]: page 1, value chain, indicator and
      regionalization pages *)

Module Builder.

(** [d.get(k)]: the default is [None]. *)
Definition get_none (d : pydict) (k : string) : pyval := get d k PNone.

(** [[f x for x in xs]] where [f] may raise. *)
Fixpoint map_m {A B : Type} (f : A -> result B) (xs : list A)
    : result (list B) :=
  match xs with
  | [] => Ok []
  | x :: xs' => y <- f x ;; ys <- map_m f xs' ;; Ok (y :: ys)
  end.

(** The same over [enumerate(xs)], counting from [i]. *)
Fixpoint mapi_m {A B : Type} (f : nat -> A -> result B) (i : nat)
    (xs : list A) : result (list B) :=
  match xs with
  | [] => Ok []
  | x :: xs' => y <- f i x ;; ys <- mapi_m f (S i) xs' ;; Ok (y :: ys)
  end.

(** The literal ['Inversión']. *)
Definition Inversion : string := "Inversi" ++ chr 243 ++ "n".

(** [str(n)] for a natural number. *)
Definition str_nat (n : nat) : string :=
  NilZero.string_of_uint (Nat.to_uint n).

(** ** Page 1: the merge with the form data in [build] *)

Section Page1.
(** [datetime.now().strftime(...)] as read in [build] and, later, in
    [_add_page_1_datos_basicos]. *)
Variables now now_render : string.

(** Lines 60-74 of [build]: [page1_content] after the assignments. *)
Definition page1_content (data ai_content : pydict) : result pydict :=
  match get ai_content "pagina_1_datos_basicos" (PDict []) with
  | PDict p =>
      let form k := get_none data k in
      let p := dict_set p "nombre"
                 (py_or (py_or (get_none p "nombre") (form "nombre_proyecto"))
                        (PStr "")) in
      let p := dict_set p "nombre_proyecto"
                 (py_or (form "nombre_proyecto") (PStr "")) in
      let p := dict_set p "codigo_bpin"
                 (py_or (py_or (get_none p "codigo_bpin") (form "bpin"))
                        (PStr "")) in
      let p := dict_set p "identificador"
                 (py_or (py_or (get_none p "identificador")
                               (form "identificador")) (PStr "")) in
      let p := dict_set p "formulador_ciudadano"
                 (py_or (py_or (get_none p "formulador_ciudadano")
                               (form "responsable")) (PStr "")) in
      let p := dict_set p "formulador_oficial"
                 (py_or (py_or (get_none p "formulador_oficial")
                               (form "responsable")) (PStr "")) in
      let p := dict_set p "fecha_creacion"
                 (py_or (py_or (get_none p "fecha_creacion")
                               (form "fecha_creacion")) (PStr now)) in
      let p := if negb (truthy (get_none p "sector")) && truthy (form "sector")
               then dict_set p "sector" (form "sector") else p in
      Ok p
  | _ => Raise AttributeError
  end.

(** What [_add_page_1_datos_basicos] writes: the letterhead title and the
    value of each field. *)
Record page1 : Type := {
  p1_titulo : pyval;
  p1_nombre : pyval;
  p1_tipologia : pyval;
  p1_codigo_bpin : pyval;
  p1_sector : pyval;
  p1_es_proyecto_tipo : pyval;
  p1_fecha_creacion : pyval;
  p1_identificador : pyval;
  p1_formulador_ciudadano : pyval;
  p1_formulador_oficial : pyval
}.

Definition _add_page_1_datos_basicos (content : pydict) : page1 :=
  {| p1_titulo := py_or (get content "nombre_proyecto" (PStr ""))
                        (get content "nombre" (PStr ""));
     p1_nombre := get content "nombre" (PStr "");
     p1_tipologia := get content "tipologia"
                       (PStr "A - PIIP - Bienes y Servicios");
     p1_codigo_bpin := get content "codigo_bpin" (PStr "");
     p1_sector := get content "sector" (PStr "");
     p1_es_proyecto_tipo := get content "es_proyecto_tipo" (PStr "No");
     p1_fecha_creacion := get content "fecha_creacion" (PStr now_render);
     p1_identificador := get content "identificador" (PStr "");
     p1_formulador_ciudadano := get content "formulador_ciudadano" (PStr "");
     p1_formulador_oficial := get content "formulador_oficial" (PStr "") |}.

End Page1.

(** ** Page 14: the value chain *)

(** One activity of the right-hand cell: code, name, cost and stage. *)
Record actividad : Type := {
  a_codigo : pyval; a_nombre : pyval; a_costo : pyval; a_etapa : pyval
}.

(** One product row: the values of the left-hand cell and the activities
    of the right-hand cell. *)
Record producto : Type := {
  pr_codigo : pyval; pr_nombre : pyval; pr_complemento : pyval;
  pr_medido : pyval; pr_cantidad : pyval; pr_costo : pyval;
  pr_etapa : pyval; pr_personas : pyval; pr_acumulativo : pyval;
  pr_poblacion : pyval;
  pr_actividades : list actividad
}.

Record objetivo : Type := {
  o_numero : pyval; o_costo : pyval; o_descripcion : pyval;
  o_productos : list producto
}.

Record cadena_valor : Type := {
  cv_costo_total : pyval;
  cv_objetivos : list objetivo
}.

Definition render_actividad (act : pyval) : result actividad :=
  codigo <- py_get act "codigo" (PStr "") ;;
  nombre <- py_get act "nombre" (PStr "") ;;
  descripcion <- (if truthy nombre then Ok nombre
                  else py_get act "descripcion" (PStr "")) ;;
  costo <- py_get act "costo" (PStr "") ;;
  etapa <- py_get act "etapa" (PStr Inversion) ;;
  Ok {| a_codigo := codigo; a_nombre := descripcion;
        a_costo := costo; a_etapa := etapa |}.

Definition render_producto (content : pydict) (top_level_actividades : pyval)
    (idx : nat) (prod : pyval) : result producto :=
  match prod with
  | PDict p =>
      let prod_actividades := get p "actividades" (PList []) in
      let prod_actividades :=
        if negb (truthy prod_actividades)
        then py_or top_level_actividades (get content "actividades" (PList []))
        else prod_actividades in
      acts <- py_iter prod_actividades ;;
      actividades <- map_m render_actividad acts ;;
      Ok {| pr_codigo := get p "codigo" (PStr ("1." ++ str_nat (idx + 1)));
            pr_nombre := get p "nombre" (PStr "");
            pr_complemento := py_or (get p "complemento" (PStr ""))
                                    (get p "complemento_info" (PStr ""));
            pr_medido := py_or (get p "medido" (PStr ""))
                               (get p "unidad" (PStr ""));
            pr_cantidad := get p "cantidad" (PStr "");
            pr_costo := get p "costo" (PStr "");
            pr_etapa := get p "etapa" (PStr Inversion);
            pr_personas := py_or (get p "personas" (PStr ""))
                                 (get p "num_personas" (PStr ""));
            pr_acumulativo := get p "acumulativo" (PStr "No Acumulativo");
            pr_poblacion := get p "poblacion_beneficiaria" (PStr "");
            pr_actividades := actividades |}
  | _ => Raise AttributeError
  end.

Definition render_objetivo (content : pydict) (costo_total : pyval)
    (top_level_productos top_level_actividades : pyval) (obj : pyval)
    : result objetivo :=
  match obj with
  | PDict o =>
      let productos := get o "productos" (PList []) in
      let productos :=
        if negb (truthy productos) then top_level_productos else productos in
      let productos :=
        if negb (truthy productos) then
          let single_prod := get content "producto" (PDict []) in
          if truthy single_prod then PList [single_prod] else productos
        else productos in
      rows <- (if truthy productos then
                 prods <- py_iter productos ;;
                 mapi_m (render_producto content top_level_actividades) 0 prods
               else Ok []) ;;
      Ok {| o_numero := get o "numero" (PStr "1");
            o_costo := get o "costo" costo_total;
            o_descripcion := get o "descripcion" (PStr "");
            o_productos := rows |}
  | _ => Raise AttributeError
  end.

(** [_add_page_14_cadena_valor]; [data] is [self._data]. *)
Definition _add_page_14_cadena_valor (data : pydict) (content : pyval)
    : result cadena_valor :=
  match content with
  | PDict c =>
      let nombre_proyecto := get data "nombre_proyecto" (PStr "") in
      let costo_total := py_or (get c "costo_total" (PStr ""))
                               (get data "valor_total" (PStr "")) in
      let objetivos := get c "objetivos" (PList []) in
      let top_level_productos := get c "productos" (PList []) in
      let top_level_actividades := get c "actividades" (PList []) in
      let objetivos :=
        if negb (truthy objetivos)
           && truthy (py_or top_level_productos (get_none c "objetivo_general"))
        then PList [PDict [("numero", PStr "1");
                           ("descripcion",
                            get c "objetivo_general" nombre_proyecto);
                           ("costo", costo_total);
                           ("productos", top_level_productos)]]
        else if negb (truthy objetivos) then
          let obj := get c "objetivo_especifico" (PDict []) in
          if truthy obj then PList [obj] else objetivos
        else objetivos in
      objs <- py_iter objetivos ;;
      blocks <- map_m (render_objetivo c costo_total top_level_productos
                                       top_level_actividades) objs ;;
      Ok {| cv_costo_total := costo_total; cv_objetivos := blocks |}
  | _ => Raise AttributeError
  end.

(** The page as [_add_pages_12_16] calls it:
    [content.get("pagina_13_cadena_valor") or
     content.get("pagina_14_cadena_valor", {})]. *)
Definition cadena_valor_page (data ai_content : pydict) : result cadena_valor :=
  _add_page_14_cadena_valor data
    (py_or (get_none ai_content "pagina_13_cadena_valor")
           (get ai_content "pagina_14_cadena_valor" (PDict []))).

(** ** Indicator pages, one per record of [indicadores_producto] *)

Record indicador_page : Type := {
  ip_producto_codigo : pyval; ip_producto_nombre : pyval;
  ip_codigo : pyval; ip_nombre : pyval; ip_medido : pyval;
  ip_meta_total : pyval; ip_formula : pyval; ip_es_acumulativo : pyval;
  ip_es_principal : pyval; ip_tipo_fuente : pyval;
  ip_fuente_verificacion : pyval;
  ip_programacion : list (pyval * pyval)   (* (periodo, meta) cells *)
}.

(** [len(items)] followed by [items[i]] for every [i] below it: a list
    gives its elements and a str its characters; a non-empty dict has no
    key [0]; other values have no [len]. *)
Definition items_by_index (items : pyval) : result (list pyval) :=
  match items with
  | PList l => Ok l
  | PStr s => Ok (chars s)
  | PDict [] => Ok []
  | PDict _ => Raise KeyError
  | _ => Raise TypeError
  end.

Definition render_periodo (item : pyval) : result (pyval * pyval) :=
  periodo <- py_get item "periodo" (PStr "") ;;
  meta <- py_get item "meta" (PStr "") ;;
  Ok (periodo, meta).

Definition _add_page_indicador (data : pyval) : result indicador_page :=
  prod <- py_get data "producto" (PDict []) ;;
  prod_codigo <- py_get prod "codigo" (PStr "") ;;
  prod_nombre <- py_get prod "nombre" (PStr "") ;;
  ind <- py_get data "indicador" (PDict []) ;;
  codigo <- py_get ind "codigo" (PStr "") ;;
  nombre <- py_get ind "nombre" (PStr "") ;;
  medido <- py_get ind "medido" (PStr "") ;;
  meta_total <- py_get ind "meta_total" (PStr "") ;;
  formula <- py_get ind "formula" (PStr "") ;;
  es_acumulativo <- py_get ind "es_acumulativo" (PStr "") ;;
  es_principal <- py_get ind "es_principal" (PStr "") ;;
  tipo_fuente <- py_get ind "tipo_fuente" (PStr "") ;;
  fuente_verificacion <- py_get ind "fuente_verificacion" (PStr "") ;;
  programacion <- py_get data "programacion_indicadores" (PList []) ;;
  programacion <-
    (if negb (truthy programacion) then
       meta <- py_get ind "meta_total" (PStr "0") ;;
       Ok (PList [PDict [("periodo", PStr "0"); ("meta", meta)]])
     else Ok programacion) ;;
  items <- items_by_index programacion ;;
  cells <- map_m render_periodo items ;;
  Ok {| ip_producto_codigo := prod_codigo; ip_producto_nombre := prod_nombre;
        ip_codigo := codigo; ip_nombre := nombre; ip_medido := medido;
        ip_meta_total := meta_total; ip_formula := formula;
        ip_es_acumulativo := es_acumulativo; ip_es_principal := es_principal;
        ip_tipo_fuente := tipo_fuente;
        ip_fuente_verificacion := fuente_verificacion;
        ip_programacion := cells |}.

(** The record used when there is no indicator at all. *)
Definition placeholder_indicador : pyval :=
  PDict [("objetivo", PDict [("numero", PStr "1"); ("descripcion", PStr "")]);
         ("producto", PDict [("nombre", PStr ""); ("codigo", PStr "1.1")]);
         ("indicador", PDict [("nombre", PStr ""); ("codigo", PStr "1.1.1")])].

Definition _add_pages_indicadores (content : pydict)
    : result (list indicador_page) :=
  let indicadores := get content "indicadores_producto" (PList []) in
  let indicadores :=
    if negb (truthy indicadores) then
      let old_single := get_none content "pagina_22_indicadores_producto" in
      if truthy old_single then PList [old_single] else indicadores
    else indicadores in
  let indicadores :=
    if negb (truthy indicadores) then PList [placeholder_indicador]
    else indicadores in
  records <- py_iter indicadores ;;
  map_m _add_page_indicador records.

(** ** Regionalization blocks, one per record of
       [regionalizacion_productos] *)

Record costo_row : Type := {
  rc_periodo : pyval; rc_costo_total : pyval; rc_costo_regionalizado : pyval;
  rc_meta_total : pyval; rc_meta_regionalizada : pyval;
  rc_beneficiarios : pyval
}.

Record regionalizacion_block : Type := {
  rb_producto : pyval;
  rb_region : pyval; rb_departamento : pyval; rb_municipio : pyval;
  rb_tipo_agrupacion : pyval; rb_agrupacion : pyval;
  rb_tabla_costos : list costo_row
}.

Definition render_costo (item : pyval) : result costo_row :=
  periodo <- py_get item "periodo" (PStr "") ;;
  costo_total <- py_get item "costo_total" (PStr "") ;;
  costo_regionalizado <- py_get item "costo_regionalizado" (PStr "") ;;
  meta_total <- py_get item "meta_total" (PStr "") ;;
  meta_regionalizada <- py_get item "meta_regionalizada" (PStr "") ;;
  beneficiarios <- py_get item "beneficiarios" (PStr "") ;;
  Ok {| rc_periodo := periodo; rc_costo_total := costo_total;
        rc_costo_regionalizado := costo_regionalizado;
        rc_meta_total := meta_total;
        rc_meta_regionalizada := meta_regionalizada;
        rc_beneficiarios := beneficiarios |}.

Definition render_regionalizacion (prod_data : pyval)
    : result regionalizacion_block :=
  prod <- py_get prod_data "producto" (PStr "") ;;
  ubicacion <- py_get prod_data "ubicacion" (PDict []) ;;
  region <- py_get ubicacion "region" (PStr "Caribe") ;;
  departamento <- py_get ubicacion "departamento" (PStr "") ;;
  municipio <- py_get ubicacion "municipio" (PStr "") ;;
  tipo_agrupacion <- py_get ubicacion "tipo_agrupacion" (PStr "") ;;
  agrupacion <- py_get ubicacion "agrupacion" (PStr "") ;;
  tabla_costos <- py_get prod_data "tabla_costos" (PList []) ;;
  let tabla_costos :=
    if negb (truthy tabla_costos)
    then PList [PDict [("periodo", PStr "0"); ("costo_total", PStr "0")]]
    else tabla_costos in
  items <- py_iter tabla_costos ;;
  costos <- map_m render_costo items ;;
  Ok {| rb_producto := prod;
        rb_region := region; rb_departamento := departamento;
        rb_municipio := municipio; rb_tipo_agrupacion := tipo_agrupacion;
        rb_agrupacion := agrupacion; rb_tabla_costos := costos |}.

(** The empty list stands for the early [return]: no header, no block. *)
Definition _add_pages_regionalizacion (content : pydict)
    : result (list regionalizacion_block) :=
  let reg_productos := get content "regionalizacion_productos" (PList []) in
  if negb (truthy reg_productos) then Ok []
  else
    records <- py_iter reg_productos ;;
    map_m render_regionalizacion records.

(** ** Page 24: the focalization table *)

(** [s.replace(old, new)] for a one-character [old]. *)
Fixpoint replace (old : ascii) (new : string) (s : string) : string :=
  match s with
  | EmptyString => EmptyString
  | String c s' =>
      if Ascii.eqb c old then new ++ replace old new s'
      else String c (replace old new s')
  end.

Fixpoint lstrip (s : string) : string :=
  match s with
  | String c s' => if is_space c then lstrip s' else s
  | EmptyString => EmptyString
  end.

Fixpoint rstrip (s : string) : string :=
  match s with
  | EmptyString => EmptyString
  | String c s' =>
      match rstrip s' with
      | EmptyString => if is_space c then EmptyString
                       else String c EmptyString
      | r => String c r
      end
  end.

(** [s.strip()] *)
Definition strip (s : string) : string := rstrip (lstrip s).

(** Values that can be dictionary keys. *)
Definition hashable (v : pyval) : bool :=
  match v with
  | PList _ | PDict _ => false
  | _ => true
  end.

Definition as_int (v : pyval) : option Z :=
  match v with
  | PBool b => Some (if b then 1 else 0)%Z
  | PInt z => Some z
  | _ => None
  end.

(** [a == b] on hashable values; [True == 1] and [False == 0]. *)
Definition key_eqb (a b : pyval) : bool :=
  match a, b with
  | PNone, PNone => true
  | PStr s, PStr t => String.eqb s t
  | _, _ =>
      match as_int a, as_int b with
      | Some x, Some y => Z.eqb x y
      | _, _ => false
      end
  end.

(** [grouped_data]: policy -> category -> items, in first-seen order. *)
Definition categories : Type := list (pyval * list pydict).
Definition grouped : Type := list (pyval * categories).

(** The body of [for item in focalizacion]. *)
Definition group_item (grouped_data : grouped) (item : pyval)
    : result grouped :=
  match item with
  | PDict it =>
      let pol := get it "politica" (PStr "General") in
      let cat := get it "categoria" (PStr "General") in
      if negb (hashable pol) then Raise TypeError else
      let grouped_data :=
        if negb (od_mem key_eqb grouped_data pol)
        then od_set key_eqb grouped_data pol [] else grouped_data in
      let cats := match od_get key_eqb grouped_data pol with
                  | Some c => c | None => [] end in
      if negb (hashable cat) then Raise TypeError else
      let cats :=
        if negb (od_mem key_eqb cats cat)
        then od_set key_eqb cats cat [] else cats in
      let items := match od_get key_eqb cats cat with
                   | Some l => l | None => [] end in
      Ok (od_set key_eqb grouped_data pol
            (od_set key_eqb cats cat (items ++ [it])))
  | _ => Raise AttributeError
  end.

Definition placeholder_focalizacion : pyval :=
  PDict [("politica", PStr ""); ("categoria", PStr "");
         ("subcategoria", PStr ""); ("valor", PStr "0")].

(** Lines 1852-1867: the entries of the page, grouped. *)
Definition group_focalizacion (content : pydict) : result grouped :=
  let focalizacion := get content "focalizacion" (PList []) in
  let focalizacion :=
    if negb (truthy focalizacion) then PList [placeholder_focalizacion]
    else focalizacion in
  items <- py_iter focalizacion ;;
  for_each group_item items [].

Inductive row_type : Type := item | total_cat | total_pol.

Definition row_type_eqb (a b : row_type) : bool :=
  match a, b with
  | item, item | total_cat, total_cat | total_pol, total_pol => true
  | _, _ => false
  end.

(** One element of [rows_to_render]. *)
Record row : Type := {
  r_type : row_type;
  r_policy : pyval;
  r_category : pyval;
  r_subcategory : pyval;
  r_value : pyval
}.

(** ['Total Categoría'] *)
Definition Total_Categoria : string := "Total Categor" ++ chr 237 ++ "a".
Definition TOTAL_POLITICA : string := "TOTAL POLITICA TRANSVERSAL".

Section Focalizacion.
(** Python floats with [0.0] and [+]; the built-ins [str], [float] (where
    [None] stands for the exception it raises) and [format(x, ',.2f')]. *)
Variable F : Type.
Variable f_zero : F.
Variable f_add : F -> F -> F.
Variable py_str : pyval -> string.
Variable py_float : string -> option F.
Variable format_2f : F -> string.

Definition float_ (s : string) : result F :=
  match py_float s with
  | Some x => Ok x
  | None => Raise ValueError
  end.

(** [str(...).replace(".", "").replace(",", ".").replace("$", "").strip()] *)
Definition clean_valor (v : pyval) : string :=
  strip (replace "$" "" (replace "," "." (replace "." "" (py_str v)))).

(** [try: val = float(...) except: val = 0.0] *)
Definition parse_valor (it : pydict) : result F :=
  try_except (float_ (clean_valor (get it "valor" (PStr "0"))))
             (fun _ => true) (Ok f_zero).

(** [f"${x:,.2f}".replace(",", "X").replace(".", ",").replace("X", ".")] *)
Definition money (x : F) : string :=
  replace "X" "." (replace "." "," (replace "," "X" ("$" ++ format_2f x))).

Definition item_row (policy category : pyval) (it : pydict) : row :=
  {| r_type := item; r_policy := policy; r_category := category;
     r_subcategory := get it "subcategoria" (PStr "");
     r_value := get it "valor" (PStr "") |}.

Definition total_cat_row (policy category : pyval) (cat_total_val : F) : row :=
  {| r_type := total_cat; r_policy := policy; r_category := category;
     r_subcategory := PStr Total_Categoria;
     r_value := PStr (money cat_total_val) |}.

Definition total_pol_row (policy : pyval) (policy_total_val : F) : row :=
  {| r_type := total_pol; r_policy := policy;
     r_category := PStr TOTAL_POLITICA;
     r_subcategory := PStr "";
     r_value := PStr (money policy_total_val) |}.

(** The body of [for item in items]; the state is
    [(cat_total_val, rows_to_render)]. *)
Definition item_step (policy category : pyval) (st : F * list row)
    (it : pydict) : result (F * list row) :=
  val <- parse_valor it ;;
  Ok (f_add (fst st) val, snd st ++ [item_row policy category it]).

(** The body of [for category, items in categories.items()]; the state is
    [(policy_total_val, rows_to_render)]. *)
Definition category_step (policy : pyval) (st : F * list row)
    (entry : pyval * list pydict) : result (F * list row) :=
  st' <- for_each (item_step policy (fst entry)) (snd entry)
                  (f_zero, snd st) ;;
  Ok (f_add (fst st) (fst st'),
      snd st' ++ [total_cat_row policy (fst entry) (fst st')]).

(** The body of [for policy, categories in grouped_data.items()]. *)
Definition policy_step (rows_to_render : list row)
    (entry : pyval * categories) : result (list row) :=
  st <- for_each (category_step (fst entry)) (snd entry)
                 (f_zero, rows_to_render) ;;
  Ok (snd st ++ [total_pol_row (fst entry) (fst st)]).

(** Lines 1874-1918. *)
Definition rows_to_render (grouped_data : grouped) : result (list row) :=
  for_each policy_step grouped_data [].

(** *** The table and its vertical merges *)

Inductive vmerge : Type := restart | continue.

(** A cell: its text and the [w:vMerge] elements appended to it. *)
Record cell : Type := { c_text : pyval; c_vmerge : list vmerge }.

Definition table : Type := list (list cell).

Definition text_cell (v : pyval) : cell := {| c_text := v; c_vmerge := [] |}.
Definition empty_cell : cell := text_cell (PStr "").

Definition header_row : list cell :=
  [text_cell (PStr ("Pol" ++ chr 237 ++ "tica"));
   text_cell (PStr ("Categor" ++ chr 237 ++ "a"));
   text_cell (PStr ("SubCategor" ++ chr 237 ++ "a"));
   text_cell (PStr "Valor")].

(** Lines 1939-1962: the four cells of one row. *)
Definition render_row (row_data : row) : list cell :=
  match r_type row_data with
  | total_pol =>
      [empty_cell; text_cell (r_category row_data); empty_cell;
       text_cell (r_value row_data)]
  | total_cat =>
      [empty_cell; empty_cell; text_cell (PStr Total_Categoria);
       text_cell (r_value row_data)]
  | item =>
      [text_cell (r_policy row_data); text_cell (r_category row_data);
       text_cell (r_subcategory row_data);
       text_cell (PStr (py_str (r_value row_data)))]
  end.

Definition render_table (rows : list row) : table :=
  header_row :: map render_row rows.

(** [l[n] = f(l[n])], with the IndexError of an index out of range. *)
Fixpoint update_nth {A : Type} (n : nat) (f : A -> A) (l : list A)
    : result (list A) :=
  match l, n with
  | [], _ => Raise IndexError
  | x :: l', 0 => Ok (f x :: l')
  | x :: l', S n' => l'' <- update_nth n' f l' ;; Ok (x :: l'')
  end.

Definition update_cell (t : table) (row_idx col_idx : nat)
    (f : cell -> cell) : result table :=
  match nth_error t row_idx with
  | Some cells =>
      cells' <- update_nth col_idx f cells ;;
      update_nth row_idx (fun _ => cells') t
  | None => Raise IndexError
  end.

Definition mark_restart (c : cell) : cell :=
  {| c_text := c_text c; c_vmerge := c_vmerge c ++ [restart] |}.
Definition mark_continue (c : cell) : cell :=
  {| c_text := PStr ""; c_vmerge := c_vmerge c ++ [continue] |}.

(** [range(a, b)] *)
Definition range (a b : nat) : list nat := seq a (b - a).

Definition _merge_vertically (t : table) (col_idx start_row_idx
    end_row_idx : nat) : result table :=
  if (end_row_idx <=? start_row_idx)%nat then Ok t
  else
    t <- update_cell t start_row_idx col_idx mark_restart ;;
    for_each (fun t i => update_cell t i col_idx mark_continue)
             (range (start_row_idx + 1) end_row_idx) t.

(** [rows_to_render[i]] *)
Definition row_at (rows : list row) (i : nat) : result row :=
  match nth_error rows i with
  | Some r => Ok r
  | None => Raise IndexError
  end.

(** Lines 1983-1995; the loop state is [(table, start_idx, current_pol)]. *)
Definition merge_policies (rows : list row) (t : table) : result table :=
  r0 <- row_at rows 0 ;;
  st <- for_each
          (fun (st : table * nat * pyval) (i : nat) =>
             let '(t, start_idx, current_pol) := st in
             r <- row_at rows i ;;
             let pol := r_policy r in
             if negb (key_eqb pol current_pol) then
               t <- _merge_vertically t 0 (start_idx + 1) i ;;
               Ok (t, i, pol)
             else Ok st)
          (range 1 (List.length rows)) (t, 0, r_policy r0) ;;
  let '(t, start_idx, _) := st in
  _merge_vertically t 0 (start_idx + 1) (List.length rows).

(** Lines 1997-2021; the loop state is
    [(table, start_idx, current_cat, current_pol_for_cat)]. *)
Definition merge_categories (rows : list row) (t : table) : result table :=
  r0 <- row_at rows 0 ;;
  st <- for_each
          (fun (st : table * nat * pyval * pyval) (i : nat) =>
             let '(t, start_idx, current_cat, current_pol_for_cat) := st in
             r <- row_at rows i ;;
             if negb (key_eqb (r_policy r) current_pol_for_cat)
                || negb (key_eqb (r_category r) current_cat)
                || row_type_eqb (r_type r) total_pol
             then
               t <- (if (1 <? i - start_idx)%nat
                     then _merge_vertically t 1 (start_idx + 1) i
                     else Ok t) ;;
               Ok (t, i, r_category r, r_policy r)
             else Ok st)
          (range 1 (List.length rows)) (t, 0, r_category r0, r_policy r0) ;;
  let '(t, start_idx, _, _) := st in
  if (1 <? List.length rows - start_idx)%nat then
    last <- row_at rows (List.length rows - 1) ;;
    if negb (row_type_eqb (r_type last) total_pol)
    then _merge_vertically t 1 (start_idx + 1) (List.length rows)
    else Ok t
  else Ok t.

(** Lines 1852-1918: from the content to [rows_to_render]. *)
Definition focalizacion_rows (content : pydict) : result (list row) :=
  grouped_data <- group_focalizacion content ;;
  rows_to_render grouped_data.

(** [_add_page_focalizacion]: the rows and the table with its merges. *)
Definition _add_page_focalizacion (content : pydict)
    : result (list row * table) :=
  rows <- focalizacion_rows content ;;
  t <- merge_policies rows (render_table rows) ;;
  t <- merge_categories rows t ;;
  Ok (rows, t).
End Focalizacion.

Arguments float_ {F} py_float s.
Arguments parse_valor {F} f_zero py_str py_float it.
Arguments money {F} format_2f x.
Arguments total_cat_row {F} format_2f policy category cat_total_val.
Arguments total_pol_row {F} format_2f policy policy_total_val.
Arguments item_step {F} f_zero f_add py_str py_float policy category st it.
Arguments category_step {F} f_zero f_add py_str py_float format_2f policy
  st entry.
Arguments policy_step {F} f_zero f_add py_str py_float format_2f
  rows_to_render entry.
Arguments rows_to_render {F} f_zero f_add py_str py_float format_2f
  grouped_data.
Arguments focalizacion_rows {F} f_zero f_add py_str py_float format_2f
  content.
Arguments _add_page_focalizacion {F} f_zero f_add py_str py_float format_2f
  content.

(** ** Whole-number amounts

    An instance of the built-ins for amounts that are whole numbers: the
    float [z.0] is the integer [z] (exact below 2^53).  It stands for
    [str] on strings, integers, booleans and [None], for [float] on texts
    that are a run of digits (other texts are rejected), and for
    [format(x, ',.2f')] on such floats.  The examples below use no other
    value. *)
Module WholeAmounts.

Definition str (v : pyval) : string :=
  match v with
  | PNone => "None"
  | PBool true => "True"
  | PBool false => "False"
  | PInt z => NilZero.string_of_int (Z.to_int z)
  | PStr s => s
  | PList _ => "[]"
  | PDict _ => "{}"
  end.

Definition digit_value (c : ascii) : option Z :=
  let n := nat_of_ascii c in
  if ((48 <=? n) && (n <=? 57))%nat then Some (Z.of_nat (n - 48)) else None.

Fixpoint digits_value (s : string) (acc : Z) : option Z :=
  match s with
  | EmptyString => Some acc
  | String c s' =>
      match digit_value c with
      | Some d => digits_value s' (10 * acc + d)%Z
      | None => None
      end
  end.

Definition float (s : string) : option Z :=
  match s with
  | EmptyString => None
  | _ => digits_value s 0%Z
  end.

(** Three digits, zero-padded. *)
Definition pad3 (z : Z) : string :=
  let t := str (PInt z) in
  match String.length t with
  | 1 => "00" ++ t
  | 2 => "0" ++ t
  | _ => t
  end.

Fixpoint thousands (fuel : nat) (z : Z) : string :=
  match fuel with
  | O => str (PInt z)
  | S fuel' =>
      if (z <? 1000)%Z then str (PInt z)
      else thousands fuel' (z / 1000)%Z ++ "," ++ pad3 (z mod 1000)%Z
  end.

(** [format(x, ',.2f')] for a non-negative whole amount. *)
Definition format_2f (z : Z) : string := thousands 30 z ++ ".00".

End WholeAmounts.

End Builder.

(* ================================================================== *)
(** * A fragment of [json.loads]

    [json.loads] on the texts made of objects, arrays, strings without
    escapes, integers, [true], [false] and [null]: the value, or
    [JSONDecodeError], or the [ValueError] of an integer literal of more
    than 4300 digits.  Texts outside the fragment (fractions, exponents,
    escapes, NaN) are rejected here although Python accepts them; the
    examples below stay inside the fragment. *)

Module JsonFragment.

Definition is_json_ws (c : ascii) : bool :=
  let n := nat_of_ascii c in
  ((n =? 32) || (n =? 9) || (n =? 10) || (n =? 13))%nat.

Fixpoint skip_ws (s : string) : string :=
  match s with
  | String c s' => if is_json_ws c then skip_ws s' else s
  | EmptyString => EmptyString
  end.

Definition quote : ascii := ascii_of_nat 34.
Definition backslash : ascii := ascii_of_nat 92.

(** The characters up to the closing quote, and the text after it. *)
Fixpoint scan_string (s : string) : option (string * string) :=
  match s with
  | EmptyString => None
  | String c s' =>
      if Ascii.eqb c quote then Some (EmptyString, s')
      else if Ascii.eqb c backslash || (nat_of_ascii c <? 32)%nat then None
      else match scan_string s' with
           | Some (t, r) => Some (String c t, r)
           | None => None
           end
  end.

Definition is_digit (c : ascii) : bool :=
  let n := nat_of_ascii c in ((48 <=? n) && (n <=? 57))%nat.

Fixpoint scan_digits (s : string) : string * string :=
  match s with
  | String c s' =>
      if is_digit c then let (d, r) := scan_digits s' in (String c d, r)
      else (EmptyString, s)
  | EmptyString => (EmptyString, EmptyString)
  end.

Definition starts_fraction (s : string) : bool :=
  match s with
  | String c _ => Ascii.eqb c "." || Ascii.eqb c "e" || Ascii.eqb c "E"
  | EmptyString => false
  end.

(** An integer literal: no leading zero, no fraction, no exponent.  A
    literal of more than 4300 digits is the [ValueError] of [int]. *)
Definition scan_int (s : string) : result (Z * string) :=
  let (neg, body) :=
    match s with
    | String "-" s' => (true, s')
    | _ => (false, s)
    end in
  let (d, r) := scan_digits body in
  match d with
  | EmptyString => Raise JSONDecodeError
  | String "0" (String _ _) => Raise JSONDecodeError
  | _ =>
      if starts_fraction r then Raise JSONDecodeError
      else if (4300 <? String.length d)%nat then Raise ValueError
      else match Builder.WholeAmounts.digits_value d 0%Z with
           | Some z => Ok (if neg then (- z)%Z else z, r)
           | None => Raise JSONDecodeError
           end
  end.

Fixpoint parse_value (fuel : nat) (s : string) {struct fuel}
    : result (pyval * string) :=
  match fuel with
  | O => Raise JSONDecodeError
  | S f =>
      match skip_ws s with
      | String "{" r =>
          match skip_ws r with
          | String "}" r' => Ok (PDict [], r')
          | _ => parse_members f r []
          end
      | String "[" r =>
          match skip_ws r with
          | String "]" r' => Ok (PList [], r')
          | _ => parse_elements f r []
          end
      | String c r =>
          if Ascii.eqb c quote then
            match scan_string r with
            | Some (t, r') => Ok (PStr t, r')
            | None => Raise JSONDecodeError
            end
          else
            match strip_prefix "true" (String c r),
                  strip_prefix "false" (String c r),
                  strip_prefix "null" (String c r) with
            | Some r', _, _ => Ok (PBool true, r')
            | _, Some r', _ => Ok (PBool false, r')
            | _, _, Some r' => Ok (PNone, r')
            | _, _, _ =>
                match scan_int (String c r) with
                | Ok (z, r') => Ok (PInt z, r')
                | Raise e => Raise e
                end
            end
      | EmptyString => Raise JSONDecodeError
      end
  end

with parse_members (fuel : nat) (s : string) (acc : pydict) {struct fuel}
    : result (pyval * string) :=
  match fuel with
  | O => Raise JSONDecodeError
  | S f =>
      match skip_ws s with
      | String c r =>
          if Ascii.eqb c quote then
            match scan_string r with
            | Some (key, r1) =>
                match skip_ws r1 with
                | String ":" r2 =>
                    match parse_value f r2 with
                    | Ok (v, r3) =>
                        match skip_ws r3 with
                        | String "," r4 =>
                            parse_members f r4 (dict_set acc key v)
                        | String "}" r4 => Ok (PDict (dict_set acc key v), r4)
                        | _ => Raise JSONDecodeError
                        end
                    | Raise e => Raise e
                    end
                | _ => Raise JSONDecodeError
                end
            | None => Raise JSONDecodeError
            end
          else Raise JSONDecodeError
      | EmptyString => Raise JSONDecodeError
      end
  end

with parse_elements (fuel : nat) (s : string) (acc : list pyval)
    {struct fuel} : result (pyval * string) :=
  match fuel with
  | O => Raise JSONDecodeError
  | S f =>
      match parse_value f s with
      | Ok (v, r) =>
          match skip_ws r with
          | String "," r' => parse_elements f r' (acc ++ [v])
          | String "]" r' => Ok (PList (acc ++ [v]), r')
          | _ => Raise JSONDecodeError
          end
      | Raise e => Raise e
      end
  end.

Definition json_loads (s : string) : result pyval :=
  match parse_value (2 * String.length s + 2) s with
  | Ok (v, r) =>
      match skip_ws r with
      | EmptyString => Ok v
      | _ => Raise JSONDecodeError
      end
  | Raise e => Raise e
  end.

End JsonFragment.

(* ================================================================== *)
(** * [MGASubsidiosGenerator]: the prompt context and [generate_complete] *)

Module Generation.
Import Generator Builder.

(** The line end ["\n"]. *)
Definition nl : string := chr 10.

(** [sep.join(v)]: [v] must be iterable and hold strings only. *)
Definition join (sep : string) (v : pyval) : result string :=
  items <- py_iter v ;;
  strs <- map_m (fun x => match x with
                          | PStr s => Ok s
                          | _ => Raise TypeError
                          end) items ;;
  Ok (String.concat sep strs).

(** [v[:n]] on a str or a list.  Other values cannot be sliced: a dict
    raises TypeError for the unhashable slice (KeyError from Python 3.12
    on), the others are not subscriptable. *)
Definition slice_to (n : nat) (v : pyval) : result pyval :=
  match v with
  | PStr s => Ok (PStr (take n s))
  | PList l => Ok (PList (firstn n l))
  | _ => Raise TypeError
  end.

Section FormatContext.
(** [str(v)], which is what an f-string writes for [{v}]. *)
Variable py_str : pyval -> string.

(** [if datos_prog.get(key): parts.append(f"<label>{', '.join(datos_prog[key])}")] *)
Definition add_joined (datos_prog : pyval) (key label : string)
    (parts : list string) : result (list string) :=
  v <- py_get datos_prog key PNone ;;
  if truthy v then
    joined <- join ", " v ;;
    Ok (parts ++ [(label ++ joined)%string])
  else Ok parts.

(** The body of [for p in paginas[:5]]. *)
Definition add_page_text (page_texts : list string) (p : pyval)
    : result (list string) :=
  contenido <- py_get p "contenido_clave" (PList []) ;;
  if truthy contenido then
    pagina <- py_get p "pagina" (PStr "?") ;;
    seccion <- py_get p "seccion" (PStr "") ;;
    first <- slice_to 5 contenido ;;
    joined <- join ", " first ;;
    Ok (page_texts ++ [("[P" ++ chr 225 ++ "g " ++ py_str pagina ++ " - "
                        ++ py_str seccion ++ "]: " ++ joined)%string])
  else Ok page_texts.

Definition _format_context (data : pydict) : result pyval :=
  let dev_plan_summary := get data "dev_plan_summary" (PDict []) in
  success <- (if truthy dev_plan_summary
              then py_get dev_plan_summary "success" PNone
              else Ok dev_plan_summary) ;;
  if truthy success then
    let parts := [] in
    resumen <- py_get dev_plan_summary "resumen_global" PNone ;;
    let parts :=
      if truthy resumen
      then parts ++ [("RESUMEN PLAN DE DESARROLLO:" ++ nl
                      ++ py_str resumen)%string]
      else parts in
    datos_prog <- py_get dev_plan_summary "datos_programa" (PDict []) ;;
    parts <- (if truthy datos_prog then
                parts <- add_joined datos_prog "codigos_programa"
                           ("C" ++ chr 211 ++ "DIGOS DE PROGRAMA: ")%string
                           parts ;;
                parts <- add_joined datos_prog "presupuestos"
                           "PRESUPUESTOS: " parts ;;
                parts <- add_joined datos_prog "metas" "METAS: " parts ;;
                add_joined datos_prog "indicadores" "INDICADORES: " parts
              else Ok parts) ;;
    poblacion <- py_get dev_plan_summary "poblacion" (PDict []) ;;
    parts <- (if truthy poblacion then
                total <- py_get poblacion "total" PNone ;;
                Ok (if truthy total
                    then parts ++ [("POBLACI" ++ chr 211 ++ "N TOTAL: "
                                    ++ py_str total)%string]
                    else parts)
              else Ok parts) ;;
    paginas <- py_get dev_plan_summary "paginas_relevantes" (PList []) ;;
    parts <- (if truthy paginas then
                first <- slice_to 5 paginas ;;
                ps <- py_iter first ;;
                page_texts <- for_each add_page_text ps [] ;;
                Ok (match page_texts with
                    | [] => parts
                    | _ => parts ++ [("DATOS POR P" ++ chr 193 ++ "GINA:"
                                      ++ nl
                                      ++ String.concat nl page_texts)%string]
                    end)
              else Ok parts) ;;
    let poai_context := get data "context_dump" (PStr "") in
    parts <- (if truthy poai_context then
                cut <- slice_to 4000 poai_context ;;
                Ok (parts ++ [(nl ++ "CONTEXTO POAI:" ++ nl
                               ++ py_str cut)%string])
              else Ok parts) ;;
    Ok (PStr (String.concat (nl ++ nl)%string parts))
  else
    let raw_context := py_or (get data "context_dump" (PStr "No disponible"))
                             (PStr "") in
    slice_to 8000 raw_context.
End FormatContext.

(** The five prompts of [prompts.mga_subsidios_structured]. *)
Inductive prompt : Type :=
| PROMPT_MGA_SUBSIDIOS_PAGINAS_1_5
| PROMPT_MGA_SUBSIDIOS_PAGINAS_6_11
| PROMPT_MGA_SUBSIDIOS_PAGINAS_12_16
| PROMPT_MGA_SUBSIDIOS_PAGINAS_17_21
| PROMPT_MGA_SUBSIDIOS_PAGINAS_22_24.

Section GenerateComplete.
Variable json_loads : string -> result pyval.
Variable py_str : pyval -> string.
(** [now.strftime("%d/%m/%Y %H:%M:%S")] *)
Variable now : string.
(** [self._create_chain(prompt).invoke(invoke_data)]: the answer of the
    model as [StrOutputParser] returns it, or the exception of the call. *)
Variable invoke : prompt -> pydict -> result string.
(** [self.builder.build(data, ai_content, letterhead_file)]: the path it
    returns and [ai_content] as the call leaves it. *)
Variable build : pydict -> pydict -> pyval -> result (string * pydict).

Definition invoke_data (data : pydict) : result pydict :=
  context_dump <- _format_context py_str data ;;
  Ok [("municipio", get data "municipio" (PStr ""));
      ("departamento", get data "departamento" (PStr ""));
      ("entidad", get data "entidad" (PStr ""));
      ("bpin", get data "bpin" (PStr ""));
      ("nombre_proyecto", get data "nombre_proyecto" (PStr ""));
      ("valor_total", get data "valor_total" (PStr ""));
      ("duracion", get data "duracion" (PStr "365"));
      ("responsable", get data "responsable" (PStr ""));
      ("cargo", get data "cargo"
                  (PStr ("Secretario de Planeaci" ++ chr 243
                         ++ "n Municipal")%string));
      ("identificador", get data "identificador" (PStr ""));
      ("fecha_creacion", get data "fecha_creacion" (PStr now));
      ("plan_nacional",
       get data "plan_nacional"
           (PStr "(2022-2026) Colombia Potencia Mundial de la Vida"));
      ("plan_departamental",
       get data "plan_departamental"
           (PStr ("Bol" ++ chr 237 ++ "var Me Enamora 2024-2027")%string));
      ("plan_municipal",
       get data "plan_municipal" (PStr "San Pablo Mejor 2024-2027"));
      ("context_dump", context_dump)].

(** One stage: the call of the model and [_extract_json] on its answer. *)
Definition stage (p : prompt) (invoke_data : pydict)
    : result (string * pyval) :=
  response <- invoke p invoke_data ;;
  ai_content <- _extract_json json_loads response ;;
  Ok (response, ai_content).

Definition generate_complete (data : pydict) : result pydict :=
  invoke_data <- invoke_data data ;;
  s_1_5 <- stage PROMPT_MGA_SUBSIDIOS_PAGINAS_1_5 invoke_data ;;
  s_6_11 <- stage PROMPT_MGA_SUBSIDIOS_PAGINAS_6_11 invoke_data ;;
  s_12_16 <- stage PROMPT_MGA_SUBSIDIOS_PAGINAS_12_16 invoke_data ;;
  s_17_21 <- stage PROMPT_MGA_SUBSIDIOS_PAGINAS_17_21 invoke_data ;;
  s_22_24 <- stage PROMPT_MGA_SUBSIDIOS_PAGINAS_22_24 invoke_data ;;
  ai_content <- merge_content (snd s_1_5) (snd s_6_11) (snd s_12_16)
                              (snd s_17_21) (snd s_22_24) ;;
  let letterhead_file := get_none data "letterhead_file" in
  built <- build data ai_content letterhead_file ;;
  Ok [("filepath", PStr (fst built));
      ("documento_completo",
       PStr (fst s_1_5 ++ nl ++ nl ++ fst s_6_11 ++ nl ++ nl ++ fst s_12_16
             ++ nl ++ nl ++ fst s_17_21 ++ nl ++ nl ++ fst s_22_24)%string);
      ("ai_content", PDict (snd built));
      ("metadata",
       PDict [("tipo", PStr "mga_subsidios");
              ("municipio", get data "municipio" (PStr ""));
              ("bpin", get data "bpin" (PStr ""));
              ("paginas_generadas", PStr "1-24")])].
End GenerateComplete.

End Generation.

(* ================================================================== *)
(** * [MGASubsidiosBuilder]: the helpers, pages 3 and 4, [build] and
      [_save_document] *)

Module Document.
Import Builder Generation.

(** ** [str.split] and [str.replace] *)

(** The first occurrence of [t] in [s]: the text before it and the text
    after it. *)
Fixpoint find (t s : string) : option (string * string) :=
  match strip_prefix t s with
  | Some rest => Some (EmptyString, rest)
  | None =>
      match s with
      | String c s' =>
          match find t s' with
          | Some (before, rest) => Some (String c before, rest)
          | None => None
          end
      | EmptyString => None
      end
  end.

(** At most [n] cuts, from the left. *)
Fixpoint split_n (n : nat) (sep s : string) : list string :=
  match n with
  | 0 => [s]
  | S n' =>
      match find sep s with
      | Some (before, rest) => before :: split_n n' sep rest
      | None => [s]
      end
  end.

(** [s.split(sep)] for a separator that is not empty: every occurrence
    cuts, from the left, and a string of [n] characters has fewer than [n]
    occurrences that do not overlap.  (The empty separator raises
    ValueError; the code passes none.) *)
Definition split (sep s : string) : list string :=
  split_n (String.length s) sep s.

Fixpoint replace_n (n : nat) (old new s : string) : string :=
  match n with
  | 0 => s
  | S n' =>
      match find old s with
      | Some (before, rest) =>
          (before ++ new ++ replace_n n' old new rest)%string
      | None => s
      end
  end.

(** [s.replace(old, new)] for an [old] that is not empty. *)
Definition replace_all (old new s : string) : string :=
  replace_n (String.length s) old new s.

(** ** [_safe_list] and [_safe_str] *)

(** [_safe_list(value, default)]; [PNone] is the default of [default]. *)
Definition _safe_list (value default : pyval) : pyval :=
  let default := match default with PNone => PList [] | _ => default end in
  match value with
  | PList _ => value
  | _ => default
  end.

Section Pages.
(** [str(v)] and [json.dumps(v, ensure_ascii=False)]. *)
Variable py_str : pyval -> string.
Variable json_dumps : pyval -> string.

Definition _safe_str (value : pyval) (default : string) : string :=
  match value with
  | PNone => default
  | PStr s => s
  | PDict _ => json_dumps value
  | PList l => String.concat ", " (map py_str l)
  | _ => py_str value
  end.

(** ** Page 3 *)

(** [text.replace("\\n", "\n")] and then one paragraph for each piece of
    [.split("\n\n")]. *)
Definition paragraphs (text : string) : list string :=
  split (nl ++ nl) (replace_all (chr 92 ++ "n") nl text).

Record page3 : Type := {
  p3_problema_central : string;
  p3_descripcion_situacion : list string;
  p3_magnitud_problema : list string
}.

Definition _add_page_3_problematica (content : pyval) : result page3 :=
  problema <- py_get content "problema_central" (PStr "") ;;
  descripcion <- py_get content "descripcion_situacion" (PStr "") ;;
  magnitud <- py_get content "magnitud_problema" (PStr "") ;;
  Ok {| p3_problema_central := _safe_str problema "";
        p3_descripcion_situacion := paragraphs (_safe_str descripcion "");
        p3_magnitud_problema := paragraphs (_safe_str magnitud "") |}.

(** ** Page 4 *)

(** [f"{c.get('numero', '')}<sep>{c.get(key, '')}"] *)
Definition numbered (sep key : string) (c : pyval) : result string :=
  numero <- py_get c "numero" (PStr "") ;;
  text <- py_get c key (PStr "") ;;
  Ok (py_str numero ++ sep ++ py_str text)%string.

(** The cell of row [i] for a column fed from [items]: its text when
    [i < len(items)], the empty text of a fresh cell otherwise. *)
Definition column_cell (sep key : string) (items : list pyval) (i : nat)
    : result string :=
  match nth_error items i with
  | Some c => numbered sep key c
  | None => Ok EmptyString
  end.

(** The rows added under the header of a two-column table:
    [for i in range(max(len(directas), len(indirectas)))]. *)
Definition two_columns (key : string) (directas indirectas : list pyval)
    : result (list (string * string)) :=
  map_m (fun i =>
           left <- column_cell ". " key directas i ;;
           right <- column_cell " " key indirectas i ;;
           Ok (left, right))
        (range 0 (Nat.max (List.length directas) (List.length indirectas))).

(** The elements of what [_safe_list] returns with its default. *)
Definition safe_items (value : pyval) : list pyval :=
  match _safe_list value PNone with
  | PList l => l
  | _ => []
  end.

Record page4 : Type := {
  p4_causas : list (string * string);
  p4_efectos : list (string * string)
}.

Definition _add_page_4_causas_efectos (content : pyval) : result page4 :=
  causas_directas <- py_get content "causas_directas" (PList []) ;;
  causas_indirectas <- py_get content "causas_indirectas" (PList []) ;;
  causas <- two_columns "causa" (safe_items causas_directas)
                        (safe_items causas_indirectas) ;;
  efectos_directos <- py_get content "efectos_directos" (PList []) ;;
  efectos_indirectos <- py_get content "efectos_indirectos" (PList []) ;;
  efectos <- two_columns "efecto" (safe_items efectos_directos)
                         (safe_items efectos_indirectos) ;;
  Ok {| p4_causas := causas; p4_efectos := efectos |}.

End Pages.

(** ** [build]: page 1 and the caller's [ai_content] *)

Section Build.
Variables now now_render : string.
(** Lines 52-57: the template and the styles. *)
Variable start_document : pyval -> result unit.
(** Lines 78-129: the page breaks, pages 2 to 24 and [_save_document],
    with [self._data = data]; they read [ai_content] and assign to nothing
    in it.  The argument after [data] is page 1 as it was added. *)
Variable add_pages : pydict -> page1 -> pydict -> result string.

(** [page1_content = ai_content.get("pagina_1_datos_basicos", {})] is the
    dict stored in [ai_content] when the key is there, so the assignments
    of lines 64-74 change [ai_content] itself; without the key they change
    a fresh dict that [ai_content] does not hold.  The call returns the
    path and leaves [ai_content] as in the second component. *)
Definition build (data ai_content : pydict) (letterhead_file : pyval)
    : result (string * pydict) :=
  _ <- start_document letterhead_file ;;
  page1_content <- page1_content now data ai_content ;;
  let ai_content :=
    if od_mem String.eqb ai_content "pagina_1_datos_basicos"
    then dict_set ai_content "pagina_1_datos_basicos" (PDict page1_content)
    else ai_content in
  filepath <- add_pages data
                (_add_page_1_datos_basicos now_render page1_content)
                ai_content ;;
  Ok (filepath, ai_content).
End Build.

(** ** [_save_document] *)

(** The class [[a-zA-Z0-9_\-]]. *)
Definition is_name_char (c : ascii) : bool :=
  let n := nat_of_ascii c in
  (((97 <=? n) && (n <=? 122)) || ((65 <=? n) && (n <=? 90))
   || ((48 <=? n) && (n <=? 57)) || (n =? 95) || (n =? 45))%nat.

(** [re.sub(r'[^a-zA-Z0-9_\-]', '', s)] *)
Fixpoint remove_other_chars (s : string) : string :=
  match s with
  | EmptyString => EmptyString
  | String c s' =>
      if is_name_char c then String c (remove_other_chars s')
      else remove_other_chars s'
  end.

(** Lines 2086-2094: the municipality as it goes into the file name. *)
Definition municipio_name (data : pyval) : result string :=
  let municipio :=
    match data with
    | PDict d => get d "municipio" (PStr "documento")
    | _ => PStr "documento"
    end in
  match municipio with
  | PStr m =>
      let m := remove_other_chars (replace " " "_" m) in
      Ok (match m with EmptyString => "documento" | _ => m end)
  | _ => Raise AttributeError
  end.

Section SaveDocument.
(** [datetime.now().strftime("%Y%m%d_%H%M%S")], [self.output_dir] and
    [os.path.join]. *)
Variable timestamp : string.
Variable output_dir : string.
Variable path_join : string -> string -> string.
(** [from docx2pdf import convert], [self.doc.save], the two COM calls
    made on Windows, [convert] and [os.remove]. *)
Variable import_docx2pdf : result unit.
Variable doc_save : string -> result unit.
Variable is_windows : bool.
Variable co_initialize : result unit.
Variable convert : string -> string -> result unit.
Variable co_uninitialize : result unit.
Variable os_remove : string -> result unit.

Definition _save_document (data : pyval) : result string :=
  _ <- import_docx2pdf ;;
  municipio <- municipio_name data ;;
  let docx_filepath :=
    path_join output_dir
              ("MGA_" ++ municipio ++ "_" ++ timestamp ++ ".docx")%string in
  _ <- doc_save docx_filepath ;;
  let pdf_filepath :=
    path_join output_dir
              ("MGA_" ++ municipio ++ "_" ++ timestamp ++ ".pdf")%string in
  try_except
    (_ <- (if is_windows then co_initialize else Ok tt) ;;
     _ <- convert docx_filepath pdf_filepath ;;
     _ <- (if is_windows then co_uninitialize else Ok tt) ;;
     _ <- os_remove docx_filepath ;;
     Ok pdf_filepath)
    (fun _ => true)
    (Ok docx_filepath).
End SaveDocument.

End Document.

(* ================================================================== *)
(** * [UnifiedGenerator]: the caller that runs the five generators *)

Module Unified.
Import Builder.

(** The keys of [tasks], in the order of the dict display. *)
Definition doc_types : list string :=
  ["estudios_previos"; "analisis_sector"; "dts"; "certificaciones";
   "mga_subsidios"].

(** [str.isalnum] on one character, for code points below 256. *)
Definition is_alnum (c : ascii) : bool :=
  let n := nat_of_ascii c in
  (((48 <=? n) && (n <=? 57)) || ((65 <=? n) && (n <=? 90))
   || ((97 <=? n) && (n <=? 122))
   || (n =? 170) || (n =? 178) || (n =? 179) || (n =? 181) || (n =? 185)
   || (n =? 186) || ((188 <=? n) && (n <=? 190))
   || ((192 <=? n) && (n <=? 214)) || ((216 <=? n) && (n <=? 246))
   || (248 <=? n))%nat.

(** [t.isalnum()]: at least one character, and all of them alphanumeric. *)
Fixpoint all_alnum (t : string) : bool :=
  match t with
  | EmptyString => true
  | String c t' => is_alnum c && all_alnum t'
  end.

Definition isalnum (t : string) : bool :=
  match t with
  | EmptyString => false
  | _ => all_alnum t
  end.

(** One [x] of the generator expression in [_create_zip]: kept, dropped,
    or not a str (then [x.isalnum] is an AttributeError). *)
Definition name_part (x : pyval) : result string :=
  match x with
  | PStr t =>
      Ok (if isalnum t || (t =? " ") || (t =? "-") || (t =? "_")
          then t else "")%string
  | _ => Raise AttributeError
  end.

(** ["".join(x for x in project_name if x.isalnum() or x in (' ', '-', '_')).strip()] *)
Definition safe_name (project_name : pyval) : result string :=
  items <- py_iter project_name ;;
  parts <- map_m name_part items ;;
  Ok (strip (String.concat "" parts)).

Section CreateZip.
(** [datetime.now().strftime("%Y%m%d_%H%M%S")], [self.output_dir],
    [os.path.join] and the writing of the archive. *)
Variable timestamp : string.
Variable output_dir : string.
Variable path_join : string -> string -> string.
Variable write_zip : string -> list pyval -> result unit.

Definition _create_zip (file_paths : list pyval) (project_name : pyval)
    : result string :=
  name <- safe_name project_name ;;
  let zip_filepath :=
    path_join output_dir
              ("MGA_Documentos_" ++ name ++ "_" ++ timestamp ++ ".zip")%string
  in
  _ <- write_zip zip_filepath file_paths ;;
  Ok zip_filepath.
End CreateZip.

(** [try: c except Exception as e: handler(e)] *)
Definition try_except_as {A : Type} (c : result A)
    (handler : exn -> result A) : result A :=
  match c with
  | Ok a => Ok a
  | Raise e => handler e
  end.

Section GenerateAll.
(** [get_llm(model_name)], and the making of the five generator objects
    (each makes its output directory). *)
Variable get_llm : string -> result unit.
Variable make_generators : result unit.
(** [str(e)], also in [f"LLM init failed: {e}"]. *)
Variable exn_text : exn -> string.
(** [tasks[doc_type](data)]: what the generator of a type returns. *)
Variable generate : string -> pydict -> result pyval.
(** [os.path.exists(filepath)] *)
Variable path_exists : pyval -> result bool.
(** [self._create_zip(files_to_zip, project_name)] *)
Variable create_zip : list pyval -> pyval -> result string.

Definition success_record (doc_type : string) (filepath : pyval) : pyval :=
  PDict [("type", PStr doc_type); ("status", PStr "success");
         ("file", filepath)].

Definition error_record (doc_type error : string) : pyval :=
  PDict [("type", PStr doc_type); ("status", PStr "error");
         ("error", PStr error)].

(** Lines 77-81: the path in what a generator returned, [None] if it has
    none. *)
Definition filepath_of (result : pyval) : pyval :=
  match result with
  | PStr _ => result
  | PDict d => match dict_get d "filepath" with
               | Some filepath => filepath
               | None => PNone
               end
  | _ => PNone
  end.

(** The body of the loop; the state is [(results, files_to_zip)]. *)
Definition run_task (data : pydict) (st : list pyval * list pyval)
    (doc_type : string) : result (list pyval * list pyval) :=
  try_except_as
    (result <- generate doc_type data ;;
     let filepath := filepath_of result in
     found <- (if truthy filepath then path_exists filepath else Ok false) ;;
     if found then
       Ok (fst st ++ [success_record doc_type filepath],
           snd st ++ [filepath])
     else
       Ok (fst st ++ [error_record doc_type
                        "File not created or invalid return type"],
           snd st))
    (fun e => Ok (fst st ++ [error_record doc_type (exn_text e)], snd st)).

Definition generate_all (data : pydict) (model_name : string)
    : result pydict :=
  match get_llm model_name with
  | Raise e =>
      Ok [("success", PBool false); ("results", PList []);
          ("error", PStr ("LLM init failed: " ++ exn_text e)%string)]
  | Ok _ =>
      _ <- make_generators ;;
      st <- for_each (run_task data) doc_types ([], []) ;;
      zip_path <- (match snd st with
                   | [] => Ok PNone
                   | _ => path <- create_zip (snd st)
                                    (get data "municipio" (PStr "proyecto")) ;;
                          Ok (PStr path)
                   end) ;;
      Ok [("success", PBool (0 <? List.length (snd st))%nat);
          ("results", PList (fst st));
          ("zip_file", zip_path)]
  end.
End GenerateAll.

End Unified.

(* ================================================================== *)
(** * Facts about dictionaries *)

Section OrderedDictFacts.
Context {K V : Type} (eqb : K -> K -> bool).
Hypothesis eqb_refl : forall k, eqb k k = true.
Hypothesis eqb_sym : forall a b, eqb a b = eqb b a.
Hypothesis eqb_trans :
  forall a b c, eqb a b = true -> eqb b c = true -> eqb a c = true.

Lemma eqb_congr_l a b c : eqb a b = true -> eqb a c = eqb b c.
Proof.
  intros Hab. destruct (eqb b c) eqn:Hbc.
  - eauto.
  - destruct (eqb a c) eqn:Hac; [|reflexivity].
    rewrite <- Hbc. symmetry. apply eqb_trans with a; [|assumption].
    rewrite eqb_sym. assumption.
Qed.

Lemma od_get_set_same (d : list (K * V)) k v :
  od_get eqb (od_set eqb d k v) k = Some v.
Proof.
  induction d as [|[k' v'] d IH]; simpl.
  - now rewrite eqb_refl.
  - destruct (eqb k' k) eqn:E; simpl; rewrite E; auto.
Qed.

Lemma od_get_set_other (d : list (K * V)) k k2 v :
  eqb k k2 = false -> od_get eqb (od_set eqb d k v) k2 = od_get eqb d k2.
Proof.
  intros Hne. induction d as [|[k' v'] d IH]; simpl.
  - now rewrite Hne.
  - destruct (eqb k' k) eqn:E; simpl.
    + rewrite (eqb_congr_l _ _ k2 E), Hne. reflexivity.
    + now rewrite IH.
Qed.

Lemma od_get_set (d : list (K * V)) k k2 v :
  od_get eqb (od_set eqb d k v) k2
  = if eqb k k2 then Some v else od_get eqb d k2.
Proof.
  destruct (eqb k k2) eqn:E.
  - induction d as [|[k' v'] d IH]; simpl.
    + now rewrite E.
    + destruct (eqb k' k) eqn:E'; simpl.
      * now rewrite (eqb_congr_l _ _ k2 E'), E.
      * rewrite IH. destruct (eqb k' k2) eqn:E2; [|reflexivity].
        exfalso. rewrite eqb_sym in E.
        rewrite (eqb_trans _ _ _ E2 E) in E'. discriminate.
  - now apply od_get_set_other.
Qed.

Lemma od_get_congr (d : list (K * V)) k1 k2 :
  eqb k1 k2 = true -> od_get eqb d k1 = od_get eqb d k2.
Proof.
  intros E. induction d as [|[k' v'] d IH]; simpl; [reflexivity|].
  rewrite (eqb_sym k' k1), (eqb_sym k' k2), (eqb_congr_l _ _ k' E), IH.
  reflexivity.
Qed.

(** No key of [d] occurs twice. *)
Fixpoint unique_keys (d : list (K * V)) : bool :=
  match d with
  | [] => true
  | (k, _) :: d' => negb (od_mem eqb d' k) && unique_keys d'
  end.

Lemma od_get_update (d e : list (K * V)) k :
  unique_keys e = true ->
  od_get eqb (od_update eqb d e) k
  = match od_get eqb e k with
    | Some v => Some v
    | None => od_get eqb d k
    end.
Proof.
  unfold od_update. revert d.
  induction e as [|[k1 v1] e IH]; intros d Hu; simpl in *.
  - reflexivity.
  - apply andb_true_iff in Hu. destruct Hu as [Hk1 Hu].
    rewrite IH by assumption. rewrite od_get_set.
    destruct (eqb k1 k) eqn:E; [|reflexivity].
    unfold od_mem in Hk1. rewrite (od_get_congr e _ _ E) in Hk1.
    destruct (od_get eqb e k); [discriminate|reflexivity].
Qed.
End OrderedDictFacts.

Definition dict_unique (d : pydict) : bool := unique_keys String.eqb d.

Lemma string_eqb_trans a b c :
  String.eqb a b = true -> String.eqb b c = true -> String.eqb a c = true.
Proof. rewrite !String.eqb_eq. congruence. Qed.

Lemma dict_get_update d e k :
  dict_unique e = true ->
  dict_get (dict_update d e) k
  = match dict_get e k with Some v => Some v | None => dict_get d k end.
Proof.
  apply od_get_update.
  - exact String.eqb_sym.
  - exact string_eqb_trans.
Qed.

Lemma dict_get_set d k k2 v :
  dict_get (dict_set d k v) k2
  = if String.eqb k k2 then Some v else dict_get d k2.
Proof.
  apply od_get_set.
  - exact String.eqb_sym.
  - exact string_eqb_trans.
Qed.

(* ================================================================== *)
(** * The merge of the stage records *)

Module MergeFacts.
Import Generator.

(** The value a list of stage records gives a key: that of the last
    record that has it. *)
Fixpoint last_binding (stages : list pydict) (k : string) : option pyval :=
  match stages with
  | [] => None
  | d :: rest =>
      match last_binding rest k with
      | Some v => Some v
      | None => dict_get d k
      end
  end.

Lemma for_each_unpack stages : forall acc,
  forallb dict_unique stages = true ->
  exists m, for_each unpack_into (map PDict stages) acc = Ok m
    /\ forall k, dict_get m k
         = match last_binding stages k with
           | Some v => Some v
           | None => dict_get acc k
           end.
Proof.
  induction stages as [|d rest IH]; intros acc Hu; simpl in *.
  - exists acc. split; reflexivity.
  - apply andb_true_iff in Hu. destruct Hu as [Hd Hrest].
    destruct (IH (dict_update acc d) Hrest) as [m [Hm Hget]].
    exists m. split; [assumption|].
    intros k. rewrite Hget, dict_get_update by assumption.
    destruct (last_binding rest k); reflexivity.
Qed.

(** C2, as the code has it: the later stage wins.  For stage records
    that are dictionaries the merge succeeds, and every key holds the value
    of the last stage that has it. *)
Theorem merge_content_later_stage_wins (a b c d e : pydict) (k : string)
    (Hu : forallb dict_unique [a; b; c; d; e] = true) :
  exists m,
    merge_content (PDict a) (PDict b) (PDict c) (PDict d) (PDict e) = Ok m
    /\ dict_get m k = last_binding [a; b; c; d; e] k.
Proof.
  destruct (for_each_unpack [a; b; c; d; e] [] Hu) as [m [Hm Hg]].
  exists m. split; [exact Hm|].
  rewrite Hg. destruct (last_binding [a; b; c; d; e] k); reflexivity.
Qed.

Definition stageA : pydict := [("x", PInt 1)].
Definition stageB : pydict := [("x", PInt 2); ("y", PInt 3)].

Lemma merge_content_later_stage_wins_witness :
  exists m,
    merge_content (PDict stageA) (PDict stageB) (PDict []) (PDict [])
                  (PDict []) = Ok m
    /\ dict_get m "x" = last_binding [stageA; stageB; []; []; []] "x".
Proof.
  apply (merge_content_later_stage_wins stageA stageB [] [] [] "x").
  reflexivity.
Defined.

(** C2 as the specification states it fails: merging [{"x":1}] then
    [{"x":2, "y":3}] gives [{"x":2, "y":3}], not [{"x":1, "y":3}]. *)
Lemma merge_content_earlier_stage_loses :
  merge_content (PDict stageA) (PDict stageB) (PDict []) (PDict []) (PDict [])
  = Ok [("x", PInt 2); ("y", PInt 3)]
  /\ dict_get [("x", PInt 2); ("y", PInt 3)] "x" <> Some (PInt 1).
Proof. split; [reflexivity|discriminate]. Qed.

End MergeFacts.

(* ================================================================== *)
(** * Page 1: where the identifying fields come from *)

Module Page1Facts.
Import Builder.

(** [generated or form or fallback] *)
Definition generated_first (generated form fallback : pyval) : pyval :=
  py_or (py_or generated form) fallback.

(** One assignment of [build]:
    [p[k] = p.get(k) or form_value or fallback]. *)
Definition assign (k : string) (form_value fallback : pyval) (p : pydict)
    : pydict :=
  dict_set p k (generated_first (get_none p k) form_value fallback).

(** The conditional assignment of the sector. *)
Definition assign_sector (data p : pydict) : pydict :=
  if negb (truthy (get_none p "sector")) && truthy (get_none data "sector")
  then dict_set p "sector" (get_none data "sector") else p.

(** The assignments of [build], first to last. *)
Definition page1_assignments (now : string) (data p : pydict) : pydict :=
  let p := assign "nombre" (get_none data "nombre_proyecto") (PStr "") p in
  let p := dict_set p "nombre_proyecto"
             (py_or (get_none data "nombre_proyecto") (PStr "")) in
  let p := assign "codigo_bpin" (get_none data "bpin") (PStr "") p in
  let p := assign "identificador" (get_none data "identificador")
             (PStr "") p in
  let p := assign "formulador_ciudadano" (get_none data "responsable")
             (PStr "") p in
  let p := assign "formulador_oficial" (get_none data "responsable")
             (PStr "") p in
  let p := assign "fecha_creacion" (get_none data "fecha_creacion")
             (PStr now) p in
  assign_sector data p.

Lemma page1_content_assign now data ai_content p :
  get ai_content "pagina_1_datos_basicos" (PDict []) = PDict p ->
  page1_content now data ai_content = Ok (page1_assignments now data p).
Proof. intros Hp. unfold page1_content. rewrite Hp. reflexivity. Qed.

Lemma get_set_same d k v default : get (dict_set d k v) k default = v.
Proof. unfold get. rewrite dict_get_set, String.eqb_refl. reflexivity. Qed.

Lemma get_set_other d k k2 v default :
  String.eqb k k2 = false -> get (dict_set d k v) k2 default = get d k2 default.
Proof. intros E. unfold get. now rewrite dict_get_set, E. Qed.

Lemma get_assign_same p k fv fb default :
  get (assign k fv fb p) k default
  = generated_first (get_none p k) fv fb.
Proof. apply get_set_same. Qed.

Lemma get_assign_other p k k2 fv fb default :
  String.eqb k k2 = false ->
  get (assign k fv fb p) k2 default = get p k2 default.
Proof. apply get_set_other. Qed.

Lemma get_assign_sector data p k default :
  String.eqb "sector" k = false ->
  get (assign_sector data p) k default = get p k default.
Proof.
  intros E. unfold assign_sector.
  destruct (negb _ && _); [now apply get_set_other|reflexivity].
Qed.

Ltac get_through_sets :=
  repeat first
    [ progress unfold get_none
    | rewrite get_assign_sector by reflexivity
    | rewrite get_assign_same
    | rewrite get_set_same
    | rewrite get_assign_other by reflexivity
    | rewrite get_set_other by reflexivity ].






End Page1Facts.

(* ================================================================== *)
(** * Loops that cannot raise *)

Lemma map_m_ok {A B : Type} (f : A -> result B) (g : A -> B) (xs : list A) :
  (forall x, In x xs -> f x = Ok (g x)) -> Builder.map_m f xs = Ok (map g xs).
Proof.
  induction xs as [|x xs IH]; intros H; simpl; [reflexivity|].
  rewrite (H x (or_introl eq_refl)). simpl.
  rewrite IH by (intros y Hy; apply H; right; exact Hy). reflexivity.
Qed.

Lemma map_m_Forall2 {A B : Type} (f : A -> result B) (P : A -> B -> Prop)
    (xs : list A) :
  (forall x, In x xs -> exists y, f x = Ok y /\ P x y) ->
  exists ys, Builder.map_m f xs = Ok ys /\ Forall2 P xs ys.
Proof.
  induction xs as [|x xs IH]; intros H; simpl.
  - exists []. split; [reflexivity|constructor].
  - destruct (H x (or_introl eq_refl)) as [y [Hy HP]]. rewrite Hy.
    destruct IH as [ys [Hys HF]].
    { intros z Hz. apply H. right. exact Hz. }
    rewrite Hys. simpl. exists (y :: ys). split; [reflexivity|].
    constructor; assumption.
Qed.

Lemma mapi_m_Forall2 {A B : Type} (f : nat -> A -> result B)
    (P : A -> B -> Prop) (xs : list A) : forall i,
  (forall j x, In x xs -> exists y, f j x = Ok y /\ P x y) ->
  exists ys, Builder.mapi_m f i xs = Ok ys /\ Forall2 P xs ys.
Proof.
  induction xs as [|x xs IH]; intros i H; simpl.
  - exists []. split; [reflexivity|constructor].
  - destruct (H i x (or_introl eq_refl)) as [y [Hy HP]]. rewrite Hy.
    destruct (IH (S i)) as [ys [Hys HF]].
    { intros j z Hz. apply H. right. exact Hz. }
    rewrite Hys. simpl. exists (y :: ys). split; [reflexivity|].
    constructor; assumption.
Qed.

Lemma Forall2_map_eq {A B C : Type} (h : B -> C) (k : A -> C) xs ys :
  Forall2 (fun x y => h y = k x) xs ys -> map h ys = map k xs.
Proof.
  induction 1 as [|x y xs ys Hxy _ IH]; simpl; [reflexivity|].
  now rewrite Hxy, IH.
Qed.

Lemma Forall2_length_eq {A B : Type} (P : A -> B -> Prop) xs ys :
  Forall2 P xs ys -> List.length ys = List.length xs.
Proof. induction 1; simpl; congruence. Qed.

Lemma map_m_length {A B : Type} (f : A -> result B) (xs : list A) ys :
  Builder.map_m f xs = Ok ys -> List.length ys = List.length xs.
Proof.
  revert ys. induction xs as [|x xs IH]; simpl; intros ys H.
  - injection H as <-. reflexivity.
  - destruct (f x); simpl in H; [|discriminate].
    destruct (Builder.map_m f xs) as [l|]; simpl in H; [|discriminate].
    injection H as <-. simpl. now rewrite (IH l).
Qed.

(* ================================================================== *)
(** * The value chain: costs are shown as the content has them *)

Module CadenaValorFacts.
Import Builder.

Definition is_dict (v : pyval) : bool :=
  match v with PDict _ => true | _ => false end.

(** A non-empty list whose elements pass [ok]. *)
Definition nonempty_list_of (ok : pyval -> bool) (v : pyval) : bool :=
  match v with
  | PList (x :: l) => forallb ok (x :: l)
  | _ => false
  end.

(** Content of the shape the prompt asks for: objectives that hold their
    products, products that hold their activities. *)
Definition wf_producto (v : pyval) : bool :=
  match v with
  | PDict p => nonempty_list_of is_dict (get p "actividades" (PList []))
  | _ => false
  end.

Definition wf_objetivo (v : pyval) : bool :=
  match v with
  | PDict o => nonempty_list_of wf_producto (get o "productos" (PList []))
  | _ => false
  end.

Definition wf_cadena (c : pydict) : bool :=
  nonempty_list_of wf_objetivo (get c "objetivos" (PList [])).

Definition elements (v : pyval) : list pyval :=
  match v with PList l => l | _ => [] end.

Definition field (v : pyval) (k : string) (default : pyval) : pyval :=
  match v with PDict d => get d k default | _ => default end.

(** The costs as the content holds them: per objective its cost and, per
    product, the product's cost and the costs of its activities. *)
Definition content_costs (costo_total : pyval) (c : pydict)
    : list (pyval * list (pyval * list pyval)) :=
  map (fun obj =>
         (field obj "costo" costo_total,
          map (fun prod =>
                 (field prod "costo" (PStr ""),
                  map (fun act => field act "costo" (PStr ""))
                      (elements (field prod "actividades" (PList [])))))
              (elements (field obj "productos" (PList [])))))
      (elements (get c "objetivos" (PList []))).

(** The costs as the page shows them. *)
Definition page_costs (cv : cadena_valor)
    : list (pyval * list (pyval * list pyval)) :=
  map (fun o =>
         (o_costo o,
          map (fun pr => (pr_costo pr, map a_costo (pr_actividades pr)))
              (o_productos o)))
      (cv_objetivos cv).

(** What an amount is worth when the content gives it as a number. *)
Definition amount (v : pyval) : Z :=
  match v with PInt z => z | _ => 0%Z end.

Definition activities_total (pr : producto) : Z :=
  fold_right Z.add 0%Z (map (fun a => amount (a_costo a)) (pr_actividades pr)).

Definition products_of (cv : cadena_valor) : list producto :=
  flat_map o_productos (cv_objetivos cv).

Lemma nonempty_list_of_inv ok v :
  nonempty_list_of ok v = true ->
  exists x l, v = PList (x :: l) /\ forallb ok (x :: l) = true.
Proof.
  destruct v as [| | | |[|x l]|]; simpl; try discriminate.
  intros H. exists x, l. split; [reflexivity|exact H].
Qed.

Lemma render_actividad_dict d :
  exists a, render_actividad (PDict d) = Ok a
    /\ a_costo a = get d "costo" (PStr "").
Proof.
  unfold render_actividad. simpl.
  destruct (truthy (get d "nombre" (PStr ""))); simpl;
    eexists; split; reflexivity.
Qed.

Definition shown_actividad (act : pyval) : actividad :=
  match render_actividad act with
  | Ok a => a
  | Raise _ => {| a_codigo := PNone; a_nombre := PNone; a_costo := PNone;
                  a_etapa := PNone |}
  end.

Lemma render_actividad_shown act :
  is_dict act = true ->
  render_actividad act = Ok (shown_actividad act)
  /\ a_costo (shown_actividad act) = field act "costo" (PStr "").
Proof.
  destruct act; simpl; try discriminate. intros _.
  destruct (render_actividad_dict d) as [a [Ha Hc]].
  unfold shown_actividad. rewrite Ha. split; [reflexivity|exact Hc].
Qed.

Lemma render_producto_wf content tla idx prod :
  wf_producto prod = true ->
  exists pr, render_producto content tla idx prod = Ok pr
    /\ pr_costo pr = field prod "costo" (PStr "")
    /\ map a_costo (pr_actividades pr)
       = map (fun act => field act "costo" (PStr ""))
             (elements (field prod "actividades" (PList []))).
Proof.
  destruct prod as [| | | | |p]; simpl; try discriminate. intros Hwf.
  destruct (nonempty_list_of_inv _ _ Hwf) as [x [l [Hacts Hok]]].
  unfold render_producto. rewrite Hacts. cbn [truthy negb py_iter bind].
  rewrite (map_m_ok render_actividad shown_actividad (x :: l)).
  2:{ intros a Ha. apply render_actividad_shown.
      apply (proj1 (forallb_forall _ _) Hok a Ha). }
  cbn [bind]. eexists. split; [reflexivity|]. simpl. split; [reflexivity|].
  rewrite forallb_forall in Hok.
  assert (Hx := proj2 (render_actividad_shown x (Hok x (or_introl eq_refl)))).
  f_equal; [exact Hx|].
  rewrite map_map. apply map_ext_in. intros a Ha.
  apply render_actividad_shown. apply Hok. right. exact Ha.
Qed.

Lemma render_objetivo_wf content costo_total tlp tla obj :
  wf_objetivo obj = true ->
  exists o, render_objetivo content costo_total tlp tla obj = Ok o
    /\ o_costo o = field obj "costo" costo_total
    /\ map (fun pr => (pr_costo pr, map a_costo (pr_actividades pr)))
           (o_productos o)
       = map (fun prod =>
                (field prod "costo" (PStr ""),
                 map (fun act => field act "costo" (PStr ""))
                     (elements (field prod "actividades" (PList [])))))
             (elements (field obj "productos" (PList []))).
Proof.
  destruct obj as [| | | | |o]; simpl; try discriminate. intros Hwf.
  destruct (nonempty_list_of_inv _ _ Hwf) as [x [l [Hprods Hok]]].
  unfold render_objetivo. rewrite Hprods. cbn [truthy negb py_iter bind].
  rewrite forallb_forall in Hok.
  destruct (mapi_m_Forall2 (render_producto content tla)
              (fun prod pr =>
                 (pr_costo pr, map a_costo (pr_actividades pr))
                 = (field prod "costo" (PStr ""),
                    map (fun act => field act "costo" (PStr ""))
                        (elements (field prod "actividades" (PList [])))))
              (x :: l) 0) as [prs [Hprs HF]].
  { intros j prod Hin.
    destruct (render_producto_wf content tla j prod (Hok prod Hin))
      as [pr [Hpr [Hc Ha]]].
    exists pr. split; [exact Hpr|]. now rewrite Hc, Ha. }
  rewrite Hprs. cbn [bind]. eexists. split; [reflexivity|].
  split; [reflexivity|]. cbn [o_productos elements].
  apply (Forall2_map_eq
           (fun pr => (pr_costo pr, map a_costo (pr_actividades pr)))).
  exact HF.
Qed.

(** C1, as the code has it: for content of the prompt's shape the
    value-chain page is produced, and the costs it shows, at the three
    levels, are those of the content, unchanged. *)
Theorem cadena_valor_costs_verbatim (data c : pydict)
    (Hwf : wf_cadena c = true) :
  exists cv,
    _add_page_14_cadena_valor data (PDict c) = Ok cv
    /\ page_costs cv
       = content_costs (py_or (get c "costo_total" (PStr ""))
                              (get data "valor_total" (PStr ""))) c.
Proof.
  unfold wf_cadena in Hwf.
  destruct (nonempty_list_of_inv _ _ Hwf) as [x [l [Hobjs Hok]]].
  unfold _add_page_14_cadena_valor, content_costs. rewrite Hobjs.
  cbn [truthy negb andb py_iter bind elements].
  set (costo_total := py_or (get c "costo_total" (PStr ""))
                            (get data "valor_total" (PStr ""))).
  rewrite forallb_forall in Hok.
  destruct (map_m_Forall2
              (render_objetivo c costo_total (get c "productos" (PList []))
                               (get c "actividades" (PList [])))
              (fun obj o =>
                 (o_costo o,
                  map (fun pr => (pr_costo pr, map a_costo (pr_actividades pr)))
                      (o_productos o))
                 = (field obj "costo" costo_total,
                    map (fun prod =>
                           (field prod "costo" (PStr ""),
                            map (fun act => field act "costo" (PStr ""))
                                (elements
                                   (field prod "actividades" (PList [])))))
                        (elements (field obj "productos" (PList [])))))
              (x :: l)) as [os [Hos HF]].
  { intros obj Hin.
    destruct (render_objetivo_wf c costo_total (get c "productos" (PList []))
                (get c "actividades" (PList [])) obj (Hok obj Hin))
      as [o [Ho [Hc Hp]]].
    exists o. split; [exact Ho|]. now rewrite Hc, Hp. }
  rewrite Hos. cbn [bind]. eexists. split; [reflexivity|].
  unfold page_costs. cbn [cv_objetivos].
  apply (Forall2_map_eq
           (fun o =>
              (o_costo o,
               map (fun pr => (pr_costo pr, map a_costo (pr_actividades pr)))
                   (o_productos o)))).
  exact HF.
Qed.

(** The scenario of the specification: a declared total of 100,000,000,
    one objective, two products costed 60,000,000 and 40,000,000 whose
    activities sum to 59,999,998 and 40,000,002. *)
Definition scenario_data : pydict := [("valor_total", PInt 100000000)].

Definition scenario : pydict :=
  [("costo_total", PInt 100000000);
   ("objetivos",
    PList [PDict
      [("numero", PStr "1"); ("costo", PInt 100000000);
       ("productos",
        PList [PDict [("codigo", PStr "1.1"); ("costo", PInt 60000000);
                      ("actividades",
                       PList [PDict [("codigo", PStr "1.1.1");
                                     ("costo", PInt 30000000)];
                              PDict [("codigo", PStr "1.1.2");
                                     ("costo", PInt 29999998)]])];
               PDict [("codigo", PStr "1.2"); ("costo", PInt 40000000);
                      ("actividades",
                       PList [PDict [("codigo", PStr "1.2.1");
                                     ("costo", PInt 40000002)]])]])]])].

Lemma cadena_valor_costs_verbatim_witness :
  exists cv,
    _add_page_14_cadena_valor scenario_data (PDict scenario) = Ok cv
    /\ page_costs cv
       = content_costs (py_or (get scenario "costo_total" (PStr ""))
                              (get scenario_data "valor_total" (PStr "")))
                       scenario.
Proof. exact (cadena_valor_costs_verbatim scenario_data scenario eq_refl). Defined.

(** C1 as the specification states it fails: on the scenario the page is
    built, both products keep activities that miss the product's cost by
    two units, and nothing is rescaled. *)
Lemma cadena_valor_sums_left_open :
  exists cv o p1 p2,
    cadena_valor_page scenario_data [("pagina_13_cadena_valor", PDict scenario)]
    = Ok cv
    /\ cv_objetivos cv = [o] /\ o_productos o = [p1; p2]
    /\ amount (pr_costo p1) = 60000000%Z
    /\ activities_total p1 = 59999998%Z
    /\ amount (pr_costo p2) = 40000000%Z
    /\ activities_total p2 = 40000002%Z.
Proof. do 4 eexists. repeat split; reflexivity. Qed.
End CadenaValorFacts.

(* ================================================================== *)
(** * Indicator and regionalization pages follow their own records *)

Module AuxiliaryFacts.
Import Builder CadenaValorFacts.

(** A list, possibly empty, whose elements pass [ok]. *)
Definition list_of (ok : pyval -> bool) (v : pyval) : bool :=
  match v with
  | PList l => forallb ok l
  | _ => false
  end.

(** An indicator record of the prompt's shape. *)
Definition wf_indicador (r : pyval) : bool :=
  match r with
  | PDict d =>
      is_dict (get d "producto" (PDict []))
      && is_dict (get d "indicador" (PDict []))
      && (let pr := get d "programacion_indicadores" (PList []) in
          negb (truthy pr) || list_of is_dict pr)
  | _ => false
  end.

(** A regionalization record of the prompt's shape. *)
Definition wf_regionalizacion (r : pyval) : bool :=
  match r with
  | PDict d =>
      is_dict (get d "ubicacion" (PDict []))
      && (let tc := get d "tabla_costos" (PList []) in
          negb (truthy tc) || list_of is_dict tc)
  | _ => false
  end.

Lemma is_dict_inv v : is_dict v = true -> exists d, v = PDict d.
Proof. destruct v; simpl; try discriminate. eauto. Qed.

Lemma list_of_inv ok v :
  list_of ok v = true -> exists l, v = PList l /\ forallb ok l = true.
Proof. destruct v; simpl; try discriminate. eauto. Qed.

(** What the page of an indicator record shows, read off the record: the
    schedule, or the single period 0 with the total goal when the record
    has none. *)
Definition programacion_shown (r : pyval) : list (pyval * pyval) :=
  let programacion := field r "programacion_indicadores" (PList []) in
  if truthy programacion then
    map (fun item =>
           (field item "periodo" (PStr ""), field item "meta" (PStr "")))
        (elements programacion)
  else [(PStr "0",
         field (field r "indicador" (PDict [])) "meta_total" (PStr "0"))].

Definition page_of (r : pyval) : indicador_page :=
  let prod := field r "producto" (PDict []) in
  let ind := field r "indicador" (PDict []) in
  {| ip_producto_codigo := field prod "codigo" (PStr "");
     ip_producto_nombre := field prod "nombre" (PStr "");
     ip_codigo := field ind "codigo" (PStr "");
     ip_nombre := field ind "nombre" (PStr "");
     ip_medido := field ind "medido" (PStr "");
     ip_meta_total := field ind "meta_total" (PStr "");
     ip_formula := field ind "formula" (PStr "");
     ip_es_acumulativo := field ind "es_acumulativo" (PStr "");
     ip_es_principal := field ind "es_principal" (PStr "");
     ip_tipo_fuente := field ind "tipo_fuente" (PStr "");
     ip_fuente_verificacion := field ind "fuente_verificacion" (PStr "");
     ip_programacion := programacion_shown r |}.

(** What the block of a regionalization record shows, read off the
    record: the rows of its cost table, or the single row of period 0 and
    cost 0 when the record has none. *)
Definition costo_shown (item : pyval) : costo_row :=
  {| rc_periodo := field item "periodo" (PStr "");
     rc_costo_total := field item "costo_total" (PStr "");
     rc_costo_regionalizado := field item "costo_regionalizado" (PStr "");
     rc_meta_total := field item "meta_total" (PStr "");
     rc_meta_regionalizada := field item "meta_regionalizada" (PStr "");
     rc_beneficiarios := field item "beneficiarios" (PStr "") |}.

Definition block_of (r : pyval) : regionalizacion_block :=
  let ubicacion := field r "ubicacion" (PDict []) in
  let tabla_costos := field r "tabla_costos" (PList []) in
  {| rb_producto := field r "producto" (PStr "");
     rb_region := field ubicacion "region" (PStr "Caribe");
     rb_departamento := field ubicacion "departamento" (PStr "");
     rb_municipio := field ubicacion "municipio" (PStr "");
     rb_tipo_agrupacion := field ubicacion "tipo_agrupacion" (PStr "");
     rb_agrupacion := field ubicacion "agrupacion" (PStr "");
     rb_tabla_costos :=
       if truthy tabla_costos then map costo_shown (elements tabla_costos)
       else [{| rc_periodo := PStr "0"; rc_costo_total := PStr "0";
                rc_costo_regionalizado := PStr "";
                rc_meta_total := PStr ""; rc_meta_regionalizada := PStr "";
                rc_beneficiarios := PStr "" |}] |}.

Lemma render_periodo_dict v :
  is_dict v = true ->
  render_periodo v
  = Ok (field v "periodo" (PStr ""), field v "meta" (PStr "")).
Proof. intros H. destruct (is_dict_inv _ H) as [d ->]. reflexivity. Qed.

Lemma render_costo_dict v :
  is_dict v = true -> render_costo v = Ok (costo_shown v).
Proof. intros H. destruct (is_dict_inv _ H) as [d ->]. reflexivity. Qed.

Lemma _add_page_indicador_wf r :
  wf_indicador r = true -> _add_page_indicador r = Ok (page_of r).
Proof.
  destruct r as [| | | | |d]; simpl; try discriminate. intros Hwf.
  apply andb_true_iff in Hwf. destruct Hwf as [Hwf Hprog].
  apply andb_true_iff in Hwf. destruct Hwf as [Hprod Hind].
  destruct (is_dict_inv _ Hprod) as [prod Eprod].
  destruct (is_dict_inv _ Hind) as [ind Eind].
  unfold _add_page_indicador, page_of, programacion_shown.
  cbn [py_get bind field].
  rewrite Eprod, Eind. cbn [py_get bind field].
  destruct (truthy (get d "programacion_indicadores" (PList []))) eqn:Et;
    cbn [negb bind].
  - simpl in Hprog. destruct (list_of_inv _ _ Hprog) as [l [El Hl]].
    rewrite El. cbn [items_by_index bind elements].
    rewrite (map_m_ok render_periodo
               (fun item => (field item "periodo" (PStr ""),
                             field item "meta" (PStr ""))) l).
    2:{ intros x Hx. apply render_periodo_dict.
        apply (proj1 (forallb_forall _ _) Hl x Hx). }
    reflexivity.
  - reflexivity.
Qed.

Lemma render_regionalizacion_wf r :
  wf_regionalizacion r = true -> render_regionalizacion r = Ok (block_of r).
Proof.
  destruct r as [| | | | |d]; simpl; try discriminate. intros Hwf.
  apply andb_true_iff in Hwf. destruct Hwf as [Hubi Htc].
  destruct (is_dict_inv _ Hubi) as [ubi Eubi].
  unfold render_regionalizacion, block_of. cbn [py_get bind field].
  rewrite Eubi. cbn [py_get bind field].
  destruct (truthy (get d "tabla_costos" (PList []))) eqn:Et; cbn [negb].
  - simpl in Htc. destruct (list_of_inv _ _ Htc) as [l [El Hl]].
    rewrite El. cbn [py_iter bind elements].
    rewrite (map_m_ok render_costo costo_shown l).
    2:{ intros x Hx. apply render_costo_dict.
        apply (proj1 (forallb_forall _ _) Hl x Hx). }
    reflexivity.
  - reflexivity.
Qed.

(** The page rendered for [placeholder_indicador]. *)
Definition placeholder_page : indicador_page :=
  {| ip_producto_codigo := PStr "1.1"; ip_producto_nombre := PStr "";
     ip_codigo := PStr "1.1.1"; ip_nombre := PStr ""; ip_medido := PStr "";
     ip_meta_total := PStr ""; ip_formula := PStr "";
     ip_es_acumulativo := PStr ""; ip_es_principal := PStr "";
     ip_tipo_fuente := PStr ""; ip_fuente_verificacion := PStr "";
     ip_programacion := [(PStr "0", PStr "0")] |}.

(** Without indicator records, in the list or as the old single record,
    there is the placeholder page and nothing else. *)
Lemma placeholder_without_records (content : pydict) :
  truthy (get content "indicadores_producto" (PList [])) = false ->
  truthy (get_none content "pagina_22_indicadores_producto") = false ->
  _add_pages_indicadores content = Ok [placeholder_page].
Proof.
  intros Hind Hold. unfold _add_pages_indicadores.
  rewrite Hind. cbn [negb]. rewrite Hold. rewrite Hind. reflexivity.
Qed.

(** C3, as the code has it: nothing checks that a product has its pair.
    Without indicator records (neither the list [indicadores_producto] nor
    the old single record [pagina_22_indicadores_producto]) the indicator
    call returns with one placeholder page; without regionalization
    records the regionalization call returns with the section left out.
    Each holds on its own, whatever else the content has, its products
    included. *)
Theorem missing_pairs_do_not_fail (content : pydict) :
  (truthy (get content "indicadores_producto" (PList [])) = false ->
   truthy (get_none content "pagina_22_indicadores_producto") = false ->
   _add_pages_indicadores content = Ok [placeholder_page])
  /\ (truthy (get content "regionalizacion_productos" (PList [])) = false ->
      _add_pages_regionalizacion content = Ok []).
Proof.
  split.
  - apply placeholder_without_records.
  - intros Hreg. unfold _add_pages_regionalizacion. now rewrite Hreg.
Qed.

(** C4, as the code has it: the pages follow the records, not the
    products.  For a non-empty list of indicator records of the prompt's
    shape there is one page per record, in the order of the list, each
    showing its own record; for regionalization records of the prompt's
    shape there is one block per record, in order, each showing its own
    record.  The only placeholder is the single indicator page rendered
    when there is no indicator record at all. *)
Theorem pages_follow_records (content : pydict) :
  (forall inds,
     get content "indicadores_producto" (PList []) = PList inds ->
     inds <> [] ->
     forallb wf_indicador inds = true ->
     _add_pages_indicadores content = Ok (map page_of inds))
  /\ (get content "indicadores_producto" (PList []) = PList [] ->
      truthy (get_none content "pagina_22_indicadores_producto") = false ->
      _add_pages_indicadores content = Ok [placeholder_page])
  /\ (forall regs,
        get content "regionalizacion_productos" (PList []) = PList regs ->
        forallb wf_regionalizacion regs = true ->
        _add_pages_regionalizacion content = Ok (map block_of regs)).
Proof.
  split; [|split].
  - intros inds Hinds Hne Hwf. unfold _add_pages_indicadores.
    rewrite Hinds. destruct inds as [|i inds]; [congruence|].
    cbn [truthy negb py_iter bind].
    apply map_m_ok. intros x Hx. apply _add_page_indicador_wf.
    apply (proj1 (forallb_forall _ _) Hwf x Hx).
  - intros Hinds Hold. apply placeholder_without_records; [|exact Hold].
    now rewrite Hinds.
  - intros regs Hregs Hwf. unfold _add_pages_regionalizacion.
    rewrite Hregs. destruct regs as [|r regs]; [reflexivity|].
    cbn [truthy negb py_iter bind].
    apply map_m_ok. intros x Hx. apply render_regionalizacion_wf.
    apply (proj1 (forallb_forall _ _) Hwf x Hx).
Qed.

(** A value chain with two products. *)
Definition two_products : pyval := PDict CadenaValorFacts.scenario.

Definition an_indicador (codigo : string) : pyval :=
  PDict [("producto", PDict [("codigo", PStr codigo)]);
         ("indicador", PDict [("codigo", PStr (codigo ++ ".1"))])].

Definition a_regionalizacion (prod : string) : pyval :=
  PDict [("producto", PStr prod)].

(** Two products and nothing else. *)
Definition content_without_pairs : pydict :=
  [("pagina_13_cadena_valor", two_products)].

(** Two products with their regionalization records and no indicator
    record. *)
Definition content_without_indicators : pydict :=
  [("pagina_13_cadena_valor", two_products);
   ("regionalizacion_productos",
    PList [a_regionalizacion "a"; a_regionalizacion "b"])].

(** Two products with their indicator records and no regionalization
    record. *)
Definition content_without_regionalization : pydict :=
  [("pagina_13_cadena_valor", two_products);
   ("indicadores_producto", PList [an_indicador "1.1"; an_indicador "1.2"])].

(** Two products, one indicator record, three regionalization records. *)
Definition content_with_other_counts : pydict :=
  [("pagina_13_cadena_valor", two_products);
   ("indicadores_producto", PList [an_indicador "1.1"]);
   ("regionalizacion_productos",
    PList [a_regionalizacion "a"; a_regionalizacion "b";
           a_regionalizacion "c"])].

Lemma missing_pairs_do_not_fail_witness :
  _add_pages_indicadores content_without_indicators = Ok [placeholder_page]
  /\ _add_pages_regionalizacion content_without_regionalization = Ok [].
Proof.
  split.
  - exact (proj1 (missing_pairs_do_not_fail content_without_indicators)
             eq_refl eq_refl).
  - exact (proj2 (missing_pairs_do_not_fail content_without_regionalization)
             eq_refl).
Defined.

(** C3 as the specification states it fails: two products without any
    indicator or regionalization record, and both calls return; the
    regionalization section is skipped without a word. *)
Lemma missing_pairs_are_skipped :
  exists cv,
    cadena_valor_page scenario_data content_without_pairs = Ok cv
    /\ List.length (products_of cv) = 2
    /\ is_ok (_add_pages_indicadores content_without_pairs) = true
    /\ _add_pages_regionalizacion content_without_pairs = Ok [].
Proof. eexists. repeat split; reflexivity. Qed.

Lemma pages_follow_records_witness :
  _add_pages_indicadores content_with_other_counts
  = Ok (map page_of [an_indicador "1.1"])
  /\ _add_pages_indicadores content_without_pairs = Ok [placeholder_page]
  /\ _add_pages_regionalizacion content_with_other_counts
     = Ok (map block_of [a_regionalizacion "a"; a_regionalizacion "b";
                         a_regionalizacion "c"]).
Proof.
  split; [|split].
  - apply (proj1 (pages_follow_records content_with_other_counts)
             [an_indicador "1.1"]);
      [reflexivity | discriminate | reflexivity].
  - exact (proj1 (proj2 (pages_follow_records content_without_pairs))
             eq_refl eq_refl).
  - apply (proj2 (proj2 (pages_follow_records content_with_other_counts))
             [a_regionalizacion "a"; a_regionalizacion "b";
              a_regionalizacion "c"]);
      reflexivity.
Defined.

(** C4 as the specification states it fails: with two products, one
    indicator record and three regionalization records there are one
    indicator page and three regionalization blocks, not two of each, and
    no placeholder is added for the product without indicator; with two
    products and no indicator record there is one placeholder page, not
    two. *)
Lemma pages_do_not_count_products :
  exists cv pages blocks,
    cadena_valor_page scenario_data content_with_other_counts = Ok cv
    /\ List.length (products_of cv) = 2
    /\ _add_pages_indicadores content_with_other_counts = Ok pages
    /\ List.length pages = 1
    /\ _add_pages_regionalizacion content_with_other_counts = Ok blocks
    /\ List.length blocks = 3
    /\ cadena_valor_page scenario_data content_without_pairs = Ok cv
    /\ _add_pages_indicadores content_without_pairs = Ok [placeholder_page].
Proof. do 3 eexists. repeat split; reflexivity. Qed.

End AuxiliaryFacts.

(* ================================================================== *)
(** * The focalization ledger: layout of the rows and subtotals *)

Module LedgerFacts.
Import Builder.

Section Layout.
Variable F : Type.
Variable f_zero : F.
Variable f_add : F -> F -> F.
Variable py_str : pyval -> string.
Variable py_float : string -> option F.
Variable format_2f : F -> string.

(** What an entry adds to its subtotals: its value when the cleaned text
    parses as a number, and [0.0] when it does not. *)
Definition contribution (it : pydict) : F :=
  match py_float (clean_valor py_str (get it "valor" (PStr "0"))) with
  | Some x => x
  | None => f_zero
  end.

(** [0.0 + c1 + c2 + ...], added in this order. *)
Definition category_total (items : list pydict) : F :=
  fold_left f_add (map contribution items) f_zero.

Definition policy_total (cats : categories) : F :=
  fold_left f_add (map (fun c => category_total (snd c)) cats) f_zero.

(** The rows of a category: its entries, then its total. *)
Definition category_block (policy : pyval) (c : pyval * list pydict)
    : list row :=
  map (item_row policy (fst c)) (snd c)
  ++ [total_cat_row format_2f policy (fst c) (category_total (snd c))].

(** The rows of a policy: its categories, then its total. *)
Definition policy_block (p : pyval * categories) : list row :=
  flat_map (category_block (fst p)) (snd p)
  ++ [total_pol_row format_2f (fst p) (policy_total (snd p))].

Definition ledger_rows (g : grouped) : list row := flat_map policy_block g.

Lemma parse_valor_contribution it :
  parse_valor f_zero py_str py_float it = Ok (contribution it).
Proof.
  unfold parse_valor, contribution, float_.
  destruct (py_float _); reflexivity.
Qed.

Lemma item_loop policy category items : forall acc rows,
  for_each (item_step f_zero f_add py_str py_float policy category) items
           (acc, rows)
  = Ok (fold_left f_add (map contribution items) acc,
        rows ++ map (item_row policy category) items).
Proof.
  induction items as [|it items IH]; intros acc rows; simpl.
  - now rewrite app_nil_r.
  - unfold item_step at 1. rewrite parse_valor_contribution. simpl.
    rewrite IH. now rewrite <- app_assoc.
Qed.

Lemma category_loop policy cats : forall acc rows,
  for_each (category_step f_zero f_add py_str py_float format_2f policy) cats
           (acc, rows)
  = Ok (fold_left f_add (map (fun c => category_total (snd c)) cats) acc,
        rows ++ flat_map (category_block policy) cats).
Proof.
  induction cats as [|c cats IH]; intros acc rows; simpl.
  - now rewrite app_nil_r.
  - unfold category_step at 1. simpl. rewrite item_loop. simpl.
    rewrite IH. unfold category_block, category_total.
    now rewrite <- !app_assoc.
Qed.

Lemma policy_loop g : forall rows,
  for_each (policy_step f_zero f_add py_str py_float format_2f) g rows
  = Ok (rows ++ flat_map policy_block g).
Proof.
  induction g as [|p g IH]; intros rows; simpl.
  - now rewrite app_nil_r.
  - unfold policy_step at 1. rewrite category_loop. simpl.
    rewrite IH. unfold policy_block, policy_total.
    now rewrite <- !app_assoc.
Qed.

Lemma rows_to_render_layout g :
  rows_to_render f_zero f_add py_str py_float format_2f g = Ok (ledger_rows g).
Proof. unfold rows_to_render. now rewrite policy_loop. Qed.


End Layout.

Lemma flat_map_agree {A B : Type} (f g : A -> list B) l :
  (forall a, In a l -> f a = g a) -> flat_map f l = flat_map g l.
Proof.
  induction l as [|a l IH]; intros H; simpl; [reflexivity|].
  rewrite (H a (or_introl eq_refl)), IH; [reflexivity|].
  intros b Hb. apply H. now right.
Qed.

(** ** Grouping by a key, in first-seen order *)

Section Grouping.
Context {K A V : Type}.
Variable eqb : K -> K -> bool.
Hypothesis eqb_sym : forall a b, eqb a b = eqb b a.
Hypothesis eqb_trans :
  forall a b c, eqb a b = true -> eqb b c = true -> eqb a c = true.
Variable kf : A -> K.
Variable init : V.
Variable add : V -> A -> V.

(** [if k not in d: d[k] = init] followed by [d[k] = f(d[k])]. *)
Fixpoint upsert (d : list (K * V)) (k : K) (f : V -> V) : list (K * V) :=
  match d with
  | [] => [(k, f init)]
  | (k', v) :: d' =>
      if eqb k' k then (k', f v) :: d' else (k', v) :: upsert d' k f
  end.

Definition mem_key (seen : list K) (k : K) : bool :=
  existsb (fun k' => eqb k' k) seen.

Definition see (seen : list K) (k : K) : list K :=
  if mem_key seen k then seen else seen ++ [k].

(** The keys in the order of their first occurrence. *)
Definition first_seen (ks : list K) : list K := fold_left see ks [].

(** The elements whose key is [k], in their order. *)
Definition select (xs : list A) (k : K) : list A :=
  filter (fun x => eqb (kf x) k) xs.

Definition group_value (xs : list A) (k : K) : V :=
  fold_left add (select xs k) init.

Definition grouping (xs : list A) : list (K * V) :=
  map (fun k => (k, group_value xs k)) (first_seen (map kf xs)).

Definition group_step (g : list (K * V)) (x : A) : list (K * V) :=
  upsert g (kf x) (fun v => add v x).

Fixpoint distinct (l : list K) : bool :=
  match l with
  | [] => true
  | k :: l' => negb (existsb (fun k' => eqb k k') l') && distinct l'
  end.

Lemma od_upsert (d : list (K * V)) k f :
  eqb k k = true ->
  od_set eqb (if negb (od_mem eqb d k) then od_set eqb d k init else d) k
    (f match od_get eqb (if negb (od_mem eqb d k)
                         then od_set eqb d k init else d) k with
       | Some v => v
       | None => init
       end)
  = upsert d k f.
Proof.
  intros Hrefl. unfold od_mem.
  induction d as [|[k' v] d IH]; simpl.
  - rewrite Hrefl. reflexivity.
  - destruct (eqb k' k) eqn:E; simpl.
    + now rewrite E.
    + destruct (od_get eqb d k) eqn:G; simpl in *; rewrite E; rewrite ?G;
        f_equal; rewrite ?G in IH; exact IH.
Qed.

Lemma mem_key_congr seen k0 k :
  eqb k0 k = true -> mem_key seen k0 = true -> mem_key seen k = true.
Proof.
  intros E. unfold mem_key. rewrite !existsb_exists.
  intros [k' [Hin Hk']]. exists k'. split; [exact Hin|].
  now apply eqb_trans with k0.
Qed.

Lemma mem_key_fold ks k : forall acc,
  mem_key (fold_left see ks acc) k = mem_key acc k || mem_key ks k.
Proof.
  induction ks as [|k0 ks IH]; intros acc; simpl.
  - now rewrite orb_false_r.
  - rewrite IH. unfold see. destruct (mem_key acc k0) eqn:M.
    + destruct (eqb k0 k) eqn:E; simpl; [|reflexivity].
      rewrite (mem_key_congr _ _ _ E M). reflexivity.
    + unfold mem_key at 1. rewrite existsb_app. simpl.
      rewrite orb_false_r. fold (mem_key acc k).
      now rewrite orb_assoc.
Qed.

Lemma mem_key_first_seen ks k : mem_key (first_seen ks) k = mem_key ks k.
Proof. unfold first_seen. now rewrite mem_key_fold. Qed.

Lemma distinct_snoc l k :
  distinct l = true -> mem_key l k = false -> distinct (l ++ [k]) = true.
Proof.
  induction l as [|k0 l IH]; simpl; intros Hd Hm; [reflexivity|].
  apply andb_true_iff in Hd. destruct Hd as [Hk0 Hd].
  apply orb_false_iff in Hm. destruct Hm as [E Hm].
  rewrite existsb_app. simpl. rewrite E, orb_false_r.
  rewrite Hk0. simpl. now apply IH.
Qed.

Lemma distinct_fold ks : forall acc,
  distinct acc = true -> distinct (fold_left see ks acc) = true.
Proof.
  induction ks as [|k ks IH]; intros acc Hd; simpl; [exact Hd|].
  apply IH. unfold see. destruct (mem_key acc k) eqn:M; [exact Hd|].
  now apply distinct_snoc.
Qed.

Lemma distinct_first_seen ks : distinct (first_seen ks) = true.
Proof. apply distinct_fold. reflexivity. Qed.

Lemma upsert_map (W : K -> V) l kx f :
  distinct l = true ->
  upsert (map (fun k => (k, W k)) l) kx f
  = map (fun k => (k, if eqb k kx then f (W k) else W k)) l
    ++ (if mem_key l kx then [] else [(kx, f init)]).
Proof.
  induction l as [|k l IH]; simpl; intros Hd; [reflexivity|].
  apply andb_true_iff in Hd. destruct Hd as [Hk Hd].
  destruct (eqb k kx) eqn:E; simpl.
  - rewrite app_nil_r. f_equal. apply map_ext_in. intros k' Hin.
    destruct (eqb k' kx) eqn:E'; [|reflexivity].
    exfalso. apply negb_true_iff in Hk.
    assert (Hkk : eqb k k' = true).
    { apply eqb_trans with kx; [exact E|]. now rewrite eqb_sym. }
    assert (Hex : existsb (fun k'0 => eqb k k'0) l = true).
    { apply existsb_exists. exists k'. split; assumption. }
    congruence.
  - f_equal. now apply IH.
Qed.

Lemma group_value_snoc xs x k :
  group_value (xs ++ [x]) k
  = if eqb (kf x) k then add (group_value xs k) x else group_value xs k.
Proof.
  unfold group_value, select. rewrite filter_app. simpl.
  destruct (eqb (kf x) k).
  - now rewrite fold_left_app.
  - now rewrite app_nil_r.
Qed.

Lemma select_none xs k : mem_key (map kf xs) k = false -> select xs k = [].
Proof.
  unfold mem_key, select. induction xs as [|x xs IH]; simpl; [reflexivity|].
  intros H. apply orb_false_iff in H. destruct H as [E H].
  rewrite E. now apply IH.
Qed.

Lemma grouping_snoc xs x :
  eqb (kf x) (kf x) = true ->
  group_step (grouping xs) x = grouping (xs ++ [x]).
Proof.
  intros Hrefl. unfold group_step, grouping.
  rewrite upsert_map by apply distinct_first_seen.
  rewrite map_app. simpl map at 3.
  unfold first_seen at 3. rewrite fold_left_app. simpl fold_left at 1.
  fold (first_seen (map kf xs)). unfold see.
  assert (Hsame : forall k,
            (k, if eqb k (kf x) then add (group_value xs k) x
                else group_value xs k)
            = (k, group_value (xs ++ [x]) k)).
  { intros k. rewrite group_value_snoc. now rewrite (eqb_sym (kf x) k). }
  destruct (mem_key (first_seen (map kf xs)) (kf x)) eqn:M.
  - rewrite app_nil_r. apply map_ext. exact Hsame.
  - rewrite map_app. f_equal; [apply map_ext; exact Hsame|]. simpl.
    rewrite group_value_snoc, Hrefl. unfold group_value.
    rewrite mem_key_first_seen in M. now rewrite (select_none _ _ M).
Qed.

Lemma fold_grouping xs :
  (forall x, In x xs -> eqb (kf x) (kf x) = true) ->
  fold_left group_step xs [] = grouping xs.
Proof.
  induction xs as [|x xs IH] using rev_ind; intros Hrefl; [reflexivity|].
  rewrite fold_left_app. simpl. rewrite IH.
  - apply grouping_snoc. apply Hrefl. apply in_or_app. right. now left.
  - intros y Hy. apply Hrefl. apply in_or_app. now left.
Qed.
(** Equal keys are adjacent: the key of an element is that of the next
    element, or it does not come back. *)
Fixpoint tidy (xs : list A) : bool :=
  match xs with
  | [] => true
  | x :: xs' =>
      match xs' with
      | [] => true
      | y :: _ => eqb (kf x) (kf y) || negb (mem_key (map kf xs') (kf x))
      end
      && tidy xs'
  end.

Lemma eqb_left a b c : eqb a b = true -> eqb a c = eqb b c.
Proof.
  intros Hab. destruct (eqb b c) eqn:Hbc; [eauto|].
  destruct (eqb a c) eqn:Hac; [|reflexivity].
  rewrite <- Hbc. symmetry. apply eqb_trans with a; [|assumption].
  now rewrite eqb_sym.
Qed.

Lemma eqb_right a b c : eqb a b = true -> eqb c a = eqb c b.
Proof. intros H. rewrite (eqb_sym c a), (eqb_sym c b). now apply eqb_left. Qed.

Lemma fold_see_cons ks : forall acc k,
  fold_left see ks (k :: acc)
  = k :: fold_left see (filter (fun k' => negb (eqb k k')) ks) acc.
Proof.
  induction ks as [|k0 ks IH]; intros acc k; cbn [fold_left filter];
    [reflexivity|].
  assert (Hsee : see (k :: acc) k0
                 = if eqb k k0 then k :: acc else k :: see acc k0).
  { unfold see, mem_key. cbn [existsb].
    destruct (eqb k k0); cbn [orb]; [reflexivity|].
    destruct (existsb _ acc); reflexivity. }
  rewrite Hsee. destruct (eqb k k0); cbn [negb fold_left]; apply IH.
Qed.

Lemma first_seen_cons k ks :
  first_seen (k :: ks)
  = k :: first_seen (filter (fun k' => negb (eqb k k')) ks).
Proof. unfold first_seen. simpl. apply fold_see_cons. Qed.

Lemma fold_see_In ks k : forall acc,
  In k (fold_left see ks acc) -> In k acc \/ In k ks.
Proof.
  induction ks as [|k0 ks IH]; intros acc H; simpl in *; [now left|].
  apply IH in H. destruct H as [H|H]; [|now right; right].
  unfold see in H. destruct (mem_key acc k0); [now left|].
  apply in_app_or in H. destruct H as [H|[H|[]]]; [now left|].
  right. now left.
Qed.

Lemma first_seen_In ks k : In k (first_seen ks) -> In k ks.
Proof.
  intros H. apply fold_see_In in H. destruct H as [[]|H]. exact H.
Qed.

Lemma filter_all {B : Type} (f : B -> bool) l :
  (forall x, In x l -> f x = true) -> filter f l = l.
Proof.
  induction l as [|x l IH]; intros H; simpl; [reflexivity|].
  rewrite (H x (or_introl eq_refl)). f_equal. apply IH.
  intros y Hy. apply H. now right.
Qed.

(** Regrouping a list in which equal keys are adjacent gives it back. *)
Lemma tidy_regroup xs :
  (forall x, In x xs -> eqb (kf x) (kf x) = true) ->
  tidy xs = true ->
  flat_map (select xs) (first_seen (map kf xs)) = xs.
Proof.
  induction xs as [|x xs IH]; intros Hrefl Ht; [reflexivity|].
  cbn [map]. rewrite first_seen_cons. cbn [flat_map].
  assert (Hx : select (x :: xs) (kf x) = x :: select xs (kf x)).
  { unfold select. cbn [filter].
    now rewrite (Hrefl x (or_introl eq_refl)). }
  rewrite Hx.
  rewrite (flat_map_agree (select (x :: xs)) (select xs)).
  2:{ intros k' Hk'. apply first_seen_In in Hk'.
      apply filter_In in Hk'. destruct Hk' as [_ Hk'].
      apply negb_true_iff in Hk'.
      unfold select. cbn [filter]. now rewrite Hk'. }
  cbn [app]. f_equal.
  cbn [tidy] in Ht. apply andb_true_iff in Ht. destruct Ht as [Hnext Ht].
  assert (IH' := IH (fun y Hy => Hrefl y (or_intror Hy)) Ht).
  destruct xs as [|y xs']; [reflexivity|].
  destruct (eqb (kf x) (kf y)) eqn:E.
  - cbn [map] in IH'. rewrite first_seen_cons in IH'.
    cbn [flat_map] in IH'.
    assert (Hsel : select (y :: xs') (kf x) = select (y :: xs') (kf y)).
    { unfold select. apply filter_ext. intros z. now apply eqb_right. }
    assert (Hfil : filter (fun k' => negb (eqb (kf x) k'))
                          (map kf (y :: xs'))
                   = filter (fun k' => negb (eqb (kf y) k')) (map kf xs')).
    { cbn [map filter]. rewrite E. cbn [negb]. apply filter_ext.
      intros z. now rewrite (eqb_left _ _ z E). }
    rewrite Hsel, Hfil. exact IH'.
  - cbn [orb] in Hnext. apply negb_true_iff in Hnext.
    rewrite (select_none _ _ Hnext). cbn [app].
    rewrite filter_all; [exact IH'|].
    intros k' Hk'. apply negb_true_iff.
    destruct (eqb (kf x) k') eqn:E'; [|reflexivity].
    exfalso. unfold mem_key in Hnext.
    assert (Hex : existsb (fun k'0 => eqb k'0 (kf x)) (map kf (y :: xs'))
                  = true).
    { apply existsb_exists. exists k'. split; [exact Hk'|].
      now rewrite eqb_sym. }
    congruence.
Qed.
End Grouping.

(** ** The grouping of [_add_page_focalizacion] *)

Definition pol_of (it : pydict) : pyval := get it "politica" (PStr "General").
Definition cat_of (it : pydict) : pyval := get it "categoria" (PStr "General").

(** Policy and category can be dictionary keys. *)
Definition hashable_keys (it : pydict) : bool :=
  hashable (pol_of it) && hashable (cat_of it).

(** The entries of one policy, by category in first-seen order, each
    category with its entries in input order. *)
Definition by_category (its : list pydict) : categories :=
  map (fun cat => (cat, select key_eqb cat_of its cat))
      (first_seen key_eqb (map cat_of its)).

(** The entries by policy in first-seen order, each policy with its
    entries by category. *)
Definition grouped_spec (its : list pydict) : grouped :=
  map (fun pol => (pol, by_category (select key_eqb pol_of its pol)))
      (first_seen key_eqb (map pol_of its)).

Lemma key_eqb_sym a b : key_eqb a b = key_eqb b a.
Proof.
  destruct a, b; simpl; try reflexivity;
    try apply String.eqb_sym; try apply Z.eqb_sym.
Qed.

Lemma key_eqb_trans a b c :
  key_eqb a b = true -> key_eqb b c = true -> key_eqb a c = true.
Proof.
  destruct a, b; simpl; try discriminate; destruct c; simpl;
    try discriminate; try reflexivity;
    rewrite ?String.eqb_eq, ?Z.eqb_eq; congruence.
Qed.

Lemma key_eqb_refl a : hashable a = true -> key_eqb a a = true.
Proof.
  destruct a; simpl; try discriminate; intros _;
    try reflexivity; try apply String.eqb_refl; apply Z.eqb_refl.
Qed.

Definition add_entry (l : list pydict) (it : pydict) : list pydict :=
  l ++ [it].
Definition add_to_category (cats : categories) (it : pydict) : categories :=
  group_step key_eqb cat_of [] add_entry cats it.
Definition add_to_policy (g : grouped) (it : pydict) : grouped :=
  group_step key_eqb pol_of [] add_to_category g it.

Lemma group_item_step g it :
  hashable_keys it = true ->
  group_item g (PDict it) = Ok (add_to_policy g it).
Proof.
  unfold hashable_keys. intros H. apply andb_true_iff in H.
  destruct H as [Hp Hc]. unfold group_item. fold (pol_of it) (cat_of it).
  rewrite Hp, Hc. cbn [negb]. cbv zeta. f_equal.
  unfold add_to_policy, group_step.
  rewrite <- (od_upsert key_eqb [] g (pol_of it)) by now apply key_eqb_refl.
  f_equal. unfold add_to_category, group_step, add_entry.
  rewrite <- (od_upsert key_eqb []) by now apply key_eqb_refl.
  reflexivity.
Qed.

Lemma group_loop its : forall g,
  forallb hashable_keys its = true ->
  for_each group_item (map PDict its) g = Ok (fold_left add_to_policy its g).
Proof.
  induction its as [|it its IH]; intros g H; [reflexivity|].
  simpl in H. apply andb_true_iff in H. destruct H as [Hit H].
  cbn [map for_each]. rewrite group_item_step by exact Hit.
  cbn [bind fold_left]. now apply IH.
Qed.

Lemma fold_add_entry zs : forall acc, fold_left add_entry zs acc = acc ++ zs.
Proof.
  induction zs as [|z zs IH]; intros acc; simpl.
  - now rewrite app_nil_r.
  - rewrite IH. unfold add_entry. now rewrite <- app_assoc.
Qed.

Lemma fold_add_to_category its :
  forallb hashable_keys its = true ->
  fold_left add_to_category its [] = by_category its.
Proof.
  intros H.
  change (fold_left add_to_category its [])
    with (fold_left (group_step key_eqb cat_of [] add_entry) its []).
  rewrite (fold_grouping key_eqb key_eqb_sym key_eqb_trans).
  - unfold grouping, by_category, group_value. apply map_ext.
    intros cat. now rewrite fold_add_entry.
  - intros it Hit. apply key_eqb_refl.
    rewrite forallb_forall in H. specialize (H it Hit).
    unfold hashable_keys in H. apply andb_true_iff in H. apply H.
Qed.

Lemma fold_add_to_policy its :
  forallb hashable_keys its = true ->
  fold_left add_to_policy its [] = grouped_spec its.
Proof.
  intros H.
  change (fold_left add_to_policy its [])
    with (fold_left (group_step key_eqb pol_of [] add_to_category) its []).
  rewrite (fold_grouping key_eqb key_eqb_sym key_eqb_trans).
  - unfold grouping, grouped_spec, group_value. apply map_ext.
    intros pol. rewrite fold_add_to_category; [reflexivity|].
    rewrite forallb_forall in *. intros it Hit. apply H.
    unfold select in Hit. apply filter_In in Hit. apply Hit.
  - intros it Hit. apply key_eqb_refl.
    rewrite forallb_forall in H. specialize (H it Hit).
    unfold hashable_keys in H. apply andb_true_iff in H. apply H.
Qed.

Lemma group_focalizacion_spec content its :
  get content "focalizacion" (PList []) = PList (map PDict its) ->
  its <> [] ->
  forallb hashable_keys its = true ->
  group_focalizacion content = Ok (grouped_spec its).
Proof.
  intros Hf Hne Hh. unfold group_focalizacion. rewrite Hf.
  destruct its as [|it its]; [congruence|].
  cbn [map truthy negb py_iter bind].
  change (PDict it :: map PDict its) with (map PDict (it :: its)).
  rewrite group_loop by exact Hh. now rewrite fold_add_to_policy.
Qed.

(** The entries of a grouped ledger, group after group. *)
Definition entries_of (g : grouped) : list pydict :=
  flat_map (fun p => flat_map snd (snd p)) g.

(** Equal policies are adjacent and, within a policy, equal categories
    are adjacent. *)
Definition already_grouped (its : list pydict) : bool :=
  tidy key_eqb pol_of its
  && forallb (fun pol => tidy key_eqb cat_of (select key_eqb pol_of its pol))
             (first_seen key_eqb (map pol_of its)).

Lemma flat_map_map {A B C : Type} (f : B -> list C) (g : A -> B) l :
  flat_map f (map g l) = flat_map (fun a => f (g a)) l.
Proof. induction l as [|a l IH]; simpl; [reflexivity|]. now rewrite IH. Qed.

Lemma hashable_keys_refl its it :
  forallb hashable_keys its = true -> In it its ->
  key_eqb (pol_of it) (pol_of it) = true
  /\ key_eqb (cat_of it) (cat_of it) = true.
Proof.
  intros H Hit. rewrite forallb_forall in H. specialize (H it Hit).
  unfold hashable_keys in H. apply andb_true_iff in H.
  split; apply key_eqb_refl; apply H.
Qed.

(** Entries that arrive grouped leave the grouping in their order. *)
Lemma entries_of_grouped_spec its :
  forallb hashable_keys its = true ->
  already_grouped its = true ->
  entries_of (grouped_spec its) = its.
Proof.
  intros Hh Hg. unfold already_grouped in Hg.
  apply andb_true_iff in Hg. destruct Hg as [Hpol Hcat].
  unfold entries_of, grouped_spec. rewrite flat_map_map. cbn [snd].
  rewrite (flat_map_agree _ (select key_eqb pol_of its)).
  - apply (tidy_regroup key_eqb key_eqb_sym key_eqb_trans pol_of its);
      [|exact Hpol].
    intros it Hit. apply (hashable_keys_refl its it Hh Hit).
  - intros pol Hin. unfold by_category. rewrite flat_map_map. cbn [snd].
    apply (tidy_regroup key_eqb key_eqb_sym key_eqb_trans cat_of).
    + intros it Hit. unfold select in Hit. apply filter_In in Hit.
      apply (hashable_keys_refl its it Hh (proj1 Hit)).
    + rewrite forallb_forall in Hcat. now apply Hcat.
Qed.

Definition is_item (r : row) : bool := row_type_eqb (r_type r) item.

(** What a row shows of an entry: its subcategory and its value. *)
Definition shown (r : row) : pyval * pyval := (r_subcategory r, r_value r).
Definition entry_shown (it : pydict) : pyval * pyval :=
  (get it "subcategoria" (PStr ""), get it "valor" (PStr "")).

Arguments ledger_rows {F} f_zero f_add py_str py_float format_2f g.
Arguments category_total {F} f_zero f_add py_str py_float items.
Arguments policy_total {F} f_zero f_add py_str py_float cats.

Section Ledger.
Variable F : Type.
Variable f_zero : F.
Variable f_add : F -> F -> F.
Variable py_str : pyval -> string.
Variable py_float : string -> option F.
Variable format_2f : F -> string.

Lemma item_rows_shown policy category items :
  map shown (filter is_item (map (item_row policy category) items))
  = map entry_shown items.
Proof.
  induction items as [|it items IH]; simpl; [reflexivity|]. now rewrite IH.
Qed.

Lemma category_rows_shown policy cats :
  map shown
      (filter is_item
         (flat_map (category_block F f_zero f_add py_str py_float format_2f
                                   policy) cats))
  = map entry_shown (flat_map snd cats).
Proof.
  induction cats as [|c cats IH]; [reflexivity|].
  cbn [flat_map]. unfold category_block at 1.
  rewrite <- app_assoc, !filter_app, !map_app, IH, item_rows_shown.
  reflexivity.
Qed.

Lemma ledger_rows_shown g :
  map shown (filter is_item
               (ledger_rows f_zero f_add py_str py_float format_2f g))
  = map entry_shown (entries_of g).
Proof.
  unfold ledger_rows, entries_of.
  induction g as [|p g IH]; [reflexivity|].
  cbn [flat_map]. unfold policy_block at 1.
  rewrite <- app_assoc, !filter_app, !map_app, IH, category_rows_shown.
  reflexivity.
Qed.

(** C8, as the code has it: the entries are grouped.  For entries that
    are dictionaries with hashable policy and category, the rows are those
    of [grouped_spec]: policies in first-seen order, within a policy its
    categories in first-seen order, within a category its entries in input
    order; each category's entries are followed at once by its
    total row, and each policy's last category total by the policy's
    total row.  Entries that arrive already grouped keep their order. *)
Theorem ledger_groups_in_first_seen_order (content : pydict)
    (its : list pydict)
    (Hf : get content "focalizacion" (PList []) = PList (map PDict its))
    (Hne : its <> [])
    (Hh : forallb hashable_keys its = true) :
  focalizacion_rows f_zero f_add py_str py_float format_2f content
  = Ok (ledger_rows f_zero f_add py_str py_float format_2f
          (grouped_spec its))
  /\ (already_grouped its = true ->
      map shown
          (filter is_item
             (ledger_rows f_zero f_add py_str py_float format_2f
                (grouped_spec its)))
      = map entry_shown its).
Proof.
  split.
  - unfold focalizacion_rows.
    rewrite (group_focalizacion_spec content its Hf Hne Hh). cbn [bind].
    apply rows_to_render_layout.
  - intros Hg. rewrite ledger_rows_shown.
    now rewrite (entries_of_grouped_spec its Hh Hg).
Qed.
End Ledger.

Definition entry (politica categoria subcategoria valor : string) : pydict :=
  [("politica", PStr politica); ("categoria", PStr categoria);
   ("subcategoria", PStr subcategoria); ("valor", PStr valor)].

(** Policy A, then policy B, then policy A again. *)
Definition interleaved : list pydict :=
  [entry "A" "1" "s1" "10"; entry "B" "1" "s2" "20"; entry "A" "1" "s3" "30"].

Definition interleaved_content : pydict :=
  [("focalizacion", PList (map PDict interleaved))].

Definition whole_rows (content : pydict) : result (list row) :=
  focalizacion_rows 0%Z Z.add WholeAmounts.str WholeAmounts.float
                    WholeAmounts.format_2f content.

Definition whole_ledger (g : grouped) : list row :=
  ledger_rows 0%Z Z.add WholeAmounts.str WholeAmounts.float
              WholeAmounts.format_2f g.

Lemma ledger_groups_in_first_seen_order_witness :
  whole_rows interleaved_content = Ok (whole_ledger (grouped_spec interleaved))
  /\ (already_grouped interleaved = true ->
      map shown (filter is_item (whole_ledger (grouped_spec interleaved)))
      = map entry_shown interleaved).
Proof.
  apply (ledger_groups_in_first_seen_order Z 0%Z Z.add WholeAmounts.str
           WholeAmounts.float WholeAmounts.format_2f
           interleaved_content interleaved);
    [reflexivity | discriminate | vm_compute; reflexivity].
Defined.

(** The same entries with the two of policy A next to each other. *)
Definition adjacent : list pydict :=
  [entry "A" "1" "s1" "10"; entry "A" "1" "s3" "30"; entry "B" "1" "s2" "20"].

Example adjacent_entries_keep_their_order :
  already_grouped adjacent = true
  /\ already_grouped interleaved = false.
Proof. split; vm_compute; reflexivity. Qed.

(** C8 as the specification states it fails: the entries s1, s2, s3
    come out as s1, s3, s2. *)
Lemma ledger_reorders_interleaved_entries :
  exists rows,
    whole_rows interleaved_content = Ok rows
    /\ map (fun it => get it "subcategoria" PNone) interleaved
       = [PStr "s1"; PStr "s2"; PStr "s3"]
    /\ map r_subcategory (filter is_item rows)
       = [PStr "s1"; PStr "s3"; PStr "s2"].
Proof.
  eexists. split; [vm_compute; reflexivity|].
  split; vm_compute; reflexivity.
Qed.

(** ** The vertical merges on the ledger of the specification *)

(** Spans as the specification describes them: a span closes when the
    key changes from the previous row; its first row is the span start,
    the following rows continue it, and a span of one row is left alone. *)
Fixpoint runs {K : Type} (eqb : K -> K -> bool) (keys : list K)
    {struct keys} : list nat :=
  match keys with
  | [] => []
  | k :: ks =>
      match runs eqb ks with
      | n :: r =>
          match ks with
          | k' :: _ => if eqb k k' then S n :: r else 1%nat :: n :: r
          | [] => [1%nat]
          end
      | [] => [1%nat]
      end
  end.

Definition span_marks (len : nat) : list (list vmerge) :=
  match len with
  | 0 => []
  | 1 => [[]]
  | S n => [restart] :: repeat [continue] n
  end.

Definition spec_marks {K : Type} (eqb : K -> K -> bool) (keys : list K)
    : list (list vmerge) :=
  flat_map span_marks (runs eqb keys).

(** The marks a column of the table carries, below the header. *)
Definition body_marks (t : table) (col_idx : nat) : list (list vmerge) :=
  map (fun cells =>
         match nth_error cells col_idx with
         | Some c => c_vmerge c
         | None => []
         end)
      (tl t).

(** The ledger [(A,1,_), (A,1,_), (A,2,_), (B,1,_)]. *)
Definition P4 : list row :=
  [item_row (PStr "A") (PStr "1") []; item_row (PStr "A") (PStr "1") [];
   item_row (PStr "A") (PStr "2") []; item_row (PStr "B") (PStr "1") []].

Definition P4_content : pydict :=
  [("focalizacion",
    PList (map PDict [entry "A" "1" "a" "10"; entry "A" "1" "b" "20";
                      entry "A" "2" "c" "30"; entry "B" "1" "d" "40"]))].

Definition pair_eqb (a b : pyval * pyval) : bool :=
  key_eqb (fst a) (fst b) && key_eqb (snd a) (snd b).

(** C9 on the code: every span comes out one row short.  On the four
    rows of the specification the policy column marks rows 0-1 only and
    the category column starts a span at row 0 that nothing continues,
    where the specification has rows 0-2 and rows 0-1.  On the page built
    from the same four entries (nine rows with the totals) policy A is
    marked on rows 0-4 and leaves its total row 5 out. *)
Theorem merged_spans_stop_one_row_early :
  (exists t,
     (t1 <- merge_policies P4 (render_table WholeAmounts.str P4) ;;
      merge_categories P4 t1) = Ok t
     /\ body_marks t 0 = [[restart]; [continue]; []; []]
     /\ body_marks t 1 = [[restart]; []; []; []])
  /\ spec_marks key_eqb (map r_policy P4)
     = [[restart]; [continue]; [continue]; []]
  /\ spec_marks pair_eqb (map (fun r => (r_policy r, r_category r)) P4)
     = [[restart]; [continue]; []; []]
  /\ (exists rows t,
        _add_page_focalizacion 0%Z Z.add WholeAmounts.str WholeAmounts.float
          WholeAmounts.format_2f P4_content = Ok (rows, t)
        /\ map r_policy rows
           = [PStr "A"; PStr "A"; PStr "A"; PStr "A"; PStr "A"; PStr "A";
              PStr "B"; PStr "B"; PStr "B"]
        /\ body_marks t 0
           = [[restart]; [continue]; [continue]; [continue]; [continue]; [];
              [restart]; [continue]; []]).
Proof.
  split.
  { eexists. split; [vm_compute; reflexivity|].
    split; vm_compute; reflexivity. }
  split; [vm_compute; reflexivity|]. split; [vm_compute; reflexivity|].
  do 2 eexists. split; [vm_compute; reflexivity|].
  split; vm_compute; reflexivity.
Qed.

End LedgerFacts.

(* ================================================================== *)
(** * [_extract_json]: what the three patterns find *)

Module ExtractJsonFacts.
Import Generator Builder.
Local Open Scope string_scope.

(** ** The attempts in the words of the specification *)

(** [s.split(t, 1)]: the text before the first occurrence of [t] and the
    text after it. *)
Fixpoint split_first (t s : string) : option (string * string) :=
  match strip_prefix t s with
  | Some rest => Some (EmptyString, rest)
  | None =>
      match s with
      | String c s' =>
          match split_first t s' with
          | Some (b, a) => Some (String c b, a)
          | None => None
          end
      | EmptyString => None
      end
  end.

(** [s.rsplit(t, 1)]: the text before the last occurrence of [t] and the
    text after it. *)
Fixpoint split_last (t s : string) : option (string * string) :=
  match s with
  | EmptyString =>
      match strip_prefix t EmptyString with
      | Some r => Some (EmptyString, r)
      | None => None
      end
  | String c s' =>
      match split_last t s' with
      | Some (b, a) => Some (String c b, a)
      | None =>
          match strip_prefix t s with
          | Some r => Some (EmptyString, r)
          | None => None
          end
      end
  end.

(** The first fenced block opened by [opening]: the text between the
    first [opening] and the next fence, without the white space around
    it. *)
Definition fenced_block (opening s : string) : option string :=
  match split_first opening s with
  | Some (_, rest) =>
      match split_first fence rest with
      | Some (body, _) => Some (strip body)
      | None => None
      end
  | None => None
  end.

(** The brace-delimited span: from the first opening brace to the last
    closing brace after it. *)
Definition brace_span (s : string) : option string :=
  match split_first "{" s with
  | Some (_, rest) =>
      match split_last "}" rest with
      | Some (body, _) => Some ("{" ++ body ++ "}")
      | None => None
      end
  | None => None
  end.

(** The three texts cut out of the answer, in the order of the patterns;
    [None] where the answer has no such block. *)
Definition blocks (s : string) : list (option string) :=
  [fenced_block "```json" s; fenced_block "```" s; brace_span s].

(** The four texts that are parsed, in order. *)
Definition attempts (s : string) : list (option string) :=
  Some s :: blocks s.

(** ** Strings *)

Lemma append_nil_r s : s ++ "" = s.
Proof. induction s; simpl; congruence. Qed.

Lemma append_assoc a b c : (a ++ b) ++ c = a ++ (b ++ c).
Proof. induction a; simpl; congruence. Qed.

Lemma length_app a b :
  String.length (a ++ b) = String.length a + String.length b.
Proof. induction a; simpl; congruence. Qed.

Lemma strip_prefix_inv t : forall s r, strip_prefix t s = Some r -> s = t ++ r.
Proof.
  induction t as [|a t IH]; simpl; intros s r H.
  - congruence.
  - destruct s as [|b s]; [discriminate|].
    destruct (Ascii.eqb a b) eqn:E; [|discriminate].
    apply Ascii.eqb_eq in E. subst b. f_equal. now apply IH.
Qed.

Lemma take_app p s : take (String.length p) (p ++ s) = p.
Proof.
  induction p as [|c p IH]; simpl.
  - destruct s; reflexivity.
  - now rewrite IH.
Qed.

Lemma consumed_app p s : consumed (p ++ s) s = p.
Proof.
  unfold consumed. rewrite length_app, Nat.add_sub. apply take_app.
Qed.

(** [x] is what is left of [s] from some position on. *)
Inductive suffix (x : string) : string -> Prop :=
| suffix_here : suffix x x
| suffix_next c s : suffix x s -> suffix x (String c s).

Lemma suffix_length x s : suffix x s -> String.length x <= String.length s.
Proof. induction 1; simpl; lia. Qed.

Lemma suffix_trans x y z : suffix x y -> suffix y z -> suffix x z.
Proof. intros Hxy Hyz. induction Hyz; [assumption|]. now constructor. Qed.

Lemma suffix_compare x y s :
  suffix x s -> suffix y s -> String.length x <= String.length y ->
  suffix x y.
Proof.
  intros Hx Hy. induction Hy as [|c s Hy IH]; intros Hlen; [assumption|].
  inversion Hx; subst.
  - apply suffix_length in Hy. simpl in Hlen. lia.
  - now apply IH.
Qed.

Lemma strip_prefix_suffix t : forall s r,
  strip_prefix t s = Some r -> suffix r s.
Proof.
  induction t as [|a t IH]; simpl; intros s r H.
  - injection H as <-. constructor.
  - destruct s as [|b s]; [discriminate|].
    destruct (Ascii.eqb a b); [|discriminate].
    constructor. now apply IH.
Qed.

Lemma strip_prefix_length t s r :
  strip_prefix t s = Some r ->
  String.length s = String.length t + String.length r.
Proof.
  intros H. apply strip_prefix_inv in H. subst s. apply length_app.
Qed.

(** A later occurrence of [t] leaves a suffix of what the first one
    leaves. *)
Lemma later_prefix_suffix t c s rest s2 rest2 :
  strip_prefix t (String c s) = Some rest ->
  suffix s2 s ->
  strip_prefix t s2 = Some rest2 ->
  suffix rest2 rest.
Proof.
  intros H1 Hs H2.
  apply suffix_compare with (String c s).
  - apply suffix_trans with s2; [now apply strip_prefix_suffix with t|].
    now constructor.
  - now apply strip_prefix_suffix with t.
  - apply strip_prefix_length in H1. apply strip_prefix_length in H2.
    apply suffix_length in Hs. simpl in H1. lia.
Qed.

Lemma split_first_suffix t x y :
  suffix x y -> split_first t y = None -> split_first t x = None.
Proof.
  induction 1 as [|c s Hs IH]; intros H; [assumption|].
  apply IH. simpl in H.
  destruct (strip_prefix t (String c s)); [discriminate|].
  destruct (split_first t s) as [[b a]|]; [discriminate|reflexivity].
Qed.

Lemma split_last_suffix t x y :
  suffix x y -> split_last t y = None -> split_last t x = None.
Proof.
  induction 1 as [|c s Hs IH]; intros H; [assumption|].
  apply IH. simpl in H.
  destruct (split_last t s) as [[b a]|]; [discriminate|reflexivity].
Qed.

Lemma split_last_inv t : forall s b a,
  split_last t s = Some (b, a) -> s = b ++ t ++ a.
Proof.
  induction s as [|c s IH]; simpl; intros b a H.
  - destruct (strip_prefix t "") eqn:E; [|discriminate].
    injection H as <- <-. simpl. now apply strip_prefix_inv.
  - destruct (split_last t s) as [[b0 a0]|].
    + injection H as <- <-. simpl. f_equal. now apply IH.
    + destruct (strip_prefix t (String c s)) eqn:E; [|discriminate].
      injection H as <- <-. simpl. now apply strip_prefix_inv.
Qed.

(** ** The stars of the patterns *)

Lemma any_char_true c : any_char c = true.
Proof. unfold any_char. destruct (is_space c); reflexivity. Qed.

(** The first position from which [k] succeeds. *)
Fixpoint first_suffix {R : Type} (k : string -> option R) (s : string)
    : option R :=
  match k s with
  | Some r => Some r
  | None =>
      match s with
      | String _ s' => first_suffix k s'
      | EmptyString => None
      end
  end.

(** The last position from which [k] succeeds. *)
Fixpoint last_suffix {R : Type} (k : string -> option R) (s : string)
    : option R :=
  match s with
  | String _ s' =>
      match last_suffix k s' with
      | Some r => Some r
      | None => k s
      end
  | EmptyString => k s
  end.

Lemma star_lazy_any {R : Type} (k : string -> option R) s :
  star_lazy any_char s k = first_suffix k s.
Proof.
  induction s as [|c s IH]; simpl; destruct (k _); try reflexivity.
  rewrite any_char_true. exact IH.
Qed.

Lemma star_greedy_any {R : Type} (k : string -> option R) s :
  star_greedy any_char s k = last_suffix k s.
Proof.
  induction s as [|c s IH]; simpl; [reflexivity|].
  now rewrite any_char_true, IH.
Qed.

Section GreedySpace.
Context {R : Type} (k : string -> option R).
Hypothesis k_space :
  forall c t, is_space c = true -> k t = None -> k (String c t) = None.

Lemma lstrip_fail s : k (lstrip s) = None -> k s = None.
Proof.
  induction s as [|c s IH]; simpl; [auto|].
  destruct (is_space c) eqn:E; [|auto].
  intros H. apply k_space; auto.
Qed.

(** White space taken greedily before [k] is all of it. *)
Lemma star_greedy_space s : star_greedy is_space s k = k (lstrip s).
Proof.
  induction s as [|c s IH]; simpl; [reflexivity|].
  destruct (is_space c) eqn:E; [|reflexivity].
  rewrite IH. destruct (k (lstrip s)) eqn:K; [reflexivity|].
  apply k_space; [exact E|]. now apply lstrip_fail.
Qed.
End GreedySpace.

Lemma fence_not_space c t :
  is_space c = true -> strip_prefix fence (String c t) = None.
Proof.
  intros H. unfold fence. cbn [strip_prefix].
  destruct (Ascii.eqb "`" c) eqn:E; [|reflexivity].
  apply Ascii.eqb_eq in E. subst c. discriminate.
Qed.

(** ** The fenced patterns *)

Definition fenced_rx (opening : string) : regex :=
  Cat (Lit opening) (Cat (StarG is_space)
    (Cat (Grp (StarL any_char)) (Cat (StarG is_space) (Lit "```")))).

(** The closing part [\s*```] tried at [s3], the group having started at
    [from]. *)
Definition closing (whole from s3 : string) : option re_match :=
  star_greedy is_space s3
    (fun s4 =>
       match strip_prefix fence s4 with
       | Some s5 => Some {| group0 := consumed whole s5;
                            group1 := Some (consumed from s3) |}
       | None => None
       end).

(** The shortest text after which white space and a fence follow, and
    the text after that fence. *)
Fixpoint lazy_body (s : string) : option (string * string) :=
  match strip_prefix fence (lstrip s) with
  | Some a => Some (EmptyString, a)
  | None =>
      match s with
      | String c s' =>
          match lazy_body s' with
          | Some (b, a) => Some (String c b, a)
          | None => None
          end
      | EmptyString => None
      end
  end.

Lemma lazy_body_unfold s :
  lazy_body s
  = match strip_prefix fence (lstrip s) with
    | Some a => Some (EmptyString, a)
    | None =>
        match s with
        | String c s' =>
            match lazy_body s' with
            | Some (b, a) => Some (String c b, a)
            | None => None
            end
        | EmptyString => None
        end
    end.
Proof. destruct s; reflexivity. Qed.

Lemma closing_eq whole from s3 :
  closing whole from s3
  = match strip_prefix fence (lstrip s3) with
    | Some s5 => Some {| group0 := consumed whole s5;
                         group1 := Some (consumed from s3) |}
    | None => None
    end.
Proof.
  unfold closing. apply star_greedy_space.
  intros c t Hc _. now rewrite fence_not_space.
Qed.

Lemma first_suffix_closing whole : forall s pre,
  first_suffix (closing whole (pre ++ s)) s
  = match lazy_body s with
    | Some (b, a) => Some {| group0 := consumed whole a;
                             group1 := Some (pre ++ b) |}
    | None => None
    end.
Proof.
  induction s as [|c s IH]; intros pre.
  - cbn [first_suffix]. rewrite closing_eq, lazy_body_unfold.
    destruct (strip_prefix fence (lstrip "")); [|reflexivity].
    now rewrite consumed_app, append_nil_r.
  - cbn [first_suffix]. rewrite closing_eq, lazy_body_unfold.
    destruct (strip_prefix fence (lstrip (String c s))).
    + now rewrite consumed_app, append_nil_r.
    + replace (pre ++ String c s) with ((pre ++ String c "") ++ s)
        by (rewrite append_assoc; reflexivity).
      rewrite IH. destruct (lazy_body s) as [[b a]|]; [|reflexivity].
      now rewrite append_assoc.
Qed.

Lemma lazy_body_none_space c s :
  is_space c = true -> lazy_body s = None -> lazy_body (String c s) = None.
Proof.
  intros Hc H. rewrite lazy_body_unfold. cbn [lstrip]. rewrite Hc, H.
  rewrite lazy_body_unfold in H.
  destruct (strip_prefix fence (lstrip s)); [discriminate|reflexivity].
Qed.

Lemma match_here_fenced opening s :
  match_here (fenced_rx opening) s
  = match strip_prefix opening s with
    | Some s1 =>
        match lazy_body (lstrip s1) with
        | Some (b, a) => Some {| group0 := consumed s a; group1 := Some b |}
        | None => None
        end
    | None => None
    end.
Proof.
  unfold match_here, fenced_rx. cbn [rmatch].
  destruct (strip_prefix opening s) as [s1|]; [|reflexivity].
  change (star_greedy is_space s1
            (fun s2 => star_lazy any_char s2 (closing s s2))
          = match lazy_body (lstrip s1) with
            | Some (b, a) =>
                Some {| group0 := consumed s a; group1 := Some b |}
            | None => None
            end).
  assert (Hk : forall s2,
             star_lazy any_char s2 (closing s s2)
             = match lazy_body s2 with
               | Some (b, a) =>
                   Some {| group0 := consumed s a; group1 := Some b |}
               | None => None
               end).
  { intros s2. rewrite star_lazy_any.
    exact (first_suffix_closing s s2 ""). }
  rewrite star_greedy_space; [apply Hk|].
  intros c t Hc. rewrite !Hk. intros Ht.
  rewrite lazy_body_none_space; [reflexivity|exact Hc|].
  destruct (lazy_body t) as [[b a]|]; [discriminate|reflexivity].
Qed.

Lemma lazy_body_empty s a :
  lazy_body s = Some (EmptyString, a) ->
  strip_prefix fence (lstrip s) = Some a.
Proof.
  rewrite lazy_body_unfold.
  destruct (strip_prefix fence (lstrip s)); [congruence|].
  destruct s as [|c s]; [discriminate|].
  destruct (lazy_body s) as [[b a0]|]; discriminate.
Qed.

Lemma rstrip_cons c b :
  is_space c = false \/ rstrip b <> EmptyString ->
  rstrip (String c b) = String c (rstrip b).
Proof.
  intros H. cbn [rstrip]. destruct (rstrip b).
  - destruct H as [H|H]; [now rewrite H|congruence].
  - reflexivity.
Qed.

Lemma split_first_unfold t s :
  split_first t s
  = match strip_prefix t s with
    | Some rest => Some (EmptyString, rest)
    | None =>
        match s with
        | String c s' =>
            match split_first t s' with
            | Some (b, a) => Some (String c b, a)
            | None => None
            end
        | EmptyString => None
        end
    end.
Proof. destruct s; reflexivity. Qed.

(** The lazy group holds the text before the first fence, without the
    white space at its end. *)
Lemma lazy_body_spec s :
  lazy_body s
  = match split_first fence s with
    | Some (b, a) => Some (rstrip b, a)
    | None => None
    end.
Proof.
  induction s as [|c s IH]; [reflexivity|].
  rewrite lazy_body_unfold, split_first_unfold. cbn [lstrip].
  destruct (is_space c) eqn:Ec.
  - rewrite (fence_not_space c s Ec).
    destruct (strip_prefix fence (lstrip s)) as [a|] eqn:E.
    + assert (Hs : lazy_body s = Some (EmptyString, a)).
      { rewrite lazy_body_unfold, E. reflexivity. }
      rewrite IH in Hs.
      destruct (split_first fence s) as [[b' a']|]; [|discriminate].
      injection Hs as Hb Ha. subst a'.
      cbn [rstrip]. now rewrite Hb, Ec.
    + rewrite IH.
      destruct (split_first fence s) as [[b' a']|] eqn:Es; [|reflexivity].
      rewrite rstrip_cons; [reflexivity|]. right. intros Hb.
      assert (Hs : lazy_body s = Some (EmptyString, a')).
      { rewrite IH, Hb. reflexivity. }
      apply lazy_body_empty in Hs. congruence.
  - destruct (strip_prefix fence (String c s)); [reflexivity|].
    rewrite IH.
    destruct (split_first fence s) as [[b' a']|]; [|reflexivity].
    rewrite rstrip_cons; [reflexivity|now left].
Qed.

(** White space before the body is dropped by the first greedy star. *)
Lemma lstrip_split s :
  match split_first fence (lstrip s) with
  | Some (b, _) => Some (rstrip b)
  | None => None
  end
  = match split_first fence s with
    | Some (b, _) => Some (strip b)
    | None => None
    end.
Proof.
  induction s as [|c s IH]; [reflexivity|].
  cbn [lstrip]. destruct (is_space c) eqn:Ec.
  - rewrite IH. rewrite (split_first_unfold fence (String c s)).
    rewrite (fence_not_space c s Ec).
    destruct (split_first fence s) as [[b a]|]; [|reflexivity].
    unfold strip. cbn [lstrip]. now rewrite Ec.
  - rewrite split_first_unfold.
    destruct (strip_prefix fence (String c s)); [reflexivity|].
    destruct (split_first fence s) as [[b a]|]; [|reflexivity].
    unfold strip. cbn [lstrip]. now rewrite Ec.
Qed.

(** Group 1 of a match that starts with its opening at [s1]. *)
Lemma fenced_group s1 :
  match lazy_body (lstrip s1) with
  | Some (b, _) => Some b
  | None => None
  end
  = match split_first fence s1 with
    | Some (body, _) => Some (strip body)
    | None => None
    end.
Proof.
  rewrite <- lstrip_split, lazy_body_spec.
  destruct (split_first fence (lstrip s1)) as [[b a]|]; reflexivity.
Qed.

Lemma search_unfold r s :
  search r s
  = match match_here r s with
    | Some m => Some m
    | None =>
        match s with
        | String _ s' => search r s'
        | EmptyString => None
        end
    end.
Proof. destruct s; reflexivity. Qed.

Lemma search_none r s :
  (forall x, suffix x s -> match_here r x = None) -> search r s = None.
Proof.
  induction s as [|c s IH]; intros H; rewrite search_unfold;
    rewrite (H _ (suffix_here _)); [reflexivity|].
  apply IH. intros x Hx. apply H. now constructor.
Qed.

(** [re.search] with a fenced pattern finds the first fenced block. *)
Lemma search_fenced opening s :
  match search (fenced_rx opening) s with
  | Some m => group1 m
  | None => None
  end
  = fenced_block opening s.
Proof.
  unfold fenced_block.
  induction s as [|c s IH]; rewrite search_unfold, match_here_fenced,
    split_first_unfold.
  - destruct (strip_prefix opening "") as [s1|]; [|reflexivity].
    rewrite <- fenced_group.
    destruct (lazy_body (lstrip s1)) as [[b a]|]; reflexivity.
  - destruct (strip_prefix opening (String c s)) as [s1|] eqn:E.
    + rewrite <- fenced_group.
      destruct (lazy_body (lstrip s1)) as [[b a]|] eqn:L; [reflexivity|].
      rewrite search_none; [reflexivity|].
      intros x Hx. rewrite match_here_fenced.
      destruct (strip_prefix opening x) as [x1|] eqn:Ex; [|reflexivity].
      assert (Hsuf : suffix x1 s1)
        by exact (later_prefix_suffix opening c s s1 x x1 E Hx Ex).
      assert (H1 : split_first fence s1 = None).
      { pose proof (fenced_group s1) as G. rewrite L in G.
        destruct (split_first fence s1) as [[b a]|]; [discriminate|].
        reflexivity. }
      pose proof (fenced_group x1) as G.
      rewrite (split_first_suffix fence x1 s1 Hsuf H1) in G.
      destruct (lazy_body (lstrip x1)) as [[b a]|]; [discriminate|].
      reflexivity.
    + rewrite IH.
      destruct (split_first opening s) as [[b a]|]; reflexivity.
Qed.

(** ** The brace pattern *)

Lemma last_suffix_split {R : Type} t (f : string -> R) s :
  last_suffix (fun s2 => match strip_prefix t s2 with
                         | Some s3 => Some (f s3)
                         | None => None
                         end) s
  = match split_last t s with
    | Some (_, a) => Some (f a)
    | None => None
    end.
Proof.
  induction s as [|c s IH]; cbn [last_suffix split_last].
  - destruct (strip_prefix t ""); reflexivity.
  - rewrite IH. destruct (split_last t s) as [[b a]|]; [reflexivity|].
    destruct (strip_prefix t (String c s)); reflexivity.
Qed.

Lemma match_here_braces s :
  match_here (rx pat_braces) s
  = match strip_prefix "{" s with
    | Some s1 =>
        match split_last "}" s1 with
        | Some (_, a) => Some {| group0 := consumed s a; group1 := None |}
        | None => None
        end
    | None => None
    end.
Proof.
  unfold match_here, pat_braces. cbn [rx rmatch].
  destruct (strip_prefix "{" s) as [s1|]; [|reflexivity].
  rewrite star_greedy_any.
  exact (last_suffix_split "}"
           (fun a => {| group0 := consumed s a; group1 := None |}) s1).
Qed.

(** [re.search] with the brace pattern finds the brace-delimited span. *)
Lemma search_braces s :
  match search (rx pat_braces) s with
  | Some m => Some (group0 m)
  | None => None
  end
  = brace_span s.
Proof.
  unfold brace_span.
  induction s as [|c s IH]; rewrite search_unfold, match_here_braces,
    split_first_unfold.
  - reflexivity.
  - destruct (strip_prefix "{" (String c s)) as [s1|] eqn:E.
    + destruct (split_last "}" s1) as [[b a]|] eqn:L.
      * apply strip_prefix_inv in E. apply split_last_inv in L.
        rewrite E, L.
        replace ("{" ++ b ++ "}" ++ a) with (("{" ++ b ++ "}") ++ a)
          by (now rewrite !append_assoc).
        now rewrite consumed_app.
      * rewrite search_none; [reflexivity|].
        intros x Hx. rewrite match_here_braces.
        destruct (strip_prefix "{" x) as [x1|] eqn:Ex; [|reflexivity].
        assert (Hsuf : suffix x1 s1)
          by exact (later_prefix_suffix "{" c s s1 x x1 E Hx Ex).
        now rewrite (split_last_suffix "}" x1 s1 Hsuf L).
    + rewrite IH.
      destruct (split_first "{" s) as [[b a]|]; reflexivity.
Qed.

(** ** The function *)

Section Repair.
Variable json_loads : string -> result pyval.

(** What becomes of the texts cut out of the answer, in order: the value
    of the first that [json.loads] accepts.  A text on which it raises
    [JSONDecodeError] (or [IndexError]) is passed over, any other
    exception ends the call, and [{}] is what is left when no text is. *)
Fixpoint first_parsed (candidates : list (option string)) : result pyval :=
  match candidates with
  | [] => Ok (PDict [])
  | None :: rest => first_parsed rest
  | Some t :: rest =>
      match json_loads t with
      | Ok v => Ok v
      | Raise JSONDecodeError | Raise IndexError => first_parsed rest
      | Raise e => Raise e
      end
  end.

(** The whole text first, then the blocks. *)
Definition repaired (s : string) : result pyval :=
  match json_loads s with
  | Ok v => Ok v
  | Raise JSONDecodeError => first_parsed (blocks s)
  | Raise e => Raise e
  end.

(** [json.loads] rejects every candidate with [JSONDecodeError]. *)
Definition all_rejected (candidates : list (option string)) : bool :=
  forallb (fun c =>
             match c with
             | Some t =>
                 match json_loads t with
                 | Raise JSONDecodeError => true
                 | _ => false
                 end
             | None => true
             end)
          candidates.

(** One turn of the loop over the patterns, for a pattern with a
    group. *)
Lemma try_fenced opening s (handler : result pyval) :
  match search (fenced_rx opening) s with
  | Some m =>
      try_except (json_str <- group m 1 ;; json_loads json_str)
                 catches_decode_index handler
  | None => handler
  end
  = match fenced_block opening s with
    | Some t =>
        match json_loads t with
        | Ok v => Ok v
        | Raise JSONDecodeError | Raise IndexError => handler
        | Raise e => Raise e
        end
    | None => handler
    end.
Proof.
  rewrite <- search_fenced.
  destruct (search (fenced_rx opening) s) as [m|]; [|reflexivity].
  unfold group. destruct (group1 m) as [t|]; [|reflexivity].
  cbn [bind]. destruct (json_loads t) as [v|[]]; reflexivity.
Qed.

(** The turn for the brace pattern, which has no group. *)
Lemma try_braces s (handler : result pyval) :
  match search (rx pat_braces) s with
  | Some m =>
      try_except (json_str <- group m 0 ;; json_loads json_str)
                 catches_decode_index handler
  | None => handler
  end
  = match brace_span s with
    | Some t =>
        match json_loads t with
        | Ok v => Ok v
        | Raise JSONDecodeError | Raise IndexError => handler
        | Raise e => Raise e
        end
    | None => handler
    end.
Proof.
  rewrite <- search_braces.
  destruct (search (rx pat_braces) s) as [m|]; [|reflexivity].
  cbn [group bind]. destruct (json_loads (group0 m)) as [v|[]]; reflexivity.
Qed.

Lemma extract_json_repaired s : _extract_json json_loads s = repaired s.
Proof.
  unfold _extract_json, repaired, blocks.
  destruct (json_loads s) as [v|e]; [reflexivity|].
  destruct e; try reflexivity.
  cbn [try_except catches_decode exn_eqb first_parsed].
  unfold json_patterns. cbn [try_patterns].
  change (contains fence (src pat_json_fence)) with true.
  change (contains fence (src pat_fence)) with true.
  change (contains fence (src pat_braces)) with false.
  cbv iota.
  change (rx pat_json_fence) with (fenced_rx "```json").
  change (rx pat_fence) with (fenced_rx "```").
  rewrite try_braces, (try_fenced "```"), (try_fenced "```json").
  reflexivity.
Qed.

Lemma first_parsed_rejected candidates :
  all_rejected candidates = true -> first_parsed candidates = Ok (PDict []).
Proof.
  induction candidates as [|[t|] rest IH]; cbn [all_rejected forallb];
    intros H; [reflexivity| |exact (IH H)].
  apply andb_true_iff in H. destruct H as [Ht H]. cbn [first_parsed].
  destruct (json_loads t) as [v|[]]; try discriminate. exact (IH H).
Qed.

Lemma extract_json_rejected s :
  all_rejected (attempts s) = true ->
  _extract_json json_loads s = Ok (PDict []).
Proof.
  rewrite extract_json_repaired. unfold repaired, attempts.
  cbn [all_rejected forallb]. intros H.
  apply andb_true_iff in H. destruct H as [Hs H].
  destruct (json_loads s) as [v|[]]; try discriminate.
  now apply first_parsed_rejected.
Qed.


(** C7, as the code has it: a failed repair is the empty record [{}], not
    an error value, and the call is not free of exceptions.  When
    [json.loads] rejects the four texts with a decode error the call
    returns [{}]; when [json.loads] raises another exception on the whole
    text, that exception leaves the call. *)
Theorem repair_gives_no_error_value (s : string) :
  (all_rejected (attempts s) = true ->
   _extract_json json_loads s = Ok (PDict []))
  /\ (forall e, json_loads s = Raise e -> e <> JSONDecodeError ->
      _extract_json json_loads s = Raise e).
Proof.
  split; [apply extract_json_rejected|].
  rewrite extract_json_repaired. unfold repaired.
  intros e He Hne. rewrite He. destruct e; try reflexivity.
  now contradiction Hne.
Qed.
End Repair.

Definition json_quote : string := chr 34.
Definition newline : string := chr 10.

(** [{"x": 1}] *)
Definition a_record : string := "{" ++ json_quote ++ "x" ++ json_quote ++ ": 1}".


(** An integer literal of [n] digits. *)
Fixpoint ones (n : nat) : string :=
  match n with
  | O => EmptyString
  | S n' => String "1" (ones n')
  end.

(** The same record bare, in a plain fence and in a labelled fence. *)
Example repair_three_wrappings :
  _extract_json JsonFragment.json_loads a_record = Ok (PDict [("x", PInt 1)])
  /\ _extract_json JsonFragment.json_loads
       ("Here it is:" ++ newline ++ "```" ++ newline ++ a_record ++ newline
        ++ "```" ++ newline) = Ok (PDict [("x", PInt 1)])
  /\ _extract_json JsonFragment.json_loads
       ("Here it is:" ++ newline ++ "```json" ++ newline ++ a_record
        ++ newline ++ "```" ++ newline) = Ok (PDict [("x", PInt 1)]).
Proof. repeat apply conj; vm_compute; reflexivity. Qed.


Lemma repair_gives_no_error_value_witness :
  _extract_json JsonFragment.json_loads "not json" = Ok (PDict [])
  /\ _extract_json JsonFragment.json_loads (ones 4301) = Raise ValueError.
Proof.
  split.
  - apply (proj1 (repair_gives_no_error_value JsonFragment.json_loads
                    "not json")).
    vm_compute. reflexivity.
  - apply (proj2 (repair_gives_no_error_value JsonFragment.json_loads
                    (ones 4301)) ValueError);
      [vm_compute; reflexivity | discriminate].
Defined.

(** C7 as the specification states it fails: a text on which the four
    attempts fail and a text that parses at the first attempt give the
    same value, so a failure is not a value of its own; and an integer
    literal of 4301 digits makes the call raise. *)
Lemma repair_failure_returns_empty_record :
  all_rejected JsonFragment.json_loads (attempts "not json") = true
  /\ _extract_json JsonFragment.json_loads "not json" = Ok (PDict [])
  /\ JsonFragment.json_loads "{}" = Ok (PDict [])
  /\ _extract_json JsonFragment.json_loads "{}" = Ok (PDict [])
  /\ _extract_json JsonFragment.json_loads (ones 4301) = Raise ValueError.
Proof. repeat apply conj; vm_compute; reflexivity. Qed.

End ExtractJsonFacts.

(* ================================================================== *)
(** * [_merge_vertically] and the merging pass of the focalization page *)

Module MergeVerticallyFacts.
Import Builder.

(** [l[n] = f(l[n])] where the index is in range; no change otherwise. *)
Fixpoint change_nth {A : Type} (n : nat) (f : A -> A) (l : list A) : list A :=
  match l, n with
  | [], _ => []
  | x :: l', 0 => f x :: l'
  | x :: l', S n' => x :: change_nth n' f l'
  end.

Fixpoint imap {A B : Type} (f : nat -> A -> B) (i : nat) (l : list A)
    : list B :=
  match l with
  | [] => []
  | x :: l' => f i x :: imap f (S i) l'
  end.

(** What a call leaves on the cell of row [i]: the first row of the span
    starts the merge and keeps its text, the other rows of the span
    continue it and lose their text, rows outside are left alone. *)
Definition span_mark (start_row_idx end_row_idx i : nat) : cell -> cell :=
  if (i =? start_row_idx)%nat then mark_restart
  else if ((start_row_idx <? i) && (i <? end_row_idx))%nat then mark_continue
  else fun c => c.

Definition merged (t : table) (col_idx start_row_idx end_row_idx : nat)
    : table :=
  imap (fun i cells =>
          change_nth col_idx (span_mark start_row_idx end_row_idx i) cells)
       0 t.

Lemma update_nth_ok {A : Type} (f : A -> A) (l : list A) : forall n,
  (n < List.length l)%nat -> update_nth n f l = Ok (change_nth n f l).
Proof.
  induction l as [|x l IH]; intros n Hn; simpl in Hn; [lia|].
  destruct n as [|n]; [reflexivity|].
  cbn [update_nth change_nth]. rewrite IH by lia. reflexivity.
Qed.

Lemma update_nth_out {A : Type} (f : A -> A) (l : list A) : forall n,
  (List.length l <= n)%nat -> update_nth n f l = Raise IndexError.
Proof.
  induction l as [|x l IH]; intros n Hn; [destruct n; reflexivity|].
  simpl in Hn. destruct n as [|n]; [lia|].
  cbn [update_nth]. rewrite IH by lia. reflexivity.
Qed.

Lemma length_change_nth {A : Type} (f : A -> A) (l : list A) : forall n,
  List.length (change_nth n f l) = List.length l.
Proof.
  induction l as [|x l IH]; intros [|n]; simpl; try reflexivity.
  now rewrite IH.
Qed.

Lemma nth_error_change_nth {A : Type} (f : A -> A) (l : list A) : forall n i,
  nth_error (change_nth n f l) i
  = if (i =? n)%nat then option_map f (nth_error l i) else nth_error l i.
Proof.
  induction l as [|x l IH]; intros n i.
  - destruct i, n; simpl; try reflexivity.
    destruct (i =? n)%nat; reflexivity.
  - destruct n as [|n], i as [|i]; try reflexivity.
    cbn [change_nth nth_error]. rewrite IH. reflexivity.
Qed.

Lemma change_nth_same {A : Type} (f : A -> A) (l : list A) n x :
  nth_error l n = Some x -> f x = x -> change_nth n f l = l.
Proof.
  revert n. induction l as [|y l IH]; intros [|n] H Hf; simpl in *;
    try discriminate.
  - injection H as ->. now rewrite Hf.
  - now rewrite (IH n H Hf).
Qed.

Lemma nth_error_imap {A B : Type} (f : nat -> A -> B) (l : list A) :
  forall i n, nth_error (imap f i l) n = option_map (f (i + n)) (nth_error l n).
Proof.
  induction l as [|x l IH]; intros i n.
  - destruct n; reflexivity.
  - destruct n as [|n]; cbn [imap nth_error option_map].
    + now rewrite Nat.add_0_r.
    + rewrite IH. now rewrite Nat.add_succ_r.
Qed.

Lemma length_imap {A B : Type} (f : nat -> A -> B) (l : list A) : forall i,
  List.length (imap f i l) = List.length l.
Proof. induction l as [|x l IH]; intros i; simpl; [|rewrite IH]; reflexivity. Qed.

Lemma length_merged t col s e : List.length (merged t col s e) = List.length t.
Proof. apply length_imap. Qed.

Lemma nth_error_merged t col s e i :
  nth_error (merged t col s e) i
  = option_map (change_nth col (span_mark s e i)) (nth_error t i).
Proof. unfold merged. now rewrite nth_error_imap. Qed.

(** Every row has a cell in column [col]. *)
Definition has_column (col : nat) (t : table) : Prop :=
  Forall (fun cells => (col < List.length cells)%nat) t.

Lemma has_column_nth col t i cells :
  has_column col t -> nth_error t i = Some cells ->
  (col < List.length cells)%nat.
Proof.
  intros H Hn. unfold has_column in H. rewrite Forall_forall in H.
  apply H. eapply nth_error_In; eauto.
Qed.

Lemma has_column_merged col t c s e :
  has_column col t -> has_column col (merged t c s e).
Proof.
  unfold has_column. rewrite !Forall_forall. intros H cells Hin.
  apply In_nth_error in Hin. destruct Hin as [i Hi].
  rewrite nth_error_merged in Hi.
  destruct (nth_error t i) as [cells0|] eqn:E; [|discriminate].
  injection Hi as <-. rewrite length_change_nth.
  apply H. eapply nth_error_In; eauto.
Qed.

Lemma update_cell_ok t row_idx col f cells :
  nth_error t row_idx = Some cells -> (col < List.length cells)%nat ->
  update_cell t row_idx col f
  = Ok (change_nth row_idx (change_nth col f) t).
Proof.
  intros Hr Hc. unfold update_cell. rewrite Hr.
  rewrite (update_nth_ok f cells col Hc). cbn [bind].
  rewrite update_nth_ok by (apply nth_error_Some; congruence).
  f_equal. apply nth_error_ext. intros n. rewrite !nth_error_change_nth.
  destruct (n =? row_idx)%nat eqn:E; [|reflexivity].
  apply Nat.eqb_eq in E. subst n. rewrite Hr. reflexivity.
Qed.

(** A failed cell update is an IndexError; a successful one keeps the
    number of rows. *)
Lemma update_cell_cases t row_idx col f :
  (exists t', update_cell t row_idx col f = Ok t'
              /\ List.length t' = List.length t)
  \/ update_cell t row_idx col f = Raise IndexError.
Proof.
  unfold update_cell. destruct (nth_error t row_idx) as [cells|] eqn:Hr;
    [|now right].
  destruct (Nat.lt_ge_cases col (List.length cells)) as [Hc|Hc].
  - left. rewrite (update_nth_ok f cells col Hc). cbn [bind].
    rewrite update_nth_ok by (apply nth_error_Some; congruence).
    eexists. split; [reflexivity|]. apply length_change_nth.
  - right. now rewrite (update_nth_out f cells col Hc).
Qed.

Lemma update_cell_out t row_idx col f :
  (List.length t <= row_idx)%nat ->
  update_cell t row_idx col f = Raise IndexError.
Proof.
  intros H. unfold update_cell.
  now rewrite (proj2 (nth_error_None t row_idx) H).
Qed.

(** One more row continued. *)
Lemma merged_step t col s k cells :
  (s < k)%nat -> nth_error t k = Some cells ->
  change_nth k (change_nth col mark_continue) (merged t col s k)
  = merged t col s (S k).
Proof.
  intros Hsk Hk. apply nth_error_ext. intros n.
  rewrite nth_error_change_nth, !nth_error_merged.
  destruct (n =? k)%nat eqn:E.
  - apply Nat.eqb_eq in E. subst n. rewrite Hk. cbn [option_map]. f_equal.
    unfold span_mark.
    replace (k =? s)%nat with false by (symmetry; apply Nat.eqb_neq; lia).
    replace (k <? k)%nat with false by (symmetry; apply Nat.ltb_ge; lia).
    replace (s <? k)%nat with true by (symmetry; apply Nat.ltb_lt; lia).
    replace (k <? S k)%nat with true by (symmetry; apply Nat.ltb_lt; lia).
    cbn [andb].
    apply nth_error_ext. intros j. rewrite !nth_error_change_nth.
    destruct (j =? col)%nat; [|reflexivity].
    destruct (nth_error cells j); reflexivity.
  - apply Nat.eqb_neq in E.
    destruct (nth_error t n) as [c|]; [|reflexivity]. cbn [option_map].
    f_equal. f_equal. unfold span_mark.
    destruct (n =? s)%nat; [reflexivity|].
    replace (n <? S k)%nat with (n <? k)%nat; [reflexivity|].
    destruct (Nat.ltb_spec n k), (Nat.ltb_spec n (S k)); try reflexivity; lia.
Qed.

Lemma merged_start t col s cells :
  nth_error t s = Some cells ->
  change_nth s (change_nth col mark_restart) t = merged t col s (S s).
Proof.
  intros Hs. apply nth_error_ext. intros n.
  rewrite nth_error_change_nth, nth_error_merged.
  unfold span_mark.
  destruct (n =? s)%nat eqn:E; [reflexivity|].
  replace ((s <? n) && (n <? S s))%nat with false.
  - destruct (nth_error t n) as [c|] eqn:En; [|reflexivity].
    cbn [option_map]. f_equal. symmetry.
    apply nth_error_ext. intros j. rewrite nth_error_change_nth.
    destruct (j =? col)%nat; [|reflexivity].
    destruct (nth_error c j); reflexivity.
  - symmetry. apply andb_false_iff.
    destruct (Nat.ltb_spec s n); [right|now left].
    apply Nat.ltb_ge. apply Nat.eqb_neq in E. lia.
Qed.

Lemma continue_loop t col s : forall n k,
  (s < k)%nat -> (k + n <= List.length t)%nat -> has_column col t ->
  for_each (fun t i => update_cell t i col mark_continue) (seq k n)
           (merged t col s k)
  = Ok (merged t col s (k + n)).
Proof.
  induction n as [|n IH]; intros k Hsk Hle Hc.
  - now rewrite Nat.add_0_r.
  - cbn [seq for_each].
    destruct (nth_error t k) as [cells|] eqn:Hk.
    2:{ apply nth_error_None in Hk. lia. }
    assert (Hm : nth_error (merged t col s k) k
                 = Some (change_nth col (span_mark s k k) cells)).
    { now rewrite nth_error_merged, Hk. }
    rewrite (update_cell_ok _ _ _ _ _ Hm).
    2:{ rewrite length_change_nth. eapply has_column_nth; eauto. }
    cbn [bind]. rewrite (merged_step t col s k cells Hsk Hk).
    rewrite IH by (try assumption; lia). f_equal. f_equal. lia.
Qed.

(** The call on a span inside the table. *)
Lemma merge_vertically_merged t col s e :
  (s < e)%nat -> (e <= List.length t)%nat -> has_column col t ->
  _merge_vertically t col s e = Ok (merged t col s e).
Proof.
  intros Hse Hle Hc. unfold _merge_vertically.
  replace (e <=? s)%nat with false by (symmetry; apply Nat.leb_gt; lia).
  destruct (nth_error t s) as [cells|] eqn:Hs.
  2:{ apply nth_error_None in Hs. lia. }
  rewrite (update_cell_ok t s col mark_restart cells Hs)
    by (eapply has_column_nth; eauto).
  cbn [bind]. rewrite (merged_start t col s cells Hs).
  unfold range. replace (s + 1)%nat with (S s) by lia.
  rewrite continue_loop by (try assumption; lia).
  f_equal. f_equal. lia.
Qed.

(** The continue loop runs off the table. *)
Lemma continue_loop_out col : forall n k t,
  (k <= List.length t)%nat -> (List.length t < k + n)%nat ->
  for_each (fun t i => update_cell t i col mark_continue) (seq k n) t
  = Raise IndexError.
Proof.
  induction n as [|n IH]; intros k t Hk Hlt; [lia|].
  cbn [seq for_each].
  destruct (update_cell_cases t k col mark_continue) as [[t' [E L]]|E];
    rewrite E; [|reflexivity].
  cbn [bind]. apply IH; rewrite L.
  - destruct (Nat.eq_dec k (List.length t)) as [->|]; [|lia].
    rewrite update_cell_out in E by lia. discriminate.
  - lia.
Qed.

(** X1: a span with rows is marked row by row: the first row of the span
    starts the merge and keeps its text, every later row of the span
    continues it and has its text cleared, and no other cell of the table
    changes. *)
Theorem merge_vertically_marks_span (t : table)
    (col_idx start_row_idx end_row_idx : nat)
    (Hspan : (start_row_idx < end_row_idx)%nat)
    (Hrows : (end_row_idx <= List.length t)%nat)
    (Hcol : has_column col_idx t) :
  exists t',
    _merge_vertically t col_idx start_row_idx end_row_idx = Ok t'
    /\ List.length t' = List.length t
    /\ forall i cells, nth_error t i = Some cells ->
         nth_error t' i
         = Some (change_nth col_idx
                   (if (i =? start_row_idx)%nat then mark_restart
                    else if ((start_row_idx <? i) && (i <? end_row_idx))%nat
                         then mark_continue
                         else fun c => c) cells).
Proof.
  exists (merged t col_idx start_row_idx end_row_idx).
  split; [now apply merge_vertically_merged|].
  split; [apply length_merged|].
  intros i cells Hi. rewrite nth_error_merged, Hi. reflexivity.
Qed.

Definition three_rows : table :=
  [[text_cell (PStr "h")]; [text_cell (PStr "a")]; [text_cell (PStr "b")]].

Lemma merge_vertically_marks_span_witness :
  exists t',
    _merge_vertically three_rows 0 1 3 = Ok t'
    /\ List.length t' = List.length three_rows
    /\ forall i cells, nth_error three_rows i = Some cells ->
         nth_error t' i
         = Some (change_nth 0
                   (if (i =? 1)%nat then mark_restart
                    else if ((1 <? i) && (i <? 3))%nat
                         then mark_continue
                         else fun c => c) cells).
Proof.
  apply (merge_vertically_marks_span three_rows 0 1 3).
  - lia.
  - simpl. lia.
  - repeat constructor.
Defined.

(** X2: a call whose span has rows and ends beyond the last row of the
    table raises IndexError, whatever the column. *)
Theorem merge_vertically_beyond_table (t : table)
    (col_idx start_row_idx end_row_idx : nat)
    (Hspan : (start_row_idx < end_row_idx)%nat)
    (Hout : (List.length t < end_row_idx)%nat) :
  _merge_vertically t col_idx start_row_idx end_row_idx = Raise IndexError.
Proof.
  unfold _merge_vertically.
  replace (end_row_idx <=? start_row_idx)%nat with false
    by (symmetry; apply Nat.leb_gt; lia).
  destruct (update_cell_cases t start_row_idx col_idx mark_restart)
    as [[t' [E L]]|E]; rewrite E; [|reflexivity].
  cbn [bind]. unfold range.
  assert (Hs : (start_row_idx < List.length t)%nat).
  { destruct (Nat.lt_ge_cases start_row_idx (List.length t)); [assumption|].
    rewrite update_cell_out in E by lia. discriminate. }
  apply continue_loop_out; rewrite L; lia.
Qed.

Lemma merge_vertically_beyond_table_witness :
  _merge_vertically three_rows 0 1 4 = Raise IndexError.
Proof.
  apply (merge_vertically_beyond_table three_rows 0 1 4); simpl; lia.
Defined.

(** ** The merging pass of [_add_page_focalizacion] *)

Lemma change_nth_id {A : Type} (l : list A) : forall n,
  change_nth n (fun x => x) l = l.
Proof.
  induction l as [|x l IH]; intros [|n]; simpl; try reflexivity.
  now rewrite IH.
Qed.

Lemma skipn_2_change_nth {A : Type} (f : A -> A) (l : list A) n :
  (n < 2)%nat -> skipn 2 (change_nth n f l) = skipn 2 l.
Proof.
  intros Hn. destruct l as [|x [|y l]], n as [|[|n]]; try reflexivity; lia.
Qed.

(** What the merges leave of a table [t0]: its rows, its header and
    everything right of the first two columns. *)
Definition kept (t0 t : table) : Prop :=
  List.length t = List.length t0
  /\ has_column 1 t
  /\ nth_error t 0 = nth_error t0 0
  /\ map (skipn 2) t = map (skipn 2) t0.

Lemma kept_refl t : has_column 1 t -> kept t t.
Proof. intros H. repeat split; auto. Qed.

Lemma has_column_le col col' t :
  (col <= col')%nat -> has_column col' t -> has_column col t.
Proof.
  unfold has_column. intros Hle H. eapply Forall_impl; [|exact H].
  simpl. intros. lia.
Qed.

Lemma kept_merged t0 t col s e :
  (col < 2)%nat -> (1 <= s)%nat -> kept t0 t -> kept t0 (merged t col s e).
Proof.
  intros Hcol Hs (Hlen & Hc & Hh & Hk). unfold kept.
  rewrite length_merged. split; [assumption|].
  split; [now apply has_column_merged|]. split.
  - rewrite nth_error_merged, <- Hh.
    destruct (nth_error t 0) as [cells|]; [|reflexivity]. cbn [option_map].
    unfold span_mark.
    replace (0 =? s)%nat with false by (symmetry; apply Nat.eqb_neq; lia).
    replace (s <? 0)%nat with false by (symmetry; apply Nat.ltb_ge; lia).
    cbn [andb]. now rewrite change_nth_id.
  - rewrite <- Hk. apply nth_error_ext. intros n.
    rewrite !nth_error_map, nth_error_merged.
    destruct (nth_error t n) as [cells|]; [|reflexivity]. cbn [option_map].
    now rewrite skipn_2_change_nth.
Qed.

(** A call of the pass: the column is one of the first two, the span
    starts below the header and ends inside the table. *)
Lemma merge_vertically_kept t0 t col s e :
  (col < 2)%nat -> (1 <= s)%nat -> (e <= List.length t)%nat -> kept t0 t ->
  exists t', _merge_vertically t col s e = Ok t' /\ kept t0 t'.
Proof.
  intros Hcol Hs He Hk.
  destruct (Nat.le_gt_cases e s) as [Hes|Hes].
  - exists t. split; [|assumption]. unfold _merge_vertically.
    now rewrite (proj2 (Nat.leb_le e s) Hes).
  - exists (merged t col s e). split; [|now apply kept_merged].
    apply merge_vertically_merged; try assumption.
    destruct Hk as (_ & Hc & _). apply (has_column_le col 1); [lia|assumption].
Qed.

Lemma for_each_inv {A S : Type} (step : S -> A -> result S) (I : S -> Prop)
    (xs : list A) :
  (forall s x, In x xs -> I s -> exists s', step s x = Ok s' /\ I s') ->
  forall s, I s -> exists s', for_each step xs s = Ok s' /\ I s'.
Proof.
  induction xs as [|x xs IH]; intros Hstep s Hs.
  - exists s. now split.
  - cbn [for_each]. destruct (Hstep s x (or_introl eq_refl) Hs) as [s1 [E H1]].
    rewrite E. cbn [bind]. apply IH; [|assumption].
    intros s0 y Hy. apply Hstep. now right.
Qed.

Lemma in_range a b i : In i (range a b) -> (a <= i < b)%nat.
Proof. unfold range. rewrite in_seq. lia. Qed.

Lemma row_at_ok (rows : list row) i :
  (i < List.length rows)%nat -> exists r, row_at rows i = Ok r.
Proof.
  intros H. unfold row_at. destruct (nth_error rows i) as [r|] eqn:E.
  - now exists r.
  - apply nth_error_None in E. lia.
Qed.

Lemma merge_policies_kept rows t0 t :
  rows <> [] -> List.length t0 = S (List.length rows) -> kept t0 t ->
  exists t', merge_policies rows t = Ok t' /\ kept t0 t'.
Proof.
  intros Hne Hlen Hk. unfold merge_policies.
  destruct (row_at_ok rows 0) as [r0 E0].
  { destruct rows; [contradiction|simpl; lia]. }
  rewrite E0. cbn [bind].
  set (step := fun (st : table * nat * pyval) (i : nat) => _).
  destruct (for_each_inv step (fun st => kept t0 (fst (fst st)))
              (range 1 (List.length rows))) with (s := (t, 0, r_policy r0))
    as [[[t1 s1] p1] [E1 K1]].
  - intros [[ta sa] pa] i Hi Ha. apply in_range in Hi. cbn [fst] in Ha.
    unfold step. destruct (row_at_ok rows i) as [r Er]; [lia|].
    rewrite Er. cbn [bind].
    destruct (negb (key_eqb (r_policy r) pa)).
    + destruct (merge_vertically_kept t0 ta 0 (sa + 1) i) as [tb [Eb Kb]];
        try assumption; try lia.
      { destruct Ha as (L & _). rewrite L, Hlen. lia. }
      rewrite Eb. cbn [bind]. eexists. split; [reflexivity|]. exact Kb.
    + eexists. split; [reflexivity|]. exact Ha.
  - exact Hk.
  - rewrite E1. cbn [bind]. cbn [fst] in K1.
    apply merge_vertically_kept; try assumption; try lia.
    destruct K1 as (L & _). rewrite L, Hlen. lia.
Qed.

Lemma merge_categories_kept rows t0 t :
  rows <> [] -> List.length t0 = S (List.length rows) -> kept t0 t ->
  exists t', merge_categories rows t = Ok t' /\ kept t0 t'.
Proof.
  intros Hne Hlen Hk. unfold merge_categories.
  assert (Hpos : (0 < List.length rows)%nat).
  { destruct rows; [contradiction|simpl; lia]. }
  destruct (row_at_ok rows 0) as [r0 E0]; [assumption|].
  rewrite E0. cbn [bind].
  set (step := fun (st : table * nat * pyval * pyval) (i : nat) => _).
  destruct (for_each_inv step (fun st => kept t0 (fst (fst (fst st))))
              (range 1 (List.length rows)))
    with (s := (t, 0, r_category r0, r_policy r0))
    as [[[[t1 s1] c1] p1] [E1 K1]].
  - intros [[[ta sa] ca] pa] i Hi Ha. apply in_range in Hi. cbn [fst] in Ha.
    unfold step. destruct (row_at_ok rows i) as [r Er]; [lia|].
    rewrite Er. cbn [bind].
    destruct (negb (key_eqb (r_policy r) pa)
              || negb (key_eqb (r_category r) ca)
              || row_type_eqb (r_type r) total_pol).
    + destruct (1 <? i - sa)%nat.
      * destruct (merge_vertically_kept t0 ta 1 (sa + 1) i) as [tb [Eb Kb]];
          try assumption; try lia.
        { destruct Ha as (L & _). rewrite L, Hlen. lia. }
        rewrite Eb. cbn [bind]. eexists. split; [reflexivity|]. exact Kb.
      * cbn [bind]. eexists. split; [reflexivity|]. exact Ha.
    + eexists. split; [reflexivity|]. exact Ha.
  - exact Hk.
  - rewrite E1. cbn [bind]. cbn [fst] in K1.
    destruct (1 <? List.length rows - s1)%nat; [|now exists t1].
    destruct (row_at_ok rows (List.length rows - 1)) as [rl El]; [lia|].
    rewrite El. cbn [bind].
    destruct (negb (row_type_eqb (r_type rl) total_pol)); [|now exists t1].
    apply merge_vertically_kept; try assumption; try lia.
    destruct K1 as (L & _). rewrite L, Hlen. lia.
Qed.

Section Page.
Variable F : Type.
Variable f_zero : F.
Variable f_add : F -> F -> F.
Variable py_str : pyval -> string.
Variable py_float : string -> option F.
Variable format_2f : F -> string.

Lemma has_column_render_table rows : has_column 1 (render_table py_str rows).
Proof.
  unfold has_column, render_table. constructor; [simpl; lia|].
  apply Forall_forall. intros cells Hin. apply in_map_iff in Hin.
  destruct Hin as [r [<- _]]. unfold render_row.
  destruct (r_type r); simpl; lia.
Qed.

Lemma policy_step_nonempty rows p rows' :
  policy_step f_zero f_add py_str py_float format_2f rows p = Ok rows' ->
  rows' <> [].
Proof.
  unfold policy_step. intros H.
  destruct (for_each _ _ _) as [st|]; [|discriminate].
  cbn [bind] in H. injection H as <-. now destruct (snd st).
Qed.

Lemma rows_to_render_nonempty g rows :
  g <> [] ->
  rows_to_render f_zero f_add py_str py_float format_2f g = Ok rows ->
  rows <> [].
Proof.
  unfold rows_to_render. intros Hg.
  assert (H : forall g acc rows,
             (g <> [] \/ acc <> []) ->
             for_each (policy_step f_zero f_add py_str py_float format_2f)
                      g acc = Ok rows -> rows <> []).
  { clear. induction g as [|p g IH]; intros acc rows Hor H.
    - cbn [for_each] in H. injection H as <-.
      destruct Hor as [Hg|Ha]; [now contradiction Hg|assumption].
    - cbn [for_each] in H.
      destruct (policy_step f_zero f_add py_str py_float format_2f acc p)
        as [acc'|] eqn:E; [|discriminate].
      cbn [bind] in H. apply (IH acc' rows); [|assumption].
      right. eapply policy_step_nonempty; eauto. }
  intros Hr. apply (H g [] rows); [now left|assumption].
Qed.

Lemma group_item_nonempty g it g' : group_item g it = Ok g' -> g' <> [].
Proof.
  unfold group_item. destruct it; try discriminate.
  destruct (negb (hashable _)); [discriminate|].
  destruct (negb (hashable _)); [discriminate|].
  intros H. injection H as <-.
  match goal with |- od_set _ ?g ?k ?v <> [] => destruct g as [|[k0 v0] g0] end;
    cbn [od_set]; [discriminate|].
  destruct (key_eqb k0 _); discriminate.
Qed.

Lemma group_loop_nonempty items : forall g g',
  (items <> [] \/ g <> []) ->
  for_each group_item items g = Ok g' -> g' <> [].
Proof.
  induction items as [|it items IH]; intros g g' Hor H.
  - cbn [for_each] in H. injection H as <-.
    destruct Hor as [Hi|Hg]; [now contradiction Hi|assumption].
  - cbn [for_each] in H. destruct (group_item g it) as [g1|] eqn:E;
      [|discriminate].
    cbn [bind] in H. apply (IH g1 g'); [|assumption].
    right. eapply group_item_nonempty; eauto.
Qed.

Lemma py_iter_truthy v items :
  truthy v = true -> py_iter v = Ok items -> items <> [].
Proof.
  destruct v as [| | |s|l|d]; simpl; try discriminate.
  - destruct s; [discriminate|]. intros _ H. injection H as <-. discriminate.
  - destruct l; [discriminate|]. intros _ H. injection H as <-. discriminate.
  - destruct d; [discriminate|]. intros _ H. injection H as <-. discriminate.
Qed.

Lemma group_focalizacion_nonempty content g :
  group_focalizacion content = Ok g -> g <> [].
Proof.
  unfold group_focalizacion.
  set (foc := get content "focalizacion" (PList [])).
  destruct (truthy foc) eqn:Ht; cbn [negb].
  - destruct (py_iter foc) as [items|] eqn:Ei; [|discriminate].
    cbn [bind]. apply group_loop_nonempty. left.
    eapply py_iter_truthy; eauto.
  - cbn [py_iter bind]. apply group_loop_nonempty. left. discriminate.
Qed.

(** X3: whenever the rows of the focalization page can be computed, the
    page is produced: the two merging passes never index outside the table
    they are given.  The table has one row per element of [rows_to_render]
    under the header; merging changes neither the header nor the
    SubCategoria and Valor columns. *)
Theorem merging_never_fails (content : pydict) (rows : list row)
    (Hrows : focalizacion_rows f_zero f_add py_str py_float format_2f content
             = Ok rows) :
  exists t,
    _add_page_focalizacion f_zero f_add py_str py_float format_2f content
    = Ok (rows, t)
    /\ List.length t = S (List.length rows)
    /\ nth_error t 0 = Some header_row
    /\ map (skipn 2) t = map (skipn 2) (render_table py_str rows).
Proof.
  assert (Hne : rows <> []).
  { unfold focalizacion_rows in Hrows.
    destruct (group_focalizacion content) as [g|] eqn:Eg; [|discriminate].
    cbn [bind] in Hrows.
    apply (rows_to_render_nonempty g rows); [|assumption].
    eapply group_focalizacion_nonempty; eauto. }
  unfold _add_page_focalizacion. rewrite Hrows. cbn [bind].
  set (t0 := render_table py_str rows).
  assert (Hlen : List.length t0 = S (List.length rows)).
  { unfold t0, render_table. cbn [List.length]. now rewrite length_map. }
  destruct (merge_policies_kept rows t0 t0 Hne Hlen) as [t1 [E1 K1]].
  { apply kept_refl, has_column_render_table. }
  rewrite E1. cbn [bind].
  destruct (merge_categories_kept rows t0 t1 Hne Hlen K1) as [t2 [E2 K2]].
  rewrite E2. cbn [bind]. exists t2. split; [reflexivity|].
  destruct K2 as (L & _ & H0 & Hk).
  split; [now rewrite L|]. split; [|assumption].
  rewrite H0. reflexivity.
Qed.
End Page.

Definition two_entries : pydict :=
  [("focalizacion",
    PList [PDict [("politica", PStr "A"); ("categoria", PStr "1");
                  ("subcategoria", PStr "s1"); ("valor", PStr "10")];
           PDict [("politica", PStr "A"); ("categoria", PStr "1");
                  ("subcategoria", PStr "s2"); ("valor", PStr "20")]])].

Definition two_entries_rows : list row :=
  Eval vm_compute in
    match focalizacion_rows 0%Z Z.add WholeAmounts.str WholeAmounts.float
            WholeAmounts.format_2f two_entries with
    | Ok rows => rows
    | Raise _ => []
    end.

Lemma merging_never_fails_witness :
  exists t,
    _add_page_focalizacion 0%Z Z.add WholeAmounts.str WholeAmounts.float
      WholeAmounts.format_2f two_entries
    = Ok (two_entries_rows, t)
    /\ List.length t = S (List.length two_entries_rows)
    /\ nth_error t 0 = Some header_row
    /\ map (skipn 2) t
       = map (skipn 2) (render_table WholeAmounts.str two_entries_rows).
Proof.
  apply (merging_never_fails Z 0%Z Z.add WholeAmounts.str WholeAmounts.float
           WholeAmounts.format_2f two_entries two_entries_rows).
  vm_compute. reflexivity.
Defined.

End MergeVerticallyFacts.

(* ================================================================== *)
(** * The focalization table shows every entry once *)

Module LedgerEntriesFacts.
Import Builder LedgerFacts.

Section Regroup.
Context {K A : Type}.
Variable eqb : K -> K -> bool.
Hypothesis eqb_sym : forall a b, eqb a b = eqb b a.
Hypothesis eqb_trans :
  forall a b c, eqb a b = true -> eqb b c = true -> eqb a c = true.
Variable kf : A -> K.





End Regroup.



Section Ledger.
Variable F : Type.
Variable f_zero : F.
Variable f_add : F -> F -> F.
Variable py_str : pyval -> string.
Variable py_float : string -> option F.
Variable format_2f : F -> string.

End Ledger.


End LedgerEntriesFacts.

(* ================================================================== *)
(** * The amounts of the total rows *)

Module MoneyFacts.
Import Builder.
Local Open Scope string_scope.

(** [","] becomes ["."] and ["."] becomes [","]. *)
Definition swap_separator (c : ascii) : ascii :=
  if Ascii.eqb c "," then "."%char
  else if Ascii.eqb c "." then ","%char
  else c.

Fixpoint map_chars (f : ascii -> ascii) (s : string) : string :=
  match s with
  | EmptyString => EmptyString
  | String c s' => String (f c) (map_chars f s')
  end.

Lemma contains_char c a s :
  contains (String c "") (String a s)
  = Ascii.eqb c a || contains (String c "") s.
Proof.
  cbn [contains]. unfold starts_with at 1. cbn [strip_prefix].
  destruct (Ascii.eqb c a); reflexivity.
Qed.

Lemma three_replaces s :
  contains "X" s = false ->
  replace "X" "." (replace "." "," (replace "," "X" s))
  = map_chars swap_separator s.
Proof.
  induction s as [|c s IH]; intros H; [reflexivity|].
  rewrite contains_char in H. apply orb_false_iff in H. destruct H as [Hc Hs].
  specialize (IH Hs). cbn [map_chars]. unfold swap_separator at 1.
  cbn [replace].
  destruct (Ascii.eqb_spec c ",") as [->|Hcomma].
  - cbn. now rewrite IH.
  - destruct (Ascii.eqb_spec c ".") as [->|Hdot].
    + cbn. now rewrite IH.
    + cbn [replace].
      replace (Ascii.eqb c ".") with false
        by (symmetry; now apply Ascii.eqb_neq).
      cbn [replace].
      replace (Ascii.eqb c "X") with false
        by (symmetry; rewrite Ascii.eqb_sym; exact Hc).
      now rewrite IH.
Qed.

(** X5: the three chained replacements that format a total exchange
    the two separators of [format(x, ',.2f')]: every [","] of the formatted
    amount is shown as ["."], every ["."] as [","], and every other
    character as it is, after the ["$"].  This needs the formatted amount
    to hold no ["X"], the letter the code uses in between. *)
Theorem money_swaps_separators (F : Type) (format_2f : F -> string) (x : F)
    (HX : contains "X" (format_2f x) = false) :
  money format_2f x = "$" ++ map_chars swap_separator (format_2f x).
Proof.
  unfold money.
  change ("$" ++ format_2f x) with (String "$" (format_2f x)).
  rewrite three_replaces.
  - reflexivity.
  - rewrite contains_char. now rewrite HX.
Qed.

Lemma money_swaps_separators_witness :
  money WholeAmounts.format_2f 1234567%Z
  = "$" ++ map_chars swap_separator (WholeAmounts.format_2f 1234567%Z).
Proof.
  apply (money_swaps_separators Z WholeAmounts.format_2f 1234567%Z).
  vm_compute. reflexivity.
Defined.

End MoneyFacts.

(* ================================================================== *)
(** * The prompt context *)

Module FormatContextFacts.
Import Builder Generation.
Local Open Scope string_scope.

Lemma length_take n : forall s, String.length (take n s) <= n.
Proof.
  induction n as [|n IH]; intros s; [reflexivity|].
  destruct s as [|c s]; simpl; [lia|]. specialize (IH s). lia.
Qed.

Lemma take_prefix n : forall s, exists rest, s = take n s ++ rest.
Proof.
  induction n as [|n IH]; intros s; [now exists s|].
  destruct s as [|c s]; [now exists ""|].
  destruct (IH s) as [rest E]. exists rest. simpl. now rewrite <- E.
Qed.

Lemma take_take n : forall s, take n (take n s) = take n s.
Proof.
  induction n as [|n IH]; intros s; [reflexivity|].
  destruct s as [|c s]; [reflexivity|]. simpl. now rewrite IH.
Qed.

Lemma take_short n : forall s, String.length s <= n -> take n s = s.
Proof.
  induction n as [|n IH]; intros s H.
  - destruct s; [reflexivity|simpl in H; lia].
  - destruct s as [|c s]; [reflexivity|]. simpl in *. rewrite IH; [reflexivity|lia].
Qed.

Lemma truthy_take n s :
  truthy (PStr (take (S n) s)) = truthy (PStr s).
Proof. destruct s; reflexivity. Qed.

Lemma get_set_eq d k v default : get (dict_set d k v) k default = v.
Proof. unfold get. rewrite dict_get_set, String.eqb_refl. reflexivity. Qed.

Lemma get_set_neq d k k2 v default :
  (k =? k2) = false -> get (dict_set d k v) k2 default = get d k2 default.
Proof. intros H. unfold get. now rewrite dict_get_set, H. Qed.

Section Facts.
Variable py_str : pyval -> string.

(** X6: without a successful plan summary the context of the prompts
    is the raw context cut to its first 8000 characters: it is never longer
    than 8000 characters and is the raw context itself when that is
    shorter.  A missing [context_dump] stands as "No disponible". *)
Theorem format_context_fallback (data d : pydict) (s : string)
    (Hsummary : get data "dev_plan_summary" (PDict []) = PDict d)
    (Hfailed : truthy (get d "success" PNone) = false)
    (Hraw : get data "context_dump" (PStr "No disponible") = PStr s) :
  _format_context py_str data = Ok (PStr (take 8000 s))
  /\ String.length (take 8000 s) <= 8000
  /\ (exists rest, s = take 8000 s ++ rest)
  /\ (String.length s <= 8000 -> take 8000 s = s).
Proof.
  split; [|split; [apply length_take|split; [apply take_prefix|apply take_short]]].
  unfold _format_context. rewrite Hsummary, Hraw.
  assert (E : (if truthy (PDict d) then py_get (PDict d) "success" PNone
               else Ok (PDict d))
              = Ok (if truthy (PDict d) then get d "success" PNone
                    else PDict d)).
  { destruct (truthy (PDict d)); reflexivity. }
  rewrite E. cbn [bind].
  assert (Hf : truthy (if truthy (PDict d) then get d "success" PNone
                       else PDict d) = false).
  { destruct (truthy (PDict d)) eqn:Et; assumption. }
  rewrite Hf. unfold py_or.
  destruct s as [|c s]; reflexivity.
Qed.

(** Both sides run the same code on the same values. *)
Ltac same_run :=
  repeat match goal with
         | |- bind ?c _ = bind ?c _ =>
             let v := fresh "v" in
             destruct c as [v|]; cbn [bind]; [|reflexivity]
         | |- (if ?b then _ else _) = (if ?b then _ else _) => destruct b
         | |- bind (if ?b then _ else _) _ = bind (if ?b then _ else _) _ =>
             destruct b
         | |- _ => reflexivity
         end.

(** X7: with a successful plan summary, only the first 4000
    characters of the raw context reach the prompts: cutting
    [context_dump] to 4000 characters beforehand changes nothing. *)
Theorem format_context_summary_cuts_context (data d : pydict) (s : string)
    (Hsummary : get data "dev_plan_summary" (PDict []) = PDict d)
    (Hsuccess : truthy (get d "success" PNone) = true)
    (Hraw : dict_get data "context_dump" = Some (PStr s)) :
  _format_context py_str data
  = _format_context py_str
      (dict_set data "context_dump" (PStr (take 4000 s))).
Proof.
  unfold _format_context.
  rewrite (get_set_neq data "context_dump" "dev_plan_summary") by reflexivity.
  rewrite Hsummary, get_set_eq.
  replace (get data "context_dump" (PStr "")) with (PStr s)
    by (unfold get; now rewrite Hraw).
  replace (truthy (PDict d)) with true.
  2:{ destruct d; [discriminate|reflexivity]. }
  cbn [py_get bind]. rewrite Hsuccess.
  change 4000 with (S 3999). rewrite truthy_take.
  cbn [slice_to]. rewrite take_take.
  same_run.
Qed.

Lemma firstn_firstn_same {A : Type} n : forall l : list A,
  firstn n (firstn n l) = firstn n l.
Proof.
  induction n as [|n IH]; intros l; [reflexivity|].
  destruct l as [|x l]; [reflexivity|]. simpl. now rewrite IH.
Qed.

Lemma dict_set_nonempty d k v : truthy (PDict (dict_set d k v)) = true.
Proof.
  destruct d as [|[k0 v0] d]; cbn; [reflexivity|].
  destruct (k0 =? k); reflexivity.
Qed.

(** X8: of the relevant pages of a plan summary only the first five
    are read: dropping the others beforehand changes nothing. *)
Theorem format_context_reads_five_pages (data d : pydict) (l : list pyval)
    (Hsummary : dict_get data "dev_plan_summary" = Some (PDict d))
    (Hpages : dict_get d "paginas_relevantes" = Some (PList l)) :
  _format_context py_str data
  = _format_context py_str
      (dict_set data "dev_plan_summary"
         (PDict (dict_set d "paginas_relevantes" (PList (firstn 5 l))))).
Proof.
  unfold _format_context.
  rewrite get_set_eq.
  rewrite !(get_set_neq data "dev_plan_summary" "context_dump")
    by reflexivity.
  replace (get data "dev_plan_summary" (PDict [])) with (PDict d)
    by (unfold get; now rewrite Hsummary).
  rewrite dict_set_nonempty.
  replace (truthy (PDict d)) with true.
  2:{ destruct d; [discriminate|reflexivity]. }
  cbn [py_get bind].
  rewrite !(get_set_neq d "paginas_relevantes") by reflexivity.
  rewrite get_set_eq.
  replace (get d "paginas_relevantes" (PList [])) with (PList l)
    by (unfold get; now rewrite Hpages).
  destruct (truthy (get d "success" PNone)); [|reflexivity].
  match goal with
  | |- bind ?c _ = bind ?c _ =>
      let v := fresh "v" in destruct c as [v|]; cbn [bind]; [|reflexivity]
  end.
  match goal with
  | |- bind ?c _ = bind ?c _ =>
      let v := fresh "v" in destruct c as [v|]; cbn [bind]; [|reflexivity]
  end.
  replace (truthy (PList (firstn 5 l))) with (truthy (PList l))
    by (destruct l; reflexivity).
  cbn [slice_to]. rewrite firstn_firstn_same.
  reflexivity.
Qed.
End Facts.

Definition failed_summary : pydict :=
  [("dev_plan_summary", PDict [("error", PStr "No file provided")]);
   ("context_dump", PStr "POAI 2026")].

Lemma format_context_fallback_witness :
  _format_context WholeAmounts.str failed_summary
  = Ok (PStr (take 8000 "POAI 2026"))
  /\ String.length (take 8000 "POAI 2026") <= 8000
  /\ (exists rest, "POAI 2026" = take 8000 "POAI 2026" ++ rest)
  /\ (String.length "POAI 2026" <= 8000
      -> take 8000 "POAI 2026" = "POAI 2026").
Proof.
  apply (format_context_fallback WholeAmounts.str failed_summary
           [("error", PStr "No file provided")] "POAI 2026");
    reflexivity.
Defined.

(** A raw context of 4005 characters: [POAI ] written 801 times. *)
Fixpoint repeat_text (n : nat) (s : string) : string :=
  match n with
  | O => EmptyString
  | S n' => s ++ repeat_text n' s
  end.

Definition long_context : string := repeat_text 801 "POAI ".

Definition relevant_page (n : string) : pyval :=
  PDict [("pagina", PStr n); ("seccion", PStr "Salud");
         ("contenido_clave", PList [PStr ("meta " ++ n)])].

(** Seven relevant pages. *)
Definition seven_pages : list pyval :=
  map relevant_page ["11"; "12"; "13"; "14"; "15"; "16"; "17"].

Definition summary : pydict :=
  [("success", PBool true);
   ("resumen_global", PStr "Plan 2024-2027");
   ("paginas_relevantes", PList seven_pages)].

Definition with_summary : pydict :=
  [("dev_plan_summary", PDict summary); ("context_dump", PStr long_context)].

(** The last five characters of the raw context are cut off. *)
Lemma format_context_summary_cuts_context_witness :
  String.length long_context = 4005
  /\ String.length (take 4000 long_context) = 4000
  /\ _format_context WholeAmounts.str with_summary
     = _format_context WholeAmounts.str
         (dict_set with_summary "context_dump"
                   (PStr (take 4000 long_context))).
Proof.
  split; [vm_compute; reflexivity|]. split; [vm_compute; reflexivity|].
  apply (format_context_summary_cuts_context WholeAmounts.str with_summary
           summary long_context); reflexivity.
Defined.

(** The sixth and the seventh page are dropped. *)
Lemma format_context_reads_five_pages_witness :
  List.length seven_pages = 7
  /\ firstn 5 seven_pages
     = map relevant_page ["11"; "12"; "13"; "14"; "15"]
  /\ _format_context WholeAmounts.str with_summary
     = _format_context WholeAmounts.str
         (dict_set with_summary "dev_plan_summary"
            (PDict (dict_set summary "paginas_relevantes"
                      (PList (firstn 5 seven_pages))))).
Proof.
  split; [reflexivity|]. split; [reflexivity|].
  apply (format_context_reads_five_pages WholeAmounts.str with_summary
           summary seven_pages); reflexivity.
Defined.

End FormatContextFacts.

(* ================================================================== *)
(** * [generate_complete]: what the five answers come to *)

Module GenerateCompleteFacts.
Import Generator Builder Generation.
Local Open Scope string_scope.

Definition is_object (v : pyval) : bool :=
  match v with PDict _ => true | _ => false end.

Lemma unpack_loop_raises vs : forall acc,
  forallb is_object vs = false ->
  for_each unpack_into vs acc = Raise TypeError.
Proof.
  induction vs as [|v vs IH]; intros acc H; [discriminate|].
  cbn [forallb] in H. cbn [for_each].
  destruct v; try reflexivity.
  cbn [is_object andb] in H. cbn [unpack_into bind]. now apply IH.
Qed.

Section Facts.
Variable json_loads : string -> result pyval.
Variable py_str : pyval -> string.
Variable now : string.
Variable invoke : prompt -> pydict -> result string.
Variable build : pydict -> pydict -> pyval -> result (string * pydict).

(** X9: an answer that is valid JSON but not an object stops the
    generation.  When the five calls of the model succeed and the value
    [_extract_json] makes of one of the answers is not a dict (a list, a
    string, a number, [true], [null]), the merge raises TypeError:
    [generate_complete] raises it and the builder is not reached. *)
Theorem generate_complete_needs_objects (data d : pydict)
    (r1 r2 r3 r4 r5 : string) (c1 c2 c3 c4 c5 : pyval)
    (Hd : invoke_data py_str now data = Ok d)
    (H1 : invoke PROMPT_MGA_SUBSIDIOS_PAGINAS_1_5 d = Ok r1)
    (H2 : invoke PROMPT_MGA_SUBSIDIOS_PAGINAS_6_11 d = Ok r2)
    (H3 : invoke PROMPT_MGA_SUBSIDIOS_PAGINAS_12_16 d = Ok r3)
    (H4 : invoke PROMPT_MGA_SUBSIDIOS_PAGINAS_17_21 d = Ok r4)
    (H5 : invoke PROMPT_MGA_SUBSIDIOS_PAGINAS_22_24 d = Ok r5)
    (E1 : _extract_json json_loads r1 = Ok c1)
    (E2 : _extract_json json_loads r2 = Ok c2)
    (E3 : _extract_json json_loads r3 = Ok c3)
    (E4 : _extract_json json_loads r4 = Ok c4)
    (E5 : _extract_json json_loads r5 = Ok c5)
    (Hbad : forallb is_object [c1; c2; c3; c4; c5] = false) :
  generate_complete json_loads py_str now invoke build data = Raise TypeError.
Proof.
  unfold generate_complete, stage.
  rewrite Hd. cbn [bind].
  rewrite H1, H2, H3, H4, H5. cbn [bind].
  rewrite E1, E2, E3, E4, E5. cbn [bind snd].
  unfold merge_content, dict_display.
  now rewrite unpack_loop_raises.
Qed.

(** X10: answers without any parseable JSON do not stop the
    generation.  When the five calls of the model succeed and [json.loads]
    rejects each of the four texts tried on each answer, the builder is called with the
    empty content [{}]: the document is built from the form data alone, and
    the result holds the path and the content the builder returns. *)
Theorem generate_complete_without_json (data d : pydict)
    (r1 r2 r3 r4 r5 : string)
    (Hd : invoke_data py_str now data = Ok d)
    (H1 : invoke PROMPT_MGA_SUBSIDIOS_PAGINAS_1_5 d = Ok r1)
    (H2 : invoke PROMPT_MGA_SUBSIDIOS_PAGINAS_6_11 d = Ok r2)
    (H3 : invoke PROMPT_MGA_SUBSIDIOS_PAGINAS_12_16 d = Ok r3)
    (H4 : invoke PROMPT_MGA_SUBSIDIOS_PAGINAS_17_21 d = Ok r4)
    (H5 : invoke PROMPT_MGA_SUBSIDIOS_PAGINAS_22_24 d = Ok r5)
    (Hnone : forall r, In r [r1; r2; r3; r4; r5] ->
               ExtractJsonFacts.all_rejected json_loads
                 (ExtractJsonFacts.attempts r) = true) :
  generate_complete json_loads py_str now invoke build data
  = built <- build data [] (get_none data "letterhead_file") ;;
    Ok [("filepath", PStr (fst built));
        ("documento_completo",
         PStr (r1 ++ nl ++ nl ++ r2 ++ nl ++ nl ++ r3 ++ nl ++ nl ++ r4
               ++ nl ++ nl ++ r5));
        ("ai_content", PDict (snd built));
        ("metadata",
         PDict [("tipo", PStr "mga_subsidios");
                ("municipio", get data "municipio" (PStr ""));
                ("bpin", get data "bpin" (PStr ""));
                ("paginas_generadas", PStr "1-24")])].
Proof.
  unfold generate_complete, stage.
  rewrite Hd. cbn [bind].
  rewrite H1, H2, H3, H4, H5. cbn [bind].
  rewrite !ExtractJsonFacts.extract_json_rejected
    by (apply Hnone; simpl; tauto).
  cbn [bind snd fst]. reflexivity.
Qed.
End Facts.

(** A model that answers the first prompt with a JSON array. *)
Definition array_answer (p : prompt) (d : pydict) : result string :=
  match p with
  | PROMPT_MGA_SUBSIDIOS_PAGINAS_1_5 => Ok "[1, 2]"
  | _ => Ok "{}"
  end.

Definition no_build (data ai_content : pydict) (letterhead_file : pyval)
    : result (string * pydict) :=
  Ok ("output/MGA.pdf", ai_content).

Definition array_data : pydict :=
  Eval vm_compute in
    match invoke_data WholeAmounts.str "01/01/2026 00:00:00" [] with
    | Ok d => d
    | Raise _ => []
    end.

Lemma generate_complete_needs_objects_witness :
  generate_complete JsonFragment.json_loads WholeAmounts.str
    "01/01/2026 00:00:00" array_answer no_build []
  = Raise TypeError.
Proof.
  apply (generate_complete_needs_objects JsonFragment.json_loads
           WholeAmounts.str "01/01/2026 00:00:00" array_answer no_build
           [] array_data "[1, 2]" "{}" "{}" "{}" "{}"
           (PList [PInt 1; PInt 2]) (PDict []) (PDict []) (PDict [])
           (PDict []));
    vm_compute; reflexivity.
Defined.

(** A model that answers with prose only. *)
Definition prose_answer (p : prompt) (d : pydict) : result string :=
  Ok "No puedo ayudar".

Lemma generate_complete_without_json_witness :
  generate_complete JsonFragment.json_loads WholeAmounts.str
    "01/01/2026 00:00:00" prose_answer no_build []
  = built <- no_build [] [] (get_none [] "letterhead_file") ;;
    Ok [("filepath", PStr (fst built));
        ("documento_completo",
         PStr ("No puedo ayudar" ++ nl ++ nl ++ "No puedo ayudar" ++ nl ++ nl
               ++ "No puedo ayudar" ++ nl ++ nl ++ "No puedo ayudar"
               ++ nl ++ nl ++ "No puedo ayudar"));
        ("ai_content", PDict (snd built));
        ("metadata",
         PDict [("tipo", PStr "mga_subsidios");
                ("municipio", get [] "municipio" (PStr ""));
                ("bpin", get [] "bpin" (PStr ""));
                ("paginas_generadas", PStr "1-24")])].
Proof.
  apply (generate_complete_without_json JsonFragment.json_loads
           WholeAmounts.str "01/01/2026 00:00:00" prose_answer no_build
           [] array_data "No puedo ayudar" "No puedo ayudar"
           "No puedo ayudar" "No puedo ayudar" "No puedo ayudar");
    [vm_compute; reflexivity
    | reflexivity | reflexivity | reflexivity | reflexivity | reflexivity
    | ].
  intros r Hr. simpl in Hr.
  repeat (destruct Hr as [<-|Hr]; [vm_compute; reflexivity|]).
  contradiction.
Defined.

End GenerateCompleteFacts.

(* ================================================================== *)
(** * Pages 3 and 4: paragraphs and two-column tables *)

Module PagesFacts.
Import Builder Generation Document.
Local Open Scope string_scope.

(** ** [find] and [split] *)

Lemma strip_prefix_app t : forall s rest,
  strip_prefix t s = Some rest -> s = t ++ rest.
Proof.
  induction t as [|a t IH]; intros s rest H; simpl in H.
  - now injection H as ->.
  - destruct s as [|b s]; [discriminate|].
    destruct (Ascii.eqb_spec a b) as [->|]; [|discriminate].
    simpl. f_equal. now apply IH.
Qed.

Lemma find_app t : forall s before rest,
  find t s = Some (before, rest) -> s = before ++ t ++ rest.
Proof.
  induction s as [|c s IH]; intros before rest H;
    cbn [find] in H; destruct (strip_prefix t _) as [r|] eqn:E.
  - injection H as <- <-. exact (strip_prefix_app t _ _ E).
  - discriminate.
  - injection H as <- <-. exact (strip_prefix_app t _ _ E).
  - destruct (find t s) as [[b r]|]; [|discriminate].
    injection H as <- <-. simpl. f_equal. now apply IH.
Qed.

Lemma find_none t : forall s, find t s = None -> contains t s = false.
Proof.
  induction s as [|c s IH]; intros H; cbn [find] in H; cbn [contains];
    unfold starts_with; destruct (strip_prefix t _); try discriminate.
  - reflexivity.
  - destruct (find t s) as [[b r]|]; [discriminate|]. now apply IH.
Qed.

Lemma strip_prefix_longer t : forall x y r,
  strip_prefix t x = Some r -> strip_prefix t (x ++ y) = Some (r ++ y).
Proof.
  induction t as [|a t IH]; intros x y r H; simpl in H.
  - now injection H as ->.
  - destruct x as [|b x]; [discriminate|]. simpl.
    destruct (Ascii.eqb a b); [|discriminate]. now apply IH.
Qed.

(** The text before the first occurrence holds none. *)
Lemma find_before t : t <> "" -> forall s before rest,
  find t s = Some (before, rest) -> contains t before = false.
Proof.
  intros Ht. induction s as [|c s IH]; intros before rest H;
    cbn [find] in H; destruct (strip_prefix t _) as [r|] eqn:E.
  - injection H as <- <-. cbn. destruct t; [contradiction|reflexivity].
  - discriminate.
  - injection H as <- <-. cbn. destruct t; [contradiction|reflexivity].
  - destruct (find t s) as [[b r]|] eqn:F; [|discriminate].
    injection H as <- <-. cbn [contains].
    rewrite (IH b r eq_refl), orb_false_r. unfold starts_with.
    destruct (strip_prefix t (String c b)) as [r'|] eqn:E'; [|reflexivity].
    apply (strip_prefix_longer t (String c b) (t ++ r)) in E'.
    rewrite (find_app t s b r F) in E. simpl in E'. congruence.
Qed.

Lemma length_append a b :
  String.length (a ++ b) = String.length a + String.length b.
Proof. induction a as [|c a IH]; simpl; [|rewrite IH]; reflexivity. Qed.

Lemma split_n_nonempty n sep s : split_n n sep s <> [].
Proof.
  destruct n; cbn [split_n]; [discriminate|].
  destruct (find sep s) as [[b r]|]; discriminate.
Qed.

(** Joining the pieces with the separator gives the text back. *)
Lemma concat_split_n sep : forall n s,
  String.concat sep (split_n n sep s) = s.
Proof.
  induction n as [|n IH]; intros s; [reflexivity|].
  cbn [split_n]. destruct (find sep s) as [[b r]|] eqn:F; [|reflexivity].
  specialize (IH r).
  cbn [String.concat].
  destruct (split_n n sep r) as [|x xs] eqn:E.
  - now destruct (split_n_nonempty n sep r).
  - rewrite IH. symmetry. now apply find_app.
Qed.

(** With enough cuts no piece holds the separator. *)
Lemma split_n_pieces sep : sep <> "" -> forall n s,
  String.length s <= n ->
  Forall (fun piece => contains sep piece = false) (split_n n sep s).
Proof.
  intros Hsep. induction n as [|n IH]; intros s Hn.
  - cbn [split_n]. constructor; [|constructor].
    destruct s; [|simpl in Hn; lia]. cbn.
    destruct sep; [contradiction|reflexivity].
  - cbn [split_n]. destruct (find sep s) as [[b r]|] eqn:F.
    + constructor; [eapply find_before; eauto|].
      apply IH. apply find_app in F. rewrite F, !length_append in Hn.
      destruct sep; [contradiction|]. simpl in Hn. lia.
    + constructor; [now apply find_none|constructor].
Qed.

Section Facts.
Variable py_str : pyval -> string.
Variable json_dumps : pyval -> string.

(** X11: page 3 always comes out for a record, and its description is
    cut into paragraphs at the blank lines.  With every literal
    backslash-n of the text turned into a line end first, the paragraphs
    joined by blank lines are that text again and no paragraph holds a
    blank line; there is at least one paragraph, and a description that is
    missing, empty or [None] gives a single empty paragraph. *)
Theorem page3_paragraphs (content : pydict) :
  exists page,
    _add_page_3_problematica py_str json_dumps (PDict content) = Ok page
    /\ String.concat (nl ++ nl) (p3_descripcion_situacion page)
       = replace_all (chr 92 ++ "n") nl
           (_safe_str py_str json_dumps
              (get content "descripcion_situacion" (PStr "")) "")
    /\ Forall (fun paragraph => contains (nl ++ nl) paragraph = false)
              (p3_descripcion_situacion page)
    /\ p3_descripcion_situacion page <> []
    /\ (get content "descripcion_situacion" (PStr "") = PNone
        \/ get content "descripcion_situacion" (PStr "") = PStr "" ->
        p3_descripcion_situacion page = [""]).
Proof.
  eexists. split; [reflexivity|]. cbn [p3_descripcion_situacion].
  unfold paragraphs, split. split; [apply concat_split_n|].
  split; [apply split_n_pieces; [discriminate|lia]|].
  split; [apply split_n_nonempty|].
  intros [E|E]; rewrite E; reflexivity.
Qed.

(** ** The two-column tables of page 4 *)

Local Open Scope list_scope.

Definition is_record (v : pyval) : bool :=
  match v with PDict _ => true | _ => false end.

(** The text of a cell for a record. *)
Definition cell_text (sep key : string) (c : pyval) : string :=
  match c with
  | PDict d => (py_str (get d "numero" (PStr "")) ++ sep
                ++ py_str (get d key (PStr "")))%string
  | _ => ""
  end.

Lemma numbered_record sep key c :
  is_record c = true -> numbered py_str sep key c = Ok (cell_text sep key c).
Proof. destruct c; try discriminate. reflexivity. Qed.

Lemma column_cell_record sep key items i :
  forallb is_record items = true ->
  column_cell py_str sep key items i
  = Ok (match nth_error items i with
        | Some c => cell_text sep key c
        | None => ""
        end).
Proof.
  intros H. unfold column_cell.
  destruct (nth_error items i) as [c|] eqn:E; [|reflexivity].
  apply numbered_record. rewrite forallb_forall in H. apply H.
  eapply nth_error_In; eauto.
Qed.

(** A column read by index up to [n]: its items, then empty cells. *)
Lemma column_padded {A B : Type} (f : A -> B) (d : B) : forall l n,
  List.length l <= n ->
  map (fun i => match nth_error l i with Some c => f c | None => d end)
      (seq 0 n)
  = map f l ++ repeat d (n - List.length l).
Proof.
  induction l as [|x l IH]; intros n Hn.
  - cbn [map app List.length]. rewrite Nat.sub_0_r.
    clear. induction n as [|n IHn]; [reflexivity|].
    rewrite <- cons_seq, <- seq_shift. cbn [map repeat nth_error].
    rewrite map_map. f_equal. rewrite <- IHn. apply map_ext.
    now intros [|i].
  - destruct n as [|n]; [simpl in Hn; lia|].
    rewrite <- cons_seq, <- seq_shift. cbn [map nth_error app].
    rewrite map_map. f_equal. cbn [List.length nth_error].
    rewrite Nat.sub_succ.
    apply IH. simpl in Hn. lia.
Qed.

Lemma two_columns_records key directas indirectas :
  forallb is_record directas = true ->
  forallb is_record indirectas = true ->
  exists rows,
    two_columns py_str key directas indirectas = Ok rows
    /\ map fst rows
       = map (cell_text ". " key) directas
         ++ repeat "" (Nat.max (List.length directas)
                               (List.length indirectas)
                       - List.length directas)
    /\ map snd rows
       = map (cell_text " " key) indirectas
         ++ repeat "" (Nat.max (List.length directas)
                               (List.length indirectas)
                       - List.length indirectas).
Proof.
  intros Hd Hi. unfold two_columns, range. rewrite Nat.sub_0_r.
  set (n := Nat.max _ _).
  rewrite (map_m_ok _
             (fun i => (match nth_error directas i with
                        | Some c => cell_text ". " key c
                        | None => ""
                        end,
                        match nth_error indirectas i with
                        | Some c => cell_text " " key c
                        | None => ""
                        end))).
  - eexists. split; [reflexivity|].
    rewrite !map_map. cbn [fst snd].
    split; apply column_padded; unfold n; lia.
  - intros i _. rewrite !column_cell_record by assumption. reflexivity.
Qed.

(** X12: each table of page 4 has one row per item of its longer
    list and pads the shorter column with empty cells: the left column
    shows "numero. text" for each direct item, the right column
    "numero text" for each indirect item, in order.  A value that is not a
    list counts as an empty list ([_safe_list]); the items are taken to be
    records. *)
Theorem page4_pads_shorter_column (content : pydict)
    (Hcd : forallb is_record
             (safe_items (get content "causas_directas" (PList []))) = true)
    (Hci : forallb is_record
             (safe_items (get content "causas_indirectas" (PList []))) = true)
    (Hed : forallb is_record
             (safe_items (get content "efectos_directos" (PList []))) = true)
    (Hei : forallb is_record
             (safe_items (get content "efectos_indirectos" (PList [])))
           = true) :
  let cd := safe_items (get content "causas_directas" (PList [])) in
  let ci := safe_items (get content "causas_indirectas" (PList [])) in
  let ed := safe_items (get content "efectos_directos" (PList [])) in
  let ei := safe_items (get content "efectos_indirectos" (PList [])) in
  exists page,
    _add_page_4_causas_efectos py_str (PDict content) = Ok page
    /\ map fst (p4_causas page)
       = map (cell_text ". " "causa") cd
         ++ repeat "" (Nat.max (List.length cd) (List.length ci)
                       - List.length cd)
    /\ map snd (p4_causas page)
       = map (cell_text " " "causa") ci
         ++ repeat "" (Nat.max (List.length cd) (List.length ci)
                       - List.length ci)
    /\ map fst (p4_efectos page)
       = map (cell_text ". " "efecto") ed
         ++ repeat "" (Nat.max (List.length ed) (List.length ei)
                       - List.length ed)
    /\ map snd (p4_efectos page)
       = map (cell_text " " "efecto") ei
         ++ repeat "" (Nat.max (List.length ed) (List.length ei)
                       - List.length ei).
Proof.
  intros cd ci ed ei.
  destruct (two_columns_records "causa" cd ci Hcd Hci) as [rc [Ec [Hc1 Hc2]]].
  destruct (two_columns_records "efecto" ed ei Hed Hei)
    as [re [Ee [He1 He2]]].
  exists {| p4_causas := rc; p4_efectos := re |}.
  split; [|now repeat split].
  unfold _add_page_4_causas_efectos. cbn [py_get bind].
  fold cd ci ed ei. rewrite Ec. cbn [bind]. rewrite Ee. reflexivity.
Qed.
End Facts.

Local Open Scope list_scope.

(** Two direct causes, one indirect cause given as a list, and the
    indirect effects given as a text instead of a list. *)
Definition causas : pydict :=
  [("causas_directas",
    PList [PDict [("numero", PStr "1"); ("causa", PStr "Baja cobertura")];
           PDict [("numero", PStr "2"); ("causa", PStr "Altos costos")]]);
   ("causas_indirectas",
    PList [PDict [("numero", PStr "1.1"); ("causa", PStr "Poca oferta")]]);
   ("efectos_directos",
    PList [PDict [("numero", PStr "1"); ("efecto", PStr "Morosidad")]]);
   ("efectos_indirectos", PStr "ninguno")].

Lemma page4_pads_shorter_column_witness :
  exists page,
    _add_page_4_causas_efectos WholeAmounts.str (PDict causas) = Ok page
    /\ map fst (p4_causas page)
       = map (cell_text WholeAmounts.str ". " "causa")
             (safe_items (get causas "causas_directas" (PList [])))
         ++ repeat ""
              (Nat.max (List.length (safe_items (get causas "causas_directas" (PList []))))
                       (List.length (safe_items (get causas "causas_indirectas" (PList []))))
               - List.length (safe_items (get causas "causas_directas" (PList []))))
    /\ map snd (p4_causas page)
       = map (cell_text WholeAmounts.str " " "causa")
             (safe_items (get causas "causas_indirectas" (PList [])))
         ++ repeat ""
              (Nat.max (List.length (safe_items (get causas "causas_directas" (PList []))))
                       (List.length (safe_items (get causas "causas_indirectas" (PList []))))
               - List.length (safe_items (get causas "causas_indirectas" (PList []))))
    /\ map fst (p4_efectos page)
       = map (cell_text WholeAmounts.str ". " "efecto")
             (safe_items (get causas "efectos_directos" (PList [])))
         ++ repeat ""
              (Nat.max (List.length (safe_items (get causas "efectos_directos" (PList []))))
                       (List.length (safe_items (get causas "efectos_indirectos" (PList []))))
               - List.length (safe_items (get causas "efectos_directos" (PList []))))
    /\ map snd (p4_efectos page)
       = map (cell_text WholeAmounts.str " " "efecto")
             (safe_items (get causas "efectos_indirectos" (PList [])))
         ++ repeat ""
              (Nat.max (List.length (safe_items (get causas "efectos_directos" (PList []))))
                       (List.length (safe_items (get causas "efectos_indirectos" (PList []))))
               - List.length (safe_items (get causas "efectos_indirectos" (PList [])))).
Proof.
  apply (page4_pads_shorter_column WholeAmounts.str causas); reflexivity.
Defined.

End PagesFacts.

(* ================================================================== *)
(** * [_save_document]: the name of the file *)

Module SaveDocumentFacts.
Import Builder Generation Document.
Local Open Scope string_scope.

Fixpoint all_chars (p : ascii -> bool) (s : string) : bool :=
  match s with
  | EmptyString => true
  | String c s' => p c && all_chars p s'
  end.

Lemma remove_other_chars_safe s :
  all_chars is_name_char (remove_other_chars s) = true.
Proof.
  induction s as [|c s IH]; [reflexivity|]. cbn [remove_other_chars].
  destruct (is_name_char c) eqn:E; [|assumption].
  cbn [all_chars]. now rewrite E.
Qed.

(** A name made of name characters is kept as it is. *)
Lemma remove_other_chars_id s :
  all_chars is_name_char s = true -> remove_other_chars s = s.
Proof.
  induction s as [|c s IH]; intros H; [reflexivity|].
  cbn [all_chars] in H. apply andb_true_iff in H. destruct H as [Hc Hs].
  cbn [remove_other_chars]. now rewrite Hc, IH.
Qed.

Lemma municipio_name_safe (data : pyval) (name : string) :
  municipio_name data = Ok name ->
  name <> "" /\ all_chars is_name_char name = true.
Proof.
  unfold municipio_name.
  destruct (match data with
            | PDict d => get d "municipio" (PStr "documento")
            | _ => PStr "documento"
            end) as [| | |m| |]; try discriminate.
  intros H. injection H as <-.
  destruct (remove_other_chars (replace " " "_" m)) as [|c r] eqn:E.
  - split; [discriminate|reflexivity].
  - split; [discriminate|]. rewrite <- E. apply remove_other_chars_safe.
Qed.

Section Facts.
Variable timestamp : string.
Variable output_dir : string.
Variable path_join : string -> string -> string.
Variable import_docx2pdf : result unit.
Variable doc_save : string -> result unit.
Variable is_windows : bool.
Variable co_initialize : result unit.
Variable convert : string -> string -> result unit.
Variable co_uninitialize : result unit.
Variable os_remove : string -> result unit.

(** Every step of the conversion succeeds: the COM calls made on
    Windows, [convert] and the removal of the .docx file. *)
Definition converts (docx pdf : string) : bool :=
  is_ok (if is_windows then co_initialize else Ok tt)
  && is_ok (convert docx pdf)
  && is_ok (if is_windows then co_uninitialize else Ok tt)
  && is_ok (os_remove docx).

Lemma conversion_outcome (docx pdf : string) :
  try_except
    (_ <- (if is_windows then co_initialize else Ok tt) ;;
     _ <- convert docx pdf ;;
     _ <- (if is_windows then co_uninitialize else Ok tt) ;;
     _ <- os_remove docx ;;
     Ok pdf)
    (fun _ => true)
    (Ok docx)
  = Ok (if converts docx pdf then pdf else docx).
Proof.
  unfold converts.
  destruct (if is_windows then co_initialize else Ok tt) as [[]|];
    [|reflexivity].
  cbn [bind is_ok andb]. destruct (convert docx pdf) as [[]|]; [|reflexivity].
  cbn [bind is_ok andb].
  destruct (if is_windows then co_uninitialize else Ok tt) as [[]|];
    [|reflexivity].
  cbn [bind is_ok andb]. destruct (os_remove docx) as [[]|]; reflexivity.
Qed.

(** X13: the document is saved under a name that is safe for a file
    system, as a PDF when the conversion works and as the .docx file when
    it does not.  When the form data is a dict whose municipality is a
    text (or is missing), [docx2pdf] can be imported and the document can
    be saved, [_save_document] does not raise: it returns the output
    directory joined with MGA_<name>_<timestamp>.pdf when every step of
    the conversion succeeds, and with MGA_<name>_<timestamp>.docx as soon
    as one of them raises.  The name is the municipality as
    [municipio_name] cleans it: never empty, and made of letters a-z and
    A-Z, digits, underscore and hyphen only. *)
Theorem save_document_name (d : pydict) (m : string)
    (Hm : get d "municipio" (PStr "documento") = PStr m)
    (Himport : import_docx2pdf = Ok tt)
    (Hsave : forall path, doc_save path = Ok tt) :
  exists name,
    municipio_name (PDict d) = Ok name
    /\ name <> ""
    /\ all_chars is_name_char name = true
    /\ _save_document timestamp output_dir path_join import_docx2pdf
         doc_save is_windows co_initialize convert co_uninitialize
         os_remove (PDict d)
       = Ok (if converts
                  (path_join output_dir
                     ("MGA_" ++ name ++ "_" ++ timestamp ++ ".docx"))
                  (path_join output_dir
                     ("MGA_" ++ name ++ "_" ++ timestamp ++ ".pdf"))
             then path_join output_dir
                    ("MGA_" ++ name ++ "_" ++ timestamp ++ ".pdf")
             else path_join output_dir
                    ("MGA_" ++ name ++ "_" ++ timestamp ++ ".docx")).
Proof.
  destruct (municipio_name (PDict d)) as [name|] eqn:En.
  2:{ unfold municipio_name in En. rewrite Hm in En. discriminate. }
  destruct (municipio_name_safe _ _ En) as [Hne Hsafe].
  exists name. split; [reflexivity|]. split; [exact Hne|].
  split; [exact Hsafe|].
  unfold _save_document. rewrite Himport, En. cbn [bind].
  rewrite Hsave. cbn [bind]. apply conversion_outcome.
Qed.
End Facts.

Definition always_ok (path : string) : result unit := Ok tt.
Definition no_converter (docx pdf : string) : result unit := Raise ValueError.
Definition converter (docx pdf : string) : result unit := Ok tt.
Definition join (dir file : string) : string := dir ++ "/" ++ file.

Definition san_pablo : pydict := [("municipio", PStr "San Pablo (Sur)")].

(** A conversion that fails and one that works, off Windows. *)
Lemma save_document_name_witness :
  (exists name,
     municipio_name (PDict san_pablo) = Ok name
     /\ name <> ""
     /\ all_chars is_name_char name = true
     /\ _save_document "20260101_000000" "output" join (Ok tt) always_ok
          false (Ok tt) no_converter (Ok tt) always_ok (PDict san_pablo)
        = Ok (if converts false (Ok tt) no_converter (Ok tt) always_ok
                   (join "output"
                      ("MGA_" ++ name ++ "_" ++ "20260101_000000" ++ ".docx"))
                   (join "output"
                      ("MGA_" ++ name ++ "_" ++ "20260101_000000" ++ ".pdf"))
              then join "output"
                     ("MGA_" ++ name ++ "_" ++ "20260101_000000" ++ ".pdf")
              else join "output"
                     ("MGA_" ++ name ++ "_" ++ "20260101_000000" ++ ".docx")))
  /\ (exists name,
        municipio_name (PDict san_pablo) = Ok name
        /\ name <> ""
        /\ all_chars is_name_char name = true
        /\ _save_document "20260101_000000" "output" join (Ok tt) always_ok
             false (Ok tt) converter (Ok tt) always_ok (PDict san_pablo)
           = Ok (if converts false (Ok tt) converter (Ok tt) always_ok
                      (join "output"
                         ("MGA_" ++ name ++ "_" ++ "20260101_000000"
                          ++ ".docx"))
                      (join "output"
                         ("MGA_" ++ name ++ "_" ++ "20260101_000000"
                          ++ ".pdf"))
                 then join "output"
                        ("MGA_" ++ name ++ "_" ++ "20260101_000000" ++ ".pdf")
                 else join "output"
                        ("MGA_" ++ name ++ "_" ++ "20260101_000000"
                         ++ ".docx"))).
Proof.
  split.
  - apply (save_document_name "20260101_000000" "output" join (Ok tt)
             always_ok false (Ok tt) no_converter (Ok tt) always_ok
             san_pablo "San Pablo (Sur)");
      reflexivity.
  - apply (save_document_name "20260101_000000" "output" join (Ok tt)
             always_ok false (Ok tt) converter (Ok tt) always_ok
             san_pablo "San Pablo (Sur)");
      reflexivity.
Defined.

(** The two paths of the example. *)
Example save_document_paths :
  _save_document "20260101_000000" "output" join (Ok tt) always_ok
    false (Ok tt) no_converter (Ok tt) always_ok (PDict san_pablo)
  = Ok "output/MGA_San_Pablo_Sur_20260101_000000.docx"
  /\ _save_document "20260101_000000" "output" join (Ok tt) always_ok
       false (Ok tt) converter (Ok tt) always_ok (PDict san_pablo)
     = Ok "output/MGA_San_Pablo_Sur_20260101_000000.pdf"
  /\ _save_document "20260101_000000" "output" join (Ok tt) always_ok
       true (Raise AttributeError) converter (Ok tt) always_ok
       (PDict san_pablo)
     = Ok "output/MGA_San_Pablo_Sur_20260101_000000.docx".
Proof. repeat split; reflexivity. Qed.

End SaveDocumentFacts.

(* ================================================================== *)
(** * [build] writes into the caller's content *)

Module BuildFacts.
Import Builder Generation Document Page1Facts.

Lemma od_mem_get (d : pydict) k :
  od_mem String.eqb d k
  = match dict_get d k with Some _ => true | None => false end.
Proof. reflexivity. Qed.

Section Facts.
Variables now now_render : string.
Variable start_document : pyval -> result unit.
Variable add_pages : pydict -> page1 -> pydict -> result string.

(** X14: [build] changes the [ai_content] it is given.  When the call
    returns and the content has a page-1 record, that record is rewritten
    in the caller's dict: its project name is the one of the form data
    (empty when the form has none) whatever the model generated, its BPIN
    code is the generated one if that is not empty and the form's
    otherwise; every other key of the content keeps its value.  When the
    content has no page-1 record it is left as it was. *)
Theorem build_rewrites_callers_content (data ai_content : pydict)
    (letterhead_file : pyval) (filepath : string) (after : pydict)
    (Hbuild : build now now_render start_document add_pages
                data ai_content letterhead_file = Ok (filepath, after)) :
  (dict_get ai_content "pagina_1_datos_basicos" = None ->
   after = ai_content)
  /\ (forall p,
        dict_get ai_content "pagina_1_datos_basicos" = Some (PDict p) ->
        exists p',
          dict_get after "pagina_1_datos_basicos" = Some (PDict p')
          /\ get p' "nombre_proyecto" PNone
             = py_or (get data "nombre_proyecto" PNone) (PStr "")
          /\ get p' "codigo_bpin" PNone
             = generated_first (get p "codigo_bpin" PNone)
                               (get data "bpin" PNone) (PStr "")
          /\ forall k, ("pagina_1_datos_basicos" =? k)%string = false ->
               dict_get after k = dict_get ai_content k).
Proof.
  unfold build in Hbuild.
  destruct (start_document letterhead_file) as [[]|]; [|discriminate].
  cbn [bind] in Hbuild.
  destruct (page1_content now data ai_content) as [p1|] eqn:E1;
    [|discriminate].
  cbn [bind] in Hbuild.
  destruct (add_pages _ _ _) as [path|]; [|discriminate].
  cbn [bind] in Hbuild. injection Hbuild as _ <-.
  rewrite od_mem_get. split.
  - intros Hnone. now rewrite Hnone.
  - intros p Hp. rewrite Hp.
    assert (Hget : get ai_content "pagina_1_datos_basicos" (PDict [])
                   = PDict p) by (unfold get; now rewrite Hp).
    rewrite (page1_content_assign now data ai_content p Hget) in E1.
    injection E1 as <-.
    exists (page1_assignments now data p).
    split; [now rewrite dict_get_set, String.eqb_refl|].
    split; [|split].
    + unfold page1_assignments. get_through_sets. reflexivity.
    + unfold page1_assignments. get_through_sets. reflexivity.
    + intros k Hk. now rewrite dict_get_set, Hk.
Qed.
End Facts.

Definition generated : pydict :=
  [("pagina_1_datos_basicos",
    PDict [("nombre_proyecto", PStr "Nombre generado");
           ("codigo_bpin", PStr "")]);
   ("pagina_3_problematica", PDict [("problema_central", PStr "P")])].

Definition form : pydict :=
  [("nombre_proyecto", PStr "Subsidios 2026"); ("bpin", PStr "2026000123")].

Definition started (letterhead_file : pyval) : result unit := Ok tt.
Definition saved (data : pydict) (p : page1) (ai_content : pydict)
    : result string := Ok "output/MGA.pdf".

Definition generated_after : pydict :=
  Eval vm_compute in
    match build "01/01/2026 00:00:00" "01/01/2026 00:00:00" started saved
            form generated PNone with
    | Ok (_, after) => after
    | Raise _ => []
    end.

Lemma build_rewrites_callers_content_witness :
  (dict_get generated "pagina_1_datos_basicos" = None ->
   generated_after = generated)
  /\ (forall p,
        dict_get generated "pagina_1_datos_basicos" = Some (PDict p) ->
        exists p',
          dict_get generated_after "pagina_1_datos_basicos"
          = Some (PDict p')
          /\ get p' "nombre_proyecto" PNone
             = py_or (get form "nombre_proyecto" PNone) (PStr "")
          /\ get p' "codigo_bpin" PNone
             = generated_first (get p "codigo_bpin" PNone)
                               (get form "bpin" PNone) (PStr "")
          /\ forall k, ("pagina_1_datos_basicos" =? k)%string = false ->
               dict_get generated_after k = dict_get generated k).
Proof.
  apply (build_rewrites_callers_content "01/01/2026 00:00:00"
           "01/01/2026 00:00:00" started saved form generated PNone
           "output/MGA.pdf" generated_after).
  vm_compute. reflexivity.
Defined.

(** The content after the call holds the form's project name where the
    model had written its own. *)
Example build_discards_generated_project_name :
  get generated "pagina_1_datos_basicos" PNone
  = PDict [("nombre_proyecto", PStr "Nombre generado");
           ("codigo_bpin", PStr "")]
  /\ exists p', get generated_after "pagina_1_datos_basicos" PNone = PDict p'
       /\ get p' "nombre_proyecto" PNone = PStr "Subsidios 2026"
       /\ get p' "codigo_bpin" PNone = PStr "2026000123".
Proof.
  split; [reflexivity|]. eexists. split; [reflexivity|].
  split; reflexivity.
Qed.

End BuildFacts.

(* ================================================================== *)
(** * [generate_all]: one record per document type *)

Module UnifiedFacts.
Import Builder Unified.

Section Facts.
Variable get_llm : string -> result unit.
Variable make_generators : result unit.
Variable exn_text : exn -> string.
Variable generate : string -> pydict -> result pyval.
Variable path_exists : pyval -> result bool.
Variable create_zip : list pyval -> pyval -> result string.

(** What one document type comes to, from its own generator alone: its
    record and, if its file exists, the file. *)
Definition outcome (data : pydict) (doc_type : string)
    : pyval * list pyval :=
  match generate doc_type data with
  | Raise e => (error_record doc_type (exn_text e), [])
  | Ok result =>
      let filepath := filepath_of result in
      match (if truthy filepath then path_exists filepath else Ok false) with
      | Raise e => (error_record doc_type (exn_text e), [])
      | Ok true => (success_record doc_type filepath, [filepath])
      | Ok false =>
          (error_record doc_type "File not created or invalid return type",
           [])
      end
  end.

Lemma run_task_outcome data st doc_type :
  run_task exn_text generate path_exists data st doc_type
  = Ok (fst st ++ [fst (outcome data doc_type)],
        snd st ++ snd (outcome data doc_type)).
Proof.
  unfold run_task, outcome.
  destruct (generate doc_type data) as [result|e]; cbn [bind try_except_as].
  - destruct (if truthy (filepath_of result)
              then path_exists (filepath_of result) else Ok false)
      as [[|]|e]; cbn [bind try_except_as fst snd]; try reflexivity.
    + now rewrite app_nil_r.
    + now rewrite app_nil_r.
  - cbn [fst snd]. now rewrite app_nil_r.
Qed.

Lemma run_tasks data types : forall st,
  for_each (run_task exn_text generate path_exists data) types st
  = Ok (fst st ++ map (fun t => fst (outcome data t)) types,
        snd st ++ flat_map (fun t => snd (outcome data t)) types).
Proof.
  induction types as [|t types IH]; intros st; cbn [for_each map flat_map].
  - rewrite !app_nil_r. now destruct st.
  - rewrite run_task_outcome. cbn [bind]. rewrite IH. cbn [fst snd].
    now rewrite <- !app_assoc.
Qed.

(** X15: [generate_all] reports on every document type.  Once the
    model and the generators are set up, and provided the archive can be
    written, the result lists exactly one record per document type, in the
    fixed order estudios_previos, analisis_sector, dts, certificaciones,
    mga_subsidios.  Each record follows from the generator of its own type
    alone: an exception in one generator becomes the error record of that
    type and the other types are generated all the same.  The result
    counts as a success as soon as one file exists. *)
Theorem generate_all_reports_every_type (data : pydict) (model_name : string)
    (Hllm : get_llm model_name = Ok tt)
    (Hgenerators : make_generators = Ok tt)
    (Hzip : forall files name, exists path, create_zip files name = Ok path) :
  exists zip_file,
    generate_all get_llm make_generators exn_text generate path_exists
      create_zip data model_name
    = Ok [("success",
           PBool (existsb (fun t => match snd (outcome data t) with
                                    | [] => false
                                    | _ => true
                                    end) doc_types));
          ("results", PList (map (fun t => fst (outcome data t)) doc_types));
          ("zip_file", zip_file)].
Proof.
  unfold generate_all. rewrite Hllm, Hgenerators. cbn [bind].
  rewrite run_tasks. cbn [bind fst snd app].
  set (files := flat_map (fun t => snd (outcome data t)) doc_types).
  assert (Hs : (0 <? List.length files)%nat
               = existsb (fun t => match snd (outcome data t) with
                                   | [] => false
                                   | _ => true
                                   end) doc_types).
  { unfold files. generalize doc_types. intros l.
    induction l as [|t l IH]; [reflexivity|]. cbn [flat_map existsb].
    destruct (snd (outcome data t)); [exact IH|reflexivity]. }
  rewrite Hs.
  destruct files as [|f files'] eqn:Ef.
  - exists PNone. reflexivity.
  - destruct (Hzip (f :: files') (get data "municipio" (PStr "proyecto")))
      as [path Ep].
    exists (PStr path). rewrite Ep. reflexivity.
Qed.
End Facts.

(** ** The name of the archive *)

Fixpoint all_chars (p : ascii -> bool) (s : string) : bool :=
  match s with
  | EmptyString => true
  | String c s' => p c && all_chars p s'
  end.

(** [x.isalnum() or x in (' ', '-', '_')] for a character [x]. *)
Definition kept_in_name (c : ascii) : bool :=
  is_alnum c || Ascii.eqb c " " || Ascii.eqb c "-" || Ascii.eqb c "_".

Fixpoint keep_chars (p : ascii -> bool) (s : string) : string :=
  match s with
  | EmptyString => EmptyString
  | String c s' =>
      if p c then String c (keep_chars p s') else keep_chars p s'
  end.

Lemma all_chars_keep p s : all_chars p (keep_chars p s) = true.
Proof.
  induction s as [|c s IH]; [reflexivity|]. cbn [keep_chars].
  destruct (p c) eqn:E; [|assumption]. cbn [all_chars]. now rewrite E.
Qed.

Lemma all_chars_lstrip p s :
  all_chars p s = true -> all_chars p (lstrip s) = true.
Proof.
  induction s as [|c s IH]; intros H; [reflexivity|]. cbn [lstrip].
  destruct (is_space c); [|assumption].
  cbn [all_chars] in H. apply andb_true_iff in H. now apply IH.
Qed.

Lemma rstrip_unfold c s :
  rstrip (String c s)
  = match rstrip s with
    | EmptyString => if is_space c then EmptyString else String c EmptyString
    | r => String c r
    end.
Proof. reflexivity. Qed.

Lemma all_chars_rstrip p s :
  all_chars p s = true -> all_chars p (rstrip s) = true.
Proof.
  induction s as [|c s IH]; intros H; [reflexivity|].
  cbn [all_chars] in H. apply andb_true_iff in H. destruct H as [Hc Hs].
  rewrite rstrip_unfold. specialize (IH Hs).
  destruct (rstrip s) as [|c' r].
  - destruct (is_space c); [reflexivity|]. cbn [all_chars]. now rewrite Hc.
  - cbn [all_chars] in *. now rewrite Hc.
Qed.

Lemma rstrip_rstrip s : rstrip (rstrip s) = rstrip s.
Proof.
  induction s as [|c s IH]; [reflexivity|]. rewrite rstrip_unfold.
  destruct (rstrip s) as [|c' r] eqn:E.
  - destruct (is_space c) eqn:Ec; [reflexivity|].
    rewrite rstrip_unfold. cbn [rstrip]. now rewrite Ec.
  - rewrite rstrip_unfold, IH. reflexivity.
Qed.

(** Nothing to strip on the left. *)
Definition left_stripped (s : string) : bool :=
  match s with
  | EmptyString => true
  | String c _ => negb (is_space c)
  end.

Lemma left_stripped_lstrip s : left_stripped (lstrip s) = true.
Proof.
  induction s as [|c s IH]; [reflexivity|]. cbn [lstrip].
  destruct (is_space c) eqn:E; [assumption|]. cbn. now rewrite E.
Qed.

Lemma lstrip_left_stripped s : left_stripped s = true -> lstrip s = s.
Proof.
  destruct s as [|c s]; [reflexivity|]. cbn. intros H.
  apply negb_true_iff in H. now rewrite H.
Qed.

Lemma left_stripped_rstrip s :
  left_stripped s = true -> left_stripped (rstrip s) = true.
Proof.
  destruct s as [|c s]; [reflexivity|]. cbn [left_stripped].
  intros H. rewrite rstrip_unfold. destruct (rstrip s).
  - apply negb_true_iff in H. rewrite H. cbn. now rewrite H.
  - exact H.
Qed.

Lemma strip_strip s : strip (strip s) = strip s.
Proof.
  unfold strip.
  rewrite (lstrip_left_stripped (rstrip (lstrip s))).
  - apply rstrip_rstrip.
  - apply left_stripped_rstrip, left_stripped_lstrip.
Qed.

Lemma name_parts_of_chars s :
  map_m name_part (chars s)
  = Ok (map (fun c => if kept_in_name c then String c "" else "")
            (list_ascii_of_string s)).
Proof.
  induction s as [|c s IH]; [reflexivity|].
  cbn [chars map_m list_ascii_of_string map]. rewrite IH.
  cbn [name_part bind]. f_equal. f_equal.
  unfold kept_in_name, isalnum. cbn [all_alnum]. rewrite andb_true_r.
  cbn [String.eqb]. 
  replace (Ascii.eqb c " " && true) with (Ascii.eqb c " ")
    by now rewrite andb_true_r.
  destruct (Ascii.eqb c " "), (Ascii.eqb c "-"), (Ascii.eqb c "_"),
    (is_alnum c); reflexivity.
Qed.

Lemma concat_kept s :
  String.concat ""
    (map (fun c => if kept_in_name c then String c "" else "")
         (list_ascii_of_string s))
  = keep_chars kept_in_name s.
Proof.
  induction s as [|c s IH]; [reflexivity|].
  cbn [list_ascii_of_string map keep_chars].
  destruct (list_ascii_of_string s) as [|c' l] eqn:E.
  - destruct s; [|discriminate]. cbn.
    destruct (kept_in_name c); reflexivity.
  - cbn [map String.concat] in *. rewrite IH.
    destruct (kept_in_name c); reflexivity.
Qed.

(** The name [safe_name] makes of a text. *)
Lemma safe_name_text (project_name : string) :
  safe_name (PStr project_name)
  = Ok (strip (keep_chars kept_in_name project_name)).
Proof.
  unfold safe_name. cbn [py_iter bind].
  rewrite name_parts_of_chars. cbn [bind]. now rewrite concat_kept.
Qed.

Section CreateZip.
Variable timestamp : string.
Variable output_dir : string.
Variable path_join : string -> string -> string.
Variable write_zip : string -> list pyval -> result unit.

(** X16: the archive is named after the municipality with every
    character removed that is not a letter, a digit, a space, a hyphen or
    an underscore, and without white space at either end.  For a
    municipality given as a text, and provided the archive can be written,
    [_create_zip] returns the output directory joined with
    MGA_Documentos_<name>_<timestamp>.zip for such a name. *)
Theorem create_zip_name (file_paths : list pyval) (project_name : string)
    (Hwrite : forall path files, write_zip path files = Ok tt) :
  exists name,
    _create_zip timestamp output_dir path_join write_zip file_paths
      (PStr project_name)
    = Ok (path_join output_dir
            ("MGA_Documentos_" ++ name ++ "_" ++ timestamp ++ ".zip")%string)
    /\ name = strip (keep_chars kept_in_name project_name)
    /\ all_chars kept_in_name name = true
    /\ strip name = name.
Proof.
  exists (strip (keep_chars kept_in_name project_name)).
  split; [|split; [reflexivity|split]].
  - unfold _create_zip. rewrite safe_name_text. cbn [bind].
    rewrite Hwrite. reflexivity.
  - unfold strip. apply all_chars_rstrip, all_chars_lstrip, all_chars_keep.
  - apply strip_strip.
Qed.
End CreateZip.

Definition written (path : string) (files : list pyval) : result unit :=
  Ok tt.

Lemma create_zip_name_witness :
  exists name,
    _create_zip "20260101_000000" "output"
      (fun dir file => (dir ++ "/" ++ file)%string) written
      [PStr "output/MGA.pdf"] (PStr " San Pablo / Sur ")
    = Ok ((fun dir file => (dir ++ "/" ++ file)%string) "output"
            ("MGA_Documentos_" ++ name ++ "_" ++ "20260101_000000"
             ++ ".zip")%string)
    /\ name = strip (keep_chars kept_in_name " San Pablo / Sur ")
    /\ all_chars kept_in_name name = true
    /\ strip name = name.
Proof.
  apply (create_zip_name "20260101_000000" "output"
           (fun dir file => (dir ++ "/" ++ file)%string) written
           [PStr "output/MGA.pdf"] " San Pablo / Sur ").
  reflexivity.
Defined.

Definition ready (model_name : string) : result unit := Ok tt.
Definition no_text (e : exn) : string := "error".

(** Four generators fail, each in its way; the last one returns a file. *)
Definition generators (doc_type : string) (data : pydict) : result pyval :=
  if (doc_type =? "estudios_previos")%string then Raise TypeError
  else if (doc_type =? "analisis_sector")%string then Ok PNone
  else if (doc_type =? "dts")%string then Ok (PDict [("filepath", PStr "")])
  else if (doc_type =? "certificaciones")%string then Raise KeyError
  else Ok (PDict [("filepath", PStr "output/MGA.pdf")]).

Definition on_disk (filepath : pyval) : result bool := Ok true.
Definition zipped (files : list pyval) (name : pyval) : result string :=
  Ok "output/MGA_Documentos.zip".

Lemma generate_all_reports_every_type_witness :
  exists zip_file,
    generate_all ready (Ok tt) no_text generators on_disk zipped [] "groq"
    = Ok [("success",
           PBool (existsb
                    (fun t => match snd (outcome no_text generators on_disk
                                           [] t) with
                              | [] => false
                              | _ => true
                              end) doc_types));
          ("results",
           PList (map (fun t => fst (outcome no_text generators on_disk [] t))
                      doc_types));
          ("zip_file", zip_file)].
Proof.
  apply (generate_all_reports_every_type ready (Ok tt) no_text generators
           on_disk zipped [] "groq"); try reflexivity.
  intros files name. now exists "output/MGA_Documentos.zip".
Defined.

End UnifiedFacts.

(* ================================================================== *)
(** * The value chain of content that is not nested *)

Module FlatCadenaFacts.
Import Builder CadenaValorFacts.

(** A list of records, possibly empty. *)
Definition list_of_dicts (v : pyval) : bool :=
  match v with
  | PList l => forallb is_dict l
  | _ => false
  end.

(** The activities a product row is built from: the product's own when it
    has some, those at the top level of the content otherwise. *)
Definition activities_of (top : pyval) (prod : pyval) : pyval :=
  let own := field prod "actividades" (PList []) in
  if truthy own then own else top.

(** A product record whose activities, its own or those of the top level,
    are a list of records. *)
Definition flat_producto (top : pyval) (prod : pyval) : bool :=
  is_dict prod && list_of_dicts (activities_of top prod).

(** The elements with their positions, as [enumerate] gives them. *)
Fixpoint enumerate {A : Type} (i : nat) (l : list A) : list (nat * A) :=
  match l with
  | [] => []
  | x :: l' => (i, x) :: enumerate (S i) l'
  end.

(** The code of the product at position [idx]: its own, or [1.<idx+1>]. *)
Definition code_at (ip : nat * pyval) : pyval :=
  field (snd ip) "codigo" (PStr ("1." ++ str_nat (fst ip + 1))).

Lemma py_or_same v : py_or v v = v.
Proof. unfold py_or. destruct (truthy v); reflexivity. Qed.

Lemma py_or_truthy_list x l v :
  truthy (py_or (PList (x :: l)) v) = true.
Proof. reflexivity. Qed.

Lemma render_producto_flat c idx prod :
  flat_producto (get c "actividades" (PList [])) prod = true ->
  exists pr,
    render_producto c (get c "actividades" (PList [])) idx prod = Ok pr
    /\ pr_codigo pr = code_at (idx, prod)
    /\ pr_nombre pr = field prod "nombre" (PStr "")
    /\ pr_actividades pr
       = map shown_actividad
             (elements (activities_of (get c "actividades" (PList [])) prod)).
Proof.
  unfold flat_producto. destruct prod as [| | | | |p]; try discriminate.
  cbn [is_dict andb]. intros Hacts.
  unfold render_producto, activities_of in *. cbn [field] in *.
  rewrite py_or_same.
  destruct (truthy (get p "actividades" (PList []))); cbn [negb] in *.
  - destruct (get p "actividades" (PList [])) as [| | | |acts|];
      try discriminate.
    cbn [py_iter bind elements]. cbn [list_of_dicts] in Hacts.
    rewrite (map_m_ok render_actividad shown_actividad acts).
    2:{ intros a Ha. apply render_actividad_shown.
        apply (proj1 (forallb_forall _ _) Hacts a Ha). }
    cbn [bind]. eexists. repeat split; reflexivity.
  - destruct (get c "actividades" (PList [])) as [| | | |acts|];
      try discriminate.
    cbn [py_iter bind elements]. cbn [list_of_dicts] in Hacts.
    rewrite (map_m_ok render_actividad shown_actividad acts).
    2:{ intros a Ha. apply render_actividad_shown.
        apply (proj1 (forallb_forall _ _) Hacts a Ha). }
    cbn [bind]. eexists. repeat split; reflexivity.
Qed.

(** The product rows of a list of such products, from position [i] on. *)
Lemma render_productos_flat c : forall prods i,
  forallb (flat_producto (get c "actividades" (PList []))) prods = true ->
  exists rows,
    mapi_m (render_producto c (get c "actividades" (PList []))) i prods
    = Ok rows
    /\ map pr_codigo rows = map code_at (enumerate i prods)
    /\ map pr_nombre rows = map (fun p => field p "nombre" (PStr "")) prods
    /\ map pr_actividades rows
       = map (fun p =>
                map shown_actividad
                    (elements
                       (activities_of (get c "actividades" (PList [])) p)))
             prods.
Proof.
  induction prods as [|p prods IH]; intros i H.
  - exists []. repeat split; reflexivity.
  - cbn [forallb] in H. apply andb_true_iff in H. destruct H as [Hp H].
    destruct (render_producto_flat c i p Hp) as [pr [Hpr [Hc [Hn Ha]]]].
    destruct (IH (S i) H) as [rows [Hrows [Hcs [Hns Has]]]].
    exists (pr :: rows). cbn [mapi_m]. rewrite Hpr. cbn [bind].
    rewrite Hrows. cbn [bind map enumerate].
    rewrite Hc, Hn, Ha, Hcs, Hns, Has. repeat split; reflexivity.
Qed.

(** The fields of the objective made at lines 1051-1056. *)
Definition made_objetivo (descripcion costo productos : pyval) : pydict :=
  [("numero", PStr "1"); ("descripcion", descripcion); ("costo", costo);
   ("productos", productos)].

Lemma made_objetivo_fields descripcion costo productos d1 d2 d3 d4 :
  get (made_objetivo descripcion costo productos) "numero" d1 = PStr "1"
  /\ get (made_objetivo descripcion costo productos) "costo" d2 = costo
  /\ get (made_objetivo descripcion costo productos) "descripcion" d3
     = descripcion
  /\ get (made_objetivo descripcion costo productos) "productos" d4
     = productos.
Proof. repeat split; reflexivity. Qed.

(** X17: content that gives no objectives but products at its top level.
    When [objetivos] is missing or empty and [productos] is a non-empty
    list of product records, the page shows exactly one objective: number
    1, the total cost of the page as its cost, [objetivo_general] (the
    project name of the form when the content has none) as its
    description.  Under it there is one row per product, in the order of
    the content; a product without a code is numbered [1.<position>], and
    a product without activities of its own shows the activities of the
    top level of the content, so every such product shows the same
    activities. *)
Theorem flat_content_one_objective (data c : pydict) (x : pyval)
    (l : list pyval)
    (Hobjetivos : truthy (get c "objetivos" (PList [])) = false)
    (Hproductos : get c "productos" (PList []) = PList (x :: l))
    (Hflat : forallb (flat_producto (get c "actividades" (PList [])))
                     (x :: l) = true) :
  exists rows,
    _add_page_14_cadena_valor data (PDict c)
    = Ok {| cv_costo_total := py_or (get c "costo_total" (PStr ""))
                                    (get data "valor_total" (PStr ""));
            cv_objetivos :=
              [{| o_numero := PStr "1";
                  o_costo := py_or (get c "costo_total" (PStr ""))
                                   (get data "valor_total" (PStr ""));
                  o_descripcion :=
                    get c "objetivo_general"
                        (get data "nombre_proyecto" (PStr ""));
                  o_productos := rows |}] |}
    /\ map pr_codigo rows = map code_at (enumerate 0 (x :: l))
    /\ map pr_nombre rows
       = map (fun p => field p "nombre" (PStr "")) (x :: l)
    /\ map pr_actividades rows
       = map (fun p =>
                map shown_actividad
                    (elements
                       (activities_of (get c "actividades" (PList [])) p)))
             (x :: l).
Proof.
  destruct (render_productos_flat c (x :: l) 0 Hflat)
    as [rows [Hrows Hshown]].
  exists rows. split; [|exact Hshown].
  unfold _add_page_14_cadena_valor. rewrite Hobjetivos, Hproductos.
  cbn [negb andb]. rewrite py_or_truthy_list.
  cbn [py_iter bind map_m]. unfold render_objetivo.
  match goal with
  | |- context [get ?o "productos" (PList [])] =>
      match o with
      | [("numero", _); ("descripcion", ?d); ("costo", ?k); ("productos", ?p)]
        => change o with (made_objetivo d k p);
           destruct (made_objetivo_fields d k p (PStr "1") k (PStr "")
                       (PList [])) as [Hn [Hk [Hd Hp]]];
           rewrite Hn, Hk, Hd, Hp
      end
  end.
  cbn [negb truthy py_iter bind].
  rewrite Hrows. cbn [bind]. reflexivity.
Qed.

(** Two products at the top level, the second without a code and without
    activities, and one activity at the top level. *)
Definition flat_data : pydict := [("nombre_proyecto", PStr "Subsidios")].

Definition flat_content : pydict :=
  [("costo_total", PInt 100);
   ("productos",
    PList [PDict [("codigo", PStr "A"); ("nombre", PStr "Subsidio");
                  ("actividades",
                   PList [PDict [("codigo", PStr "A.1");
                                 ("costo", PInt 60)]])];
           PDict [("nombre", PStr "Informe")]]);
   ("actividades", PList [PDict [("codigo", PStr "T");
                                 ("costo", PInt 40)]])].

Definition flat_products : list pyval :=
  elements (get flat_content "productos" (PList [])).

Lemma flat_content_one_objective_witness :
  exists rows,
    _add_page_14_cadena_valor flat_data (PDict flat_content)
    = Ok {| cv_costo_total := PInt 100;
            cv_objetivos :=
              [{| o_numero := PStr "1";
                  o_costo := PInt 100;
                  o_descripcion := PStr "Subsidios";
                  o_productos := rows |}] |}
    /\ map pr_codigo rows = [PStr "A"; PStr "1.2"]
    /\ map pr_nombre rows = [PStr "Subsidio"; PStr "Informe"]
    /\ map (fun pr => map a_codigo (pr_actividades pr)) rows
       = [[PStr "A.1"]; [PStr "T"]].
Proof.
  destruct (flat_content_one_objective flat_data flat_content
              (hd PNone flat_products) (tl flat_products)
              eq_refl eq_refl eq_refl)
    as [rows [Hpage [Hcodes [Hnames Hacts]]]].
  exists rows. split; [exact Hpage|]. split; [exact Hcodes|].
  split; [exact Hnames|].
  rewrite <- (map_map pr_actividades (map a_codigo)), Hacts. reflexivity.
Defined.

End FlatCadenaFacts.

(* ================================================================== *)
(** * [_extract_json] on an answer that wraps its JSON text *)

Module WrappedAnswerFacts.
Import Generator Builder ExtractJsonFacts.
Local Open Scope string_scope.

(** [c not in s] *)
Fixpoint without (c : ascii) (s : string) : bool :=
  match s with
  | EmptyString => true
  | String b s' => negb (Ascii.eqb c b) && without c s'
  end.

Definition backquote : ascii := "`".

Lemma without_app c a b :
  without c (a ++ b) = without c a && without c b.
Proof.
  induction a as [|x a IH]; [reflexivity|].
  cbn [append without]. rewrite IH. apply andb_assoc.
Qed.

Lemma strip_prefix_here t : forall rest, strip_prefix t (t ++ rest) = Some rest.
Proof.
  induction t as [|a t IH]; intros rest; [reflexivity|].
  cbn [append strip_prefix]. rewrite Ascii.eqb_refl. apply IH.
Qed.

(** A text that starts with [c] is first found after a text without
    [c]. *)
Lemma split_first_after c t : forall pre rest,
  without c pre = true ->
  split_first (String c t) (pre ++ String c (t ++ rest)) = Some (pre, rest).
Proof.
  induction pre as [|b pre IH]; intros rest H.
  - cbn [append]. rewrite split_first_unfold.
    change (String c (t ++ rest)) with (String c t ++ rest).
    now rewrite strip_prefix_here.
  - cbn [without] in H. apply andb_true_iff in H. destruct H as [Hb H].
    cbn [append]. rewrite split_first_unfold. cbn [strip_prefix].
    apply negb_true_iff in Hb. rewrite Hb.
    now rewrite (IH rest H).
Qed.

Lemma split_first_without c t : forall s,
  without c s = true -> split_first (String c t) s = None.
Proof.
  induction s as [|b s IH]; intros H; [reflexivity|].
  cbn [without] in H. apply andb_true_iff in H. destruct H as [Hb H].
  rewrite split_first_unfold. cbn [strip_prefix].
  apply negb_true_iff in Hb. rewrite Hb. now rewrite (IH H).
Qed.

Lemma split_last_without c : forall s,
  without c s = true -> split_last (String c "") s = None.
Proof.
  induction s as [|b s IH]; intros H; [reflexivity|].
  cbn [without] in H. apply andb_true_iff in H. destruct H as [Hb H].
  cbn [split_last]. rewrite (IH H). cbn [strip_prefix].
  apply negb_true_iff in Hb. now rewrite Hb.
Qed.

(** The last [c] of a text is the one that only a text without [c]
    follows. *)
Lemma split_last_before c : forall body post,
  without c post = true ->
  split_last (String c "") (body ++ String c post) = Some (body, post).
Proof.
  induction body as [|b body IH]; intros post H.
  - cbn [append split_last]. rewrite (split_last_without c post H).
    cbn [strip_prefix]. now rewrite Ascii.eqb_refl.
  - cbn [append split_last]. now rewrite (IH post H).
Qed.

Section Wrapped.
Variable json_loads : string -> result pyval.

(** X18: an answer that holds its JSON text in a block fenced with the
    label [json].  When the answer as a whole is not JSON and there is no
    backquote before the block nor inside it, [_extract_json] returns what
    [json.loads] makes of the text of the block without the white space
    around it, whatever precedes and follows the block. *)
Theorem fenced_answer_is_unwrapped (pre body post : string) (v : pyval)
    (Hpre : without backquote pre = true)
    (Hbody : without backquote body = true)
    (Hwhole : json_loads (pre ++ "```json" ++ body ++ "```" ++ post)
              = Raise JSONDecodeError)
    (Hblock : json_loads (strip body) = Ok v) :
  _extract_json json_loads (pre ++ "```json" ++ body ++ "```" ++ post)
  = Ok v.
Proof.
  rewrite extract_json_repaired. unfold repaired, blocks.
  rewrite Hwhole. cbn [first_parsed]. unfold fenced_block at 1.
  change (pre ++ "```json" ++ body ++ "```" ++ post)
    with (pre ++ String backquote ("``json" ++ body ++ "```" ++ post)).
  change "```json" with (String backquote "``json").
  rewrite (split_first_after backquote "``json" pre _ Hpre).
  unfold fence.
  change (body ++ "```" ++ post)
    with (body ++ String backquote ("``" ++ post)).
  change "```" with (String backquote "``").
  rewrite (split_first_after backquote "``" body post Hbody).
  now rewrite Hblock.
Qed.

(** X19: an answer that holds one object between prose.  When the answer
    has no backquote, no opening brace before the object and no closing
    brace after it, and is not JSON as a whole, [_extract_json] returns
    what [json.loads] makes of the text from the first opening brace to
    the last closing brace. *)
Theorem braced_answer_is_unwrapped (pre body post : string) (v : pyval)
    (Hfence : without backquote (pre ++ "{" ++ body ++ "}" ++ post) = true)
    (Hpre : without "{" pre = true)
    (Hpost : without "}" post = true)
    (Hwhole : json_loads (pre ++ "{" ++ body ++ "}" ++ post)
              = Raise JSONDecodeError)
    (Hobject : json_loads ("{" ++ body ++ "}") = Ok v) :
  _extract_json json_loads (pre ++ "{" ++ body ++ "}" ++ post) = Ok v.
Proof.
  rewrite extract_json_repaired. unfold repaired, blocks.
  rewrite Hwhole. cbn [first_parsed]. unfold fenced_block.
  change "```json" with (String backquote "``json").
  change "```" with (String backquote "``").
  rewrite !(split_first_without backquote _ _ Hfence).
  unfold brace_span.
  change (pre ++ "{" ++ body ++ "}" ++ post)
    with (pre ++ String "{" ("" ++ body ++ String "}" post)).
  rewrite (split_first_after "{" "" pre _ Hpre).
  cbn [append].
  rewrite (split_last_before "}" body post Hpost).
  cbn [append] in Hobject |- *. now rewrite Hobject.
Qed.
End Wrapped.

(** An answer of each kind, decoded with [JsonFragment.json_loads]. *)
Definition fenced_pre : string := "Aqui esta:" ++ newline.
Definition fenced_body : string :=
  newline ++ "{ " ++ json_quote ++ "x" ++ json_quote ++ ": 1 }" ++ newline.
Definition braced_body : string :=
  json_quote ++ "x" ++ json_quote ++ ": {" ++ json_quote ++ "y" ++ json_quote
  ++ ": 2}".

Lemma fenced_answer_is_unwrapped_witness :
  _extract_json JsonFragment.json_loads
    (fenced_pre ++ "```json" ++ fenced_body ++ "```" ++ " Fin {")
  = Ok (PDict [("x", PInt 1)]).
Proof.
  apply (fenced_answer_is_unwrapped JsonFragment.json_loads
           fenced_pre fenced_body " Fin {" (PDict [("x", PInt 1)]));
    vm_compute; reflexivity.
Defined.

Lemma braced_answer_is_unwrapped_witness :
  _extract_json JsonFragment.json_loads
    ("El resultado es " ++ "{" ++ braced_body ++ "}" ++ ". Fin")
  = Ok (PDict [("x", PDict [("y", PInt 2)])]).
Proof.
  apply (braced_answer_is_unwrapped JsonFragment.json_loads
           "El resultado es " braced_body ". Fin"
           (PDict [("x", PDict [("y", PInt 2)])]));
    vm_compute; reflexivity.
Defined.

End WrappedAnswerFacts.
